(** * ArduPilot manager: process supervisor, platform orchestrator and
      endpoint registry.

    A shallow embedding of [core/services/ardupilot_manager/ArduPilotManager.py]
    and of the enumerations of [typedefs.py].

    The manager is a Python object whose methods mutate [self] and call into
    collaborators (the MAVLink proxy manager, the firmware manager, the
    settings store, the vehicle manager, [subprocess], [psutil], [time],
    [os]).  Methods are embedded in a state-and-exception monad over a record
    holding the fields of [self], the state of the collaborators and a
    chronological trace of what the method did.  A Python exception leaves
    every mutation made before it in place, so the state is threaded through
    the failure case as well.

    Embedded are the methods behind the public operations: the endpoint
    registry ([add_new_endpoints], [remove_endpoints] and what they call),
    the platform start procedures, the board selection, the termination and
    pruning of processes, kill, start, restart, the auto-restart loop, and
    the loading of the configured endpoints at startup.  The constructor is
    not: it builds the collaborators, loads the settings and starts the
    thread of the auto-restart loop. *)

From Stdlib Require Import String List ZArith Bool Lia DecimalString.
From Stdlib Require Import Sorted Permutation.
Import ListNotations.
Open Scope string_scope.
Open Scope Z_scope.

(* ================================================================== *)
(** * Enumerations of typedefs.py *)

(** [class SITLFrame(str, Enum)] *)
Inductive SITLFrame : Type :=
| QUADPLANE | XPLANE | FIREFLY | PLUS_CONFIG | QUAD | COPTER | X_CONFIG
| BFXREV | BFX | DJIX | CWX | HEXA | HEXA_CWX | HEXA_DJI | OCTA | OCTA_CWX
| OCTA_DJI | OCTA_QUAD_CWX | DODECA_HEXA | TRI | Y_SIX | HELI | HELI_DUAL
| HELI_COMPOUND | SINGLECOPTER | COAXCOPTER | ROVER | BALANCEBOT | SAILBOAT
| MOTORBOAT | CRRCSIM | JSBSIM | FLIGHTAXIS | GAZEBO | LAST_LETTER | TRACKER
| BALLOON | PLANE | CALIBRATION | VECTORED | VECTORED_6DOF | SILENTWINGS
| MORSE | AIRSIM | SCRIMMAGE | WEBOTS | JSON | UNDEFINED.

(** The [.value] of each member. *)
Definition SITLFrame_value (f : SITLFrame) : string :=
  match f with
  | QUADPLANE => "quadplane" | XPLANE => "xplane" | FIREFLY => "firefly"
  | PLUS_CONFIG => "+" | QUAD => "quad" | COPTER => "copter"
  | X_CONFIG => "x" | BFXREV => "bfxrev" | BFX => "bfx" | DJIX => "djix"
  | CWX => "cwx" | HEXA => "hexa" | HEXA_CWX => "hexa-cwx"
  | HEXA_DJI => "hexa-dji" | OCTA => "octa" | OCTA_CWX => "octa-cwx"
  | OCTA_DJI => "octa-dji" | OCTA_QUAD_CWX => "octa-quad-cwx"
  | DODECA_HEXA => "dodeca-hexa" | TRI => "tri" | Y_SIX => "y6"
  | HELI => "heli" | HELI_DUAL => "heli-dual"
  | HELI_COMPOUND => "heli-compound" | SINGLECOPTER => "singlecopter"
  | COAXCOPTER => "coaxcopter" | ROVER => "rover"
  | BALANCEBOT => "balancebot" | SAILBOAT => "sailboat"
  | MOTORBOAT => "motorboat" | CRRCSIM => "crrcsim" | JSBSIM => "jsbsim"
  | FLIGHTAXIS => "flightaxis" | GAZEBO => "gazebo"
  | LAST_LETTER => "last_letter" | TRACKER => "tracker"
  | BALLOON => "balloon" | PLANE => "plane" | CALIBRATION => "calibration"
  | VECTORED => "vectored" | VECTORED_6DOF => "vectored_6dof"
  | SILENTWINGS => "silentwings" | MORSE => "morse" | AIRSIM => "airsim"
  | SCRIMMAGE => "scrimmage" | WEBOTS => "webots" | JSON => " JSON"
  | UNDEFINED => " undefined"
  end.

(** [frame == SITLFrame.UNDEFINED]: members of a [str] enumeration compare by
    value, and [" undefined"] is the value of [UNDEFINED] alone. *)
Definition is_undefined_frame (f : SITLFrame) : bool :=
  String.eqb (SITLFrame_value f) (SITLFrame_value UNDEFINED).

(** [class Vehicle(str, Enum)] *)
Inductive Vehicle : Type := Sub | Rover | Plane | Copter.

(** [class Platform(str, Enum)].  The value of [SITL] is computed from the
    machine architecture by [get_sitl_platform_name].  The manager imports
    [Platform] and [Vehicle] from [firmware.FirmwareDownload]; every member
    it names is declared here. *)
Inductive Platform : Type := Pixhawk1 | Navigator | SITL | Undefined.

Definition get_sitl_platform_name (machine : string) : string :=
  if String.eqb machine "x86_64" then "SITL_x86_64_linux_gnu"
  else "SITL_arm_linux_gnueabihf".

Definition Platform_value (machine : string) (p : Platform) : string :=
  match p with
  | Pixhawk1 => "Pixhawk1"
  | Navigator => "navigator"
  | SITL => get_sitl_platform_name machine
  | Undefined => "Undefined"
  end.

Definition Platform_eqb (a b : Platform) : bool :=
  match a, b with
  | Pixhawk1, Pixhawk1 | Navigator, Navigator | SITL, SITL
  | Undefined, Undefined => true
  | _, _ => false
  end.

(** [platform in [Platform.SITL, Platform.Navigator]] *)
Definition Platform_in (p : Platform) (l : list Platform) : bool :=
  existsb (Platform_eqb p) l.

(** [class FlightControllerType(IntEnum)] as typedefs.py declares it. *)
Inductive FlightControllerType : Type := Serial | NavigatorR3 | NavigatorR4.

Definition FlightControllerType_value (t : FlightControllerType) : Z :=
  match t with Serial => 1 | NavigatorR3 => 2 | NavigatorR4 => 3 end.

(** [class EndpointType(str, Enum)] *)
Inductive EndpointType : Type :=
| UDPServer | UDPClient | TCPServer | TCPClient | SerialEndpoint.

Definition EndpointType_value (t : EndpointType) : string :=
  match t with
  | UDPServer => "udpin" | UDPClient => "udpout" | TCPServer => "tcpin"
  | TCPClient => "tcpout" | SerialEndpoint => "serial"
  end.

(* ================================================================== *)
(** * Data handled by the manager *)

(** Modelled from the spec: the class [Endpoint] of [mavlink_proxy.Endpoint]
    is not among the sources; the specification gives its fields, and the
    manager builds it as [Endpoint(name, owner, kind, place, argument,
    protected=...)]. *)
Record Endpoint : Type := mkEndpoint {
  name : string;
  owner : string;
  connection_type : EndpointType;
  place : string;
  argument : Z;
  protected : bool;
  persistent : bool
}.

(** A [subprocess.Popen] object, known by an opaque identifier. *)
Definition Handle : Type := nat.

(** A [psutil.Process]. *)
Record Process : Type := mkProcess {
  pid : Z;
  process_name : string;
  cmdline : list string
}.

(** The two ways the manager spawns the firmware: one shell command line
    ([shell=True]) or an argument vector ([shell=False]). *)
Inductive Command : Type :=
| Shell (line : string)
| Argv (args : list string).

(** Exceptions.  The first three are raised by the manager itself; [External]
    stands for whatever a collaborator raises.  All of them derive from
    [Exception], which is what every handler of the manager catches. *)
Inductive Exn : Type :=
| RuntimeError (msg : string)
| ValueError (protected_endpoints : list Endpoint)
| ArdupilotProcessKillFail (msg : string)
| External (what : string).

Inductive Level : Type := Debug | Info | Warning | Error.

(** Calls into the collaborators that act on the outside world. *)
Inductive ExtCall : Type :=
| AddEndpoint (e : Endpoint)
| AddEndpoints (l : list Endpoint)
| ClearEndpoints
| RemoveEndpoint (e : Endpoint)
| SetMasterEndpoint (e : Endpoint)
| ProxyStart
| ProxyStop
| ProxyRestart
| SettingsSave (cfg : list Endpoint)
| InstallFirmware (v : Vehicle) (p : Platform)
| Popen (cmd : Command)
| Terminate (h : Handle)
| Poll (h : Handle) (returncode : option Z)
| Kill (p : Process)
| Sleep (milliseconds : Z)
| Disarm.

(** Methods of the manager whose invocation the trace records. *)
Inductive Proc : Type :=
| P_start_ardupilot | P_kill_ardupilot
| P_start_navigator | P_start_serial | P_run_with_sitl.

(** What a method did, in the order it did it: a [logger] record (the text is
    the source's format string, placeholders unexpanded), a call into a
    collaborator together with the exception it raised if any, a scan of the
    system's processes together with the firmware processes it found, a
    write to [self.should_be_running], or the entry into a method. *)
Inductive Event : Type :=
| Log (lvl : Level) (msg : string)
| Ext (c : ExtCall) (raised : option Exn)
| Scan (found : list Process)
| Assign_should_be_running (b : bool)
| Invoke (p : Proc).

(** The result of running a method: it returned, it raised, or it is still
    looping when the fuel given to its unbounded loops ran out. *)
Inductive Outcome (A : Type) : Type :=
| Return (a : A)
| Raised (e : Exn)
| Diverged.
Arguments Return {A} a.
Arguments Raised {A} e.
Arguments Diverged {A}.

(* ================================================================== *)
(** * String helpers *)

(** [needle in hay] on Python strings. *)
Fixpoint contains (needle hay : string) : bool :=
  String.prefix needle hay
  || match hay with
     | EmptyString => false
     | String _ rest => contains needle rest
     end.

(** [str(n)] for an integer. *)
Definition str_of_Z (n : Z) : string := NilZero.string_of_int (Z.to_int n).

(* ================================================================== *)
(** * Collaborators *)

(** The board enumeration [FlightControllerType] that the manager imports
    from [flight_controller_detector.Detector].  That module is not among
    the sources; the manager uses the [.value] of a member and the two
    members it names, [Navigator] and [Serial].  The enumeration of the same
    name in typedefs.py has the members [Serial], [NavigatorR3] and
    [NavigatorR4] and no member [Navigator]: it is not the one [start_board]
    refers to, and is used here for its values only. *)
Class BoardEnum (T : Type) : Type := {
  board_value : T -> Z;
  board_Navigator : T;
  board_Serial : T
}.

(** [a == b] on members of one enumeration: members with equal values are
    one and the same member. *)
Definition board_eqb {T} `{BoardEnum T} (a b : T) : bool :=
  board_value a =? board_value b.

(** The collaborators, over a type [W] of states of the outside world.
    Their classes ([mavlink_proxy.Manager], [firmware.FirmwareManagement],
    [settings.Settings], [mavlink_comm.VehicleManager], the board detector)
    are not among the sources, so their behaviour is left open: a call that
    acts on the world returns the exception it raised, if any, and the world
    it leaves behind, which a failed call may have changed as well.  Queries
    read the world: [mm_endpoints] gives the live set of the proxy by value,
    a Python set being a list of its members in the order it yields them.
    The calls into the standard library and psutil that the manager does not
    guard ([terminate], [poll], [sleep], [geteuid], [process_iter]) do not
    raise.  Sleeps are counted in milliseconds. *)
Record Collaborators (W T : Type) : Type := {
  (* settings *)
  app_name : string;
  firmware_folder : string;
  settings_save : list Endpoint -> W -> option Exn * W;
  (* mavlink_proxy.Endpoint: the default of the keyword argument
     [persistent], which none of the manager's own endpoints sets *)
  persistent_default : bool;
  (* mavlink_manager *)
  mm_endpoints : W -> list Endpoint;
  mm_add_endpoint : Endpoint -> W -> option Exn * W;
  mm_add_endpoints : list Endpoint -> W -> option Exn * W;
  mm_clear_endpoints : W -> option Exn * W;
  mm_remove_endpoint : Endpoint -> W -> option Exn * W;
  mm_set_master_endpoint : Endpoint -> W -> option Exn * W;
  mm_start : W -> option Exn * W;
  mm_stop : W -> option Exn * W;
  mm_restart : W -> option Exn * W;
  (* firmware_manager *)
  fw_is_firmware_installed : Platform -> W -> bool;
  fw_install_firmware_from_params : Vehicle -> Platform -> W -> option Exn * W;
  fw_firmware_path : Platform -> string;
  (* vehicle_manager *)
  vm_disarm_vehicle : W -> option Exn * W;
  (* BoardDetector *)
  detect : W -> list (T * string);
  (* os, subprocess, psutil, time *)
  os_geteuid : W -> Z;
  sp_Popen : Command -> W -> (Exn + Handle) * W;
  sp_terminate : Handle -> W -> W;
  sp_poll : Handle -> W -> option Z * W;
  ps_process_iter : W -> list Process;
  ps_kill : Process -> W -> option Exn * W;
  time_sleep : Z -> W -> W
}.
Arguments app_name {W T} _.
Arguments firmware_folder {W T} _.
Arguments settings_save {W T} _ _ _.
Arguments persistent_default {W T} _.
Arguments mm_endpoints {W T} _ _.
Arguments mm_add_endpoint {W T} _ _ _.
Arguments mm_add_endpoints {W T} _ _ _.
Arguments mm_clear_endpoints {W T} _ _.
Arguments mm_remove_endpoint {W T} _ _ _.
Arguments mm_set_master_endpoint {W T} _ _ _.
Arguments mm_start {W T} _ _.
Arguments mm_stop {W T} _ _.
Arguments mm_restart {W T} _ _.
Arguments fw_is_firmware_installed {W T} _ _ _.
Arguments fw_install_firmware_from_params {W T} _ _ _ _.
Arguments fw_firmware_path {W T} _ _.
Arguments vm_disarm_vehicle {W T} _ _.
Arguments detect {W T} _ _.
Arguments os_geteuid {W T} _ _.
Arguments sp_Popen {W T} _ _ _.
Arguments sp_terminate {W T} _ _ _.
Arguments sp_poll {W T} _ _ _.
Arguments ps_process_iter {W T} _ _.
Arguments ps_kill {W T} _ _ _.
Arguments time_sleep {W T} _ _ _.

(* ================================================================== *)
(** * The manager object and its monad *)

(** The fields of [self] the methods read and write, the outside world and
    the trace. *)
Record Manager (W : Type) : Type := mkManager {
  _current_platform : Platform;
  _current_sitl_frame : SITLFrame;
  subprocess : option Handle;
  should_be_running : bool;
  configuration : list Endpoint;
  world : W;
  trace : list Event
}.
Arguments mkManager {W}.
Arguments _current_platform {W} _.
Arguments _current_sitl_frame {W} _.
Arguments subprocess {W} _.
Arguments should_be_running {W} _.
Arguments configuration {W} _.
Arguments world {W} _.
Arguments trace {W} _.

Definition with_world {W} (m : Manager W) (w : W) : Manager W :=
  mkManager (_current_platform m) (_current_sitl_frame m) (subprocess m)
            (should_be_running m) (configuration m) w (trace m).

Definition with_trace {W} (m : Manager W) (t : list Event) : Manager W :=
  mkManager (_current_platform m) (_current_sitl_frame m) (subprocess m)
            (should_be_running m) (configuration m) (world m) t.

Definition with_platform {W} (m : Manager W) (p : Platform) : Manager W :=
  mkManager p (_current_sitl_frame m) (subprocess m)
            (should_be_running m) (configuration m) (world m) (trace m).

Definition with_sitl_frame {W} (m : Manager W) (f : SITLFrame) : Manager W :=
  mkManager (_current_platform m) f (subprocess m)
            (should_be_running m) (configuration m) (world m) (trace m).

Definition with_subprocess {W} (m : Manager W) (h : option Handle)
  : Manager W :=
  mkManager (_current_platform m) (_current_sitl_frame m) h
            (should_be_running m) (configuration m) (world m) (trace m).

Definition with_should_be_running {W} (m : Manager W) (b : bool)
  : Manager W :=
  mkManager (_current_platform m) (_current_sitl_frame m) (subprocess m)
            b (configuration m) (world m) (trace m).

Definition with_configuration {W} (m : Manager W) (c : list Endpoint)
  : Manager W :=
  mkManager (_current_platform m) (_current_sitl_frame m) (subprocess m)
            (should_be_running m) c (world m) (trace m).

Section Monad.
Context {W : Type}.

Definition M (A : Type) : Type := Manager W -> Outcome A * Manager W.

Definition ret {A} (a : A) : M A := fun m => (Return a, m).

Definition raise {A} (e : Exn) : M A := fun m => (Raised e, m).

Definition diverge {A} : M A := fun m => (Diverged, m).

Definition bind {A B} (x : M A) (f : A -> M B) : M B :=
  fun m =>
    match x m with
    | (Return a, m') => f a m'
    | (Raised e, m') => (Raised e, m')
    | (Diverged, m') => (Diverged, m')
    end.

(** [try: body except Exception as error: handler(error)] *)
Definition try_except {A} (body : M A) (handler : Exn -> M A) : M A :=
  fun m =>
    match body m with
    | (Raised e, m') => handler e m'
    | r => r
    end.

Definition gets {A} (f : Manager W -> A) : M A :=
  fun m => (Return (f m), m).

Definition modify (f : Manager W -> Manager W) : M unit :=
  fun m => (Return tt, f m).

Definition emit (e : Event) : M unit :=
  modify (fun m => with_trace m (trace m ++ [e])).

Definition logger (lvl : Level) (msg : string) : M unit :=
  emit (Log lvl msg).

(** A call that acts on the world and may raise. *)
Definition ext (c : ExtCall) (op : W -> option Exn * W) : M unit :=
  fun m =>
    let '(r, w) := op (world m) in
    let m' := with_trace (with_world m w) (trace m ++ [Ext c r]) in
    match r with
    | None => (Return tt, m')
    | Some e => (Raised e, m')
    end.

(** A call that acts on the world and does not raise. *)
Definition ext_total (c : ExtCall) (op : W -> W) : M unit :=
  ext c (fun w => (None, op w)).
End Monad.

Notation "x <- c1 ;; c2" := (bind c1 (fun x => c2))
  (at level 61, c1 at next level, right associativity).
Notation "c1 ;; c2" := (bind c1 (fun _ => c2))
  (at level 61, right associativity).

(* ================================================================== *)
(** * The methods of ArduPilotManager *)

(** [boards.sort(key=lambda tup: tup[0].value)]: a stable sort on the value
    of the board type. *)
Section SortBoards.
Context {T : Type} (value : T -> Z).

Fixpoint insert_board (b : T * string) (l : list (T * string))
  : list (T * string) :=
  match l with
  | [] => [b]
  | c :: rest =>
      if value (fst b) <=? value (fst c) then b :: c :: rest
      else c :: insert_board b rest
  end.

Fixpoint sort_boards (l : list (T * string)) : list (T * string) :=
  match l with
  | [] => []
  | b :: rest => insert_board b (sort_boards rest)
  end.
End SortBoards.

Section Methods.
Context {W T : Type} `{BoardEnum T} (C : Collaborators W T).

Local Abbreviation Mw := (@M W).

Definition sleep (ms : Z) : Mw unit := ext_total (Sleep ms) (time_sleep C ms).

(** [current_platform] and [current_sitl_frame], getter and setter. *)
Definition current_platform : Mw Platform := gets _current_platform.

Definition set_current_platform (platform : Platform) : Mw unit :=
  modify (fun m => with_platform m platform) ;;
  logger Info "Setting {platform} as current platform.".

Definition current_sitl_frame : Mw SITLFrame := gets _current_sitl_frame.

Definition set_current_sitl_frame (frame : SITLFrame) : Mw unit :=
  modify (fun m => with_sitl_frame m frame) ;;
  logger Info "Setting {frame.value} as frame for SITL.".

(** [self.should_be_running = b] *)
Definition set_should_be_running (b : bool) : Mw unit :=
  modify (fun m => with_should_be_running m b) ;;
  emit (Assign_should_be_running b).

Definition check_running_as_root : Mw unit :=
  euid <- gets (fun m => os_geteuid C (world m)) ;;
  if negb (euid =? 0)
  then raise (RuntimeError
                "ArduPilot manager needs to run with root privilege.")
  else ret tt.

(* ------------------------------------------------------------- *)
(** ** Endpoint registry *)

Definition get_endpoints : Mw (list Endpoint) :=
  gets (fun m => mm_endpoints C (world m)).

Definition _save_endpoints_to_configuration (endpoints : list Endpoint)
  : Mw unit :=
  modify (fun m => with_configuration m endpoints).

Definition _reset_endpoints (endpoints : list Endpoint) : Mw unit :=
  try_except
    (ext ClearEndpoints (mm_clear_endpoints C) ;;
     ext (AddEndpoints endpoints) (mm_add_endpoints C endpoints) ;;
     logger Info "Resetting endpoints to previous state.")
    (fun error => logger Error "Error resetting endpoints: {error}").

Definition reload_endpoints : Mw unit :=
  try_except
    (live <- get_endpoints ;;
     let persistent_endpoints := filter persistent live in
     _save_endpoints_to_configuration persistent_endpoints ;;
     cfg <- gets configuration ;;
     ext (SettingsSave cfg) (settings_save C cfg) ;;
     ext ProxyRestart (mm_restart C))
    (fun error => logger Error "Error updating endpoints: {error}").

(** The loop of [add_new_endpoints] over the new endpoints, in the order
    the set yields them. *)
Fixpoint add_each (loaded_endpoints new_endpoints : list Endpoint)
  : Mw unit :=
  match new_endpoints with
  | [] => ret tt
  | endpoint :: rest =>
      try_except
        (ext (AddEndpoint endpoint) (mm_add_endpoint C endpoint) ;;
         logger Info
           "Adding endpoint '{endpoint.name}' and saving it to the settings file.")
        (fun error =>
           logger Error "Failed to add endpoint '{endpoint.name}': {error}" ;;
           _reset_endpoints loaded_endpoints ;;
           raise error) ;;
      add_each loaded_endpoints rest
  end.

Definition add_new_endpoints (new_endpoints : list Endpoint) : Mw unit :=
  loaded_endpoints <- get_endpoints ;;
  add_each loaded_endpoints new_endpoints ;;
  reload_endpoints.

Fixpoint remove_each (loaded_endpoints endpoints_to_remove : list Endpoint)
  : Mw unit :=
  match endpoints_to_remove with
  | [] => ret tt
  | endpoint :: rest =>
      try_except
        (ext (RemoveEndpoint endpoint) (mm_remove_endpoint C endpoint) ;;
         logger Info
           "Deleting endpoint '{endpoint.name}' and removing it from the settings file.")
        (fun error =>
           logger Error
             "Failed to remove endpoint '{endpoint.name}': {error}" ;;
           _reset_endpoints loaded_endpoints ;;
           raise error) ;;
      remove_each loaded_endpoints rest
  end.

Definition remove_endpoints (endpoints_to_remove : list Endpoint)
  : Mw unit :=
  loaded_endpoints <- get_endpoints ;;
  let protected_endpoints := filter protected endpoints_to_remove in
  match protected_endpoints with
  | _ :: _ => raise (ValueError protected_endpoints)
  | [] =>
      remove_each loaded_endpoints endpoints_to_remove ;;
      reload_endpoints
  end.
(* ------------------------------------------------------------- *)
(** ** Platform orchestrator *)

(** [Endpoint(name, owner, kind, place, argument, protected=True)] *)
Definition protected_endpoint (n : string) (k : EndpointType)
           (where_ : string) (arg : Z) : Endpoint :=
  mkEndpoint n (app_name C) k where_ arg true (persistent_default C).

Definition gcs_link : Endpoint :=
  protected_endpoint "GCS Link" UDPServer "0.0.0.0" 14550.

Definition mavlink2rest : Endpoint :=
  protected_endpoint "MAVLink2Rest" UDPClient "127.0.0.1" 14000.

Definition start_mavlink_manager (device : Endpoint) : Mw unit :=
  try_except
    (add_new_endpoints [gcs_link] ;;
     add_new_endpoints [mavlink2rest])
    (fun error =>
       logger Error "Could not create default GCS endpoint: {error}") ;;
  ext (SetMasterEndpoint device) (mm_set_master_endpoint C device) ;;
  ext ProxyStart (mm_start C).

(** [if not is_firmware_installed(platform): install_firmware_from_params] *)
Definition ensure_firmware : Mw unit :=
  platform <- current_platform ;;
  installed <- gets (fun m => fw_is_firmware_installed C platform (world m)) ;;
  if negb installed
  then ext (InstallFirmware Sub platform)
           (fun w => fw_install_firmware_from_params C Sub platform w)
  else ret tt.

(** [self.subprocess = subprocess.Popen(...)] *)
Definition spawn (cmd : Command) : Mw unit :=
  fun m =>
    let '(r, w) := sp_Popen C cmd (world m) in
    match r with
    | inr h =>
        (Return tt,
         with_subprocess
           (with_trace (with_world m w) (trace m ++ [Ext (Popen cmd) None]))
           (Some h))
    | inl e =>
        (Raised e,
         with_trace (with_world m w) (trace m ++ [Ext (Popen cmd) (Some e)]))
    end.

Definition navigator_master : Endpoint :=
  protected_endpoint "Master" UDPServer "127.0.0.1" 8852.

Definition start_navigator : Mw unit :=
  emit (Invoke P_start_navigator) ;;
  set_current_platform Navigator ;;
  ensure_firmware ;;
  let master_endpoint := navigator_master in
  platform <- current_platform ;;
  spawn (Shell (fw_firmware_path C platform
                ++ " -A udp:" ++ place master_endpoint ++ ":"
                ++ str_of_Z (argument master_endpoint)
                ++ " --log-directory " ++ firmware_folder C ++ "/logs/"
                ++ " --storage-directory " ++ firmware_folder C
                ++ "/storage/"
                ++ " -C /dev/ttyS0"
                ++ " -B /dev/ttyAMA1"
                ++ " -E /dev/ttyAMA2"
                ++ " -F /dev/ttyAMA3")) ;;
  start_mavlink_manager master_endpoint.

Definition start_serial (device : string) : Mw unit :=
  emit (Invoke P_start_serial) ;;
  set_current_platform Pixhawk1 ;;
  start_mavlink_manager
    (protected_endpoint "Master" SerialEndpoint device 115200).

Definition sitl_master : Endpoint :=
  protected_endpoint "Master" TCPServer "127.0.0.1" 5760.

Definition run_with_sitl (frame : SITLFrame) : Mw unit :=
  emit (Invoke P_run_with_sitl) ;;
  set_current_platform SITL ;;
  ensure_firmware ;;
  frame <- (if is_undefined_frame frame
            then logger Warning
                   "SITL frame is undefined. Setting {frame} as current frame." ;;
                 ret VECTORED
            else ret frame) ;;
  set_current_sitl_frame frame ;;
  let master_endpoint := sitl_master in
  platform <- current_platform ;;
  sitl_frame <- current_sitl_frame ;;
  spawn (Argv [fw_firmware_path C platform;
               "--model"; SITLFrame_value sitl_frame;
               "--base-port"; str_of_Z (argument master_endpoint);
               "--home"; "-27.563,-48.459,0.0,270.0"]) ;;
  start_mavlink_manager master_endpoint.

Definition start_board (boards : list (T * string)) : Mw bool :=
  match boards with
  | [] => ret false
  | _ :: _ =>
      (if (1 <? length boards)%nat
       then logger Warning "More than a single board detected: {boards}"
       else ret tt) ;;
      match sort_boards board_value boards with
      | [] => raise (External "IndexError") (* boards[0] of an empty list *)
      | (flight_controller_type, where_) :: _ =>
          logger Info "Board in use: {flight_controller_type.name}." ;;
          if board_eqb board_Navigator flight_controller_type
          then start_navigator ;; ret true
          else if board_eqb board_Serial flight_controller_type
          then start_serial where_ ;; ret true
          else raise (RuntimeError "Invalid board type: {boards}")
      end
  end.

(** The [while not self.start_board(BoardDetector.detect())] loop, with
    fuel: it runs for as long as no board is detected. *)
Fixpoint detect_loop (fuel : nat) : Mw unit :=
  match fuel with
  | O => diverge
  | S fuel' =>
      boards <- gets (fun m => detect C (world m)) ;;
      started <- start_board boards ;;
      if started then ret tt
      else logger Warning
             "Flight controller board not detected, will try again." ;;
           sleep 2000 ;;
           detect_loop fuel'
  end.

Definition run_with_board (fuel : nat) : Mw unit :=
  check_running_as_root ;;
  detect_loop fuel.

(* ------------------------------------------------------------- *)
(** ** Process supervisor *)

Definition is_ardupilot_process (platform : Platform) (process : Process)
  : bool :=
  contains (fw_firmware_path C platform) (String.concat " " (cmdline process)).

Definition running_ardupilot_processes : Mw (list Process) :=
  platform <- current_platform ;;
  found <- gets (fun m => filter (is_ardupilot_process platform)
                                 (ps_process_iter C (world m))) ;;
  emit (Scan found) ;;
  ret found.

(** [self.subprocess.poll()] *)
Definition poll (h : Handle) : Mw (option Z) :=
  fun m =>
    let '(rc, w) := sp_poll C h (world m) in
    (Return rc,
     with_trace (with_world m w) (trace m ++ [Ext (Poll h rc) None])).

(** The [for _ in range(10)] loop of [terminate_ardupilot_subprocess]
    followed by the [raise] after it. *)
Fixpoint wait_for_exit (h : Handle) (attempts : nat) : Mw unit :=
  match attempts with
  | O => raise (ArdupilotProcessKillFail
                  "Could not terminate Ardupilot subprocess.")
  | S attempts' =>
      rc <- poll h ;;
      match rc with
      | Some _ => logger Info "Ardupilot subprocess terminated."
      | None =>
          logger Debug "Waiting for process to die..." ;;
          sleep 500 ;;
          wait_for_exit h attempts'
      end
  end.

Definition terminate_ardupilot_subprocess : Mw unit :=
  sub <- gets subprocess ;;
  match sub with
  | Some h =>
      ext_total (Terminate h) (sp_terminate C h) ;;
      wait_for_exit h 10
  | None => logger Warning "Ardupilot subprocess already not running."
  end.

Fixpoint prune_each (processes : list Process) : Mw unit :=
  match processes with
  | [] => ret tt
  | process :: rest =>
      try_except
        (logger Debug
           "Killing Ardupilot process {process.name()}::{process.pid}." ;;
         ext (Kill process) (ps_kill C process) ;;
         sleep 500)
        (fun error =>
           raise (ArdupilotProcessKillFail
                    "Could not kill {process.name()}::{process.pid}.")) ;;
      prune_each rest
  end.

Definition prune_ardupilot_processes : Mw unit :=
  processes <- running_ardupilot_processes ;;
  prune_each processes.

Definition kill_ardupilot : Mw unit :=
  emit (Invoke P_kill_ardupilot) ;;
  set_should_be_running false ;;
  platform <- current_platform ;;
  (if negb (Platform_eqb platform SITL)
   then logger Info "Disarming vehicle." ;;
        ext Disarm (vm_disarm_vehicle C) ;;
        logger Info "Vehicle disarmed."
   else ret tt) ;;
  logger Info "Terminating Ardupilot subprocess." ;;
  terminate_ardupilot_subprocess ;;
  logger Info "Ardupilot subprocess terminated." ;;
  logger Info "Pruning Ardupilot's system processes." ;;
  prune_ardupilot_processes ;;
  logger Info "Ardupilot's system processes pruned." ;;
  logger Info "Stopping Mavlink manager." ;;
  ext ProxyStop (mm_stop C) ;;
  logger Info "Mavlink manager stopped.".

Definition start_ardupilot (fuel : nat) : Mw unit :=
  emit (Invoke P_start_ardupilot) ;;
  platform <- current_platform ;;
  if Platform_eqb platform SITL
  then frame <- current_sitl_frame ;;
       run_with_sitl frame ;;
       set_should_be_running true
  else run_with_board fuel ;;
       set_should_be_running true.


(** [subprocess_stopped] and [needs_restart] of [auto_restart], with the
    short-circuit evaluation of [and] and [or]. *)
Definition subprocess_stopped : Mw bool :=
  sub <- gets subprocess ;;
  match sub with
  | None => ret false
  | Some h =>
      rc <- poll h ;;
      ret (match rc with Some _ => true | None => false end)
  end.

Definition needs_restart (stopped : bool) : Mw bool :=
  running <- gets should_be_running ;;
  if negb running then ret false
  else
    platform <- current_platform ;;
    if negb (Platform_in platform [SITL; Navigator]) then ret false
    else
      processes <- running_ardupilot_processes ;;
      ret ((length processes =? 0)%nat || stopped).

(** One turn of the [while True] loop of [auto_restart]. *)
Definition auto_restart_iteration (fuel : nat) : Mw unit :=
  stopped <- subprocess_stopped ;;
  restart <- needs_restart stopped ;;
  (if restart
   then logger Debug "Restarting ardupilot..." ;;
        start_ardupilot fuel
   else ret tt) ;;
  sleep 5000.

(** [auto_restart], for [ticks] turns of its loop.  The loop has no exit:
    it is still running when the turns are used up. *)
Fixpoint auto_restart (ticks fuel : nat) : Mw unit :=
  match ticks with
  | O => diverge
  | S ticks' =>
      auto_restart_iteration fuel ;;
      auto_restart ticks' fuel
  end.
(* ------------------------------------------------------------- *)
(** ** Endpoints of the configuration, at startup *)



End Methods.

(* ================================================================== *)
(** * A test double of the collaborators

    A small concrete world on which the methods can be run: a proxy holding
    a list of endpoints, a settings file, a process table, one tracked
    subprocess that dies a given number of sleeps after it is signalled,
    and switches that make a collaborator call raise. *)
Module Double.

(** A board enumeration with the two members the manager names. *)
Inductive Board : Type := BSerial | BNavigator.

#[global] Instance Board_enum : BoardEnum Board := {|
  board_value b := match b with BSerial => 1 | BNavigator => 2 end;
  board_Navigator := BNavigator;
  board_Serial := BSerial
|}.

Definition EndpointType_eqb (a b : EndpointType) : bool :=
  String.eqb (EndpointType_value a) (EndpointType_value b).

Definition Endpoint_eqb (a b : Endpoint) : bool :=
  String.eqb (name a) (name b) && String.eqb (owner a) (owner b)
  && EndpointType_eqb (connection_type a) (connection_type b)
  && String.eqb (place a) (place b) && (argument a =? argument b)
  && Bool.eqb (protected a) (protected b)
  && Bool.eqb (persistent a) (persistent b).

Record World : Type := mkWorld {
  endpoints : list Endpoint;
  master : option Endpoint;
  proxy_running : bool;
  saved : list Endpoint;
  installed : list Platform;
  processes : list Process;
  euid : Z;
  boards : list (Board * string);
  signalled : bool;
  exited : bool;
  grace : nat
}.

(** Which collaborator calls raise. *)
Record Faults : Type := mkFaults {
  reject : Endpoint -> bool;
  clear_fails : bool;
  readd_fails : bool;
  save_fails : bool;
  restart_fails : bool;
  set_master_fails : bool;
  start_fails : bool;
  stop_fails : bool;
  install_fails : bool;
  popen_fails : bool;
  kill_fails : bool;
  disarm_fails : bool
}.

Definition no_faults : Faults :=
  mkFaults (fun _ => false) false false false false false false false
           false false false false.

Definition failing (flag : bool) (what : string) (w' w : World)
  : option Exn * World :=
  if flag then (Some (External what), w) else (None, w').

Definition set_endpoints (w : World) (l : list Endpoint) : World :=
  mkWorld l (master w) (proxy_running w) (saved w) (installed w)
          (processes w) (euid w) (boards w) (signalled w) (exited w)
          (grace w).

Definition set_master (w : World) (e : Endpoint) : World :=
  mkWorld (endpoints w) (Some e) (proxy_running w) (saved w) (installed w)
          (processes w) (euid w) (boards w) (signalled w) (exited w)
          (grace w).

Definition set_proxy_running (w : World) (b : bool) : World :=
  mkWorld (endpoints w) (master w) b (saved w) (installed w)
          (processes w) (euid w) (boards w) (signalled w) (exited w)
          (grace w).

Definition set_saved (w : World) (l : list Endpoint) : World :=
  mkWorld (endpoints w) (master w) (proxy_running w) l (installed w)
          (processes w) (euid w) (boards w) (signalled w) (exited w)
          (grace w).

Definition set_installed (w : World) (l : list Platform) : World :=
  mkWorld (endpoints w) (master w) (proxy_running w) (saved w) l
          (processes w) (euid w) (boards w) (signalled w) (exited w)
          (grace w).

Definition set_processes (w : World) (l : list Process) : World :=
  mkWorld (endpoints w) (master w) (proxy_running w) (saved w) (installed w)
          l (euid w) (boards w) (signalled w) (exited w) (grace w).

Definition set_subprocess (w : World) (sig ex : bool) (g : nat) : World :=
  mkWorld (endpoints w) (master w) (proxy_running w) (saved w) (installed w)
          (processes w) (euid w) (boards w) sig ex g.

Definition path (p : Platform) : string :=
  "/firmware/ardupilot_" ++ Platform_value "x86_64" p.

Definition command_words (cmd : Command) : list string :=
  match cmd with Shell line => [line] | Argv args => args end.

Definition collaborators (f : Faults) : Collaborators World Board := {|
  app_name := "ardupilot-manager";
  firmware_folder := "/firmware";
  settings_save cfg w := failing (save_fails f) "save" (set_saved w cfg) w;
  persistent_default := false;
  mm_endpoints := endpoints;
  mm_add_endpoint e w :=
    failing (reject f e) "add_endpoint"
            (set_endpoints w (endpoints w ++ [e])) w;
  mm_add_endpoints l w :=
    failing (readd_fails f) "add_endpoints"
            (set_endpoints w (endpoints w ++ l)) w;
  mm_clear_endpoints w :=
    failing (clear_fails f) "clear_endpoints" (set_endpoints w []) w;
  mm_remove_endpoint e w :=
    failing (reject f e) "remove_endpoint"
            (set_endpoints w
               (filter (fun x => negb (Endpoint_eqb e x)) (endpoints w))) w;
  mm_set_master_endpoint e w :=
    failing (set_master_fails f) "set_master_endpoint" (set_master w e) w;
  mm_start w := failing (start_fails f) "start" (set_proxy_running w true) w;
  mm_stop w := failing (stop_fails f) "stop" (set_proxy_running w false) w;
  mm_restart w :=
    failing (restart_fails f) "restart" (set_proxy_running w true) w;
  fw_is_firmware_installed p w := Platform_in p (installed w);
  fw_install_firmware_from_params _ p w :=
    failing (install_fails f) "install_firmware"
            (set_installed w (p :: installed w)) w;
  fw_firmware_path := path;
  vm_disarm_vehicle w := failing (disarm_fails f) "disarm_vehicle" w w;
  detect := boards;
  os_geteuid := euid;
  sp_Popen cmd w :=
    if popen_fails f then (inl (External "Popen"), w)
    else (inr 1%nat,
          set_subprocess
            (set_processes w (mkProcess 4242 "ardupilot" (command_words cmd)
                                :: processes w))
            false false (grace w));
  sp_terminate _ w :=
    set_subprocess w true (exited w || Nat.eqb (grace w) 0) (grace w);
  sp_poll _ w := (if exited w then Some (-15) else None, w);
  ps_process_iter := processes;
  ps_kill p w :=
    failing (kill_fails f) "kill"
            (set_processes w
               (filter (fun q => negb (pid q =? pid p)) (processes w))) w;
  time_sleep _ w :=
    if signalled w && negb (exited w)
    then set_subprocess w true (Nat.eqb (grace w) 1) (Nat.pred (grace w))
    else w
|}.

(** The state of the manager as [__init__] leaves it. *)
Definition fresh (w : World) : Manager World :=
  mkManager Undefined UNDEFINED None false [] w [].

Definition idle : World :=
  mkWorld [] None false [] [] [] 0 [] false false 0%nat.
End Double.

(* ================================================================== *)
(** * Notions used by the statements *)

(** Two lists holding the same set. *)
Definition same_set {A} (a b : list A) : Prop := forall x, In x a <-> In x b.

Section Notions.
Context {W T : Type} (C : Collaborators W T).

(** The proxy accepts every endpoint of [l], one after the other: the
    world this leaves, or [None] as soon as one registration raises. *)
Fixpoint register_all (l : list Endpoint) (w : W) : option W :=
  match l with
  | [] => Some w
  | e :: rest =>
      match mm_add_endpoint C e w with
      | (None, w') => register_all rest w'
      | (Some _, _) => None
      end
  end.

(** The same for removals. *)
Fixpoint unregister_all (l : list Endpoint) (w : W) : option W :=
  match l with
  | [] => Some w
  | e :: rest =>
      match mm_remove_endpoint C e w with
      | (None, w') => unregister_all rest w'
      | (Some _, _) => None
      end
  end.

(** What successful registrations leave in the trace. *)
Definition registered (l : list Endpoint) : list Event :=
  flat_map
    (fun e =>
       [Ext (AddEndpoint e) None;
        Log Info
          "Adding endpoint '{endpoint.name}' and saving it to the settings file."])
    l.

Definition unregistered (l : list Endpoint) : list Event :=
  flat_map
    (fun e =>
       [Ext (RemoveEndpoint e) None;
        Log Info
          "Deleting endpoint '{endpoint.name}' and removing it from the settings file."])
    l.

(** Resetting the proxy to [snapshot] from the world [w]: clear, then
    re-add.  The events of the attempt and the world it leaves; an error of
    either call ends the attempt and is logged. *)
Definition reset_attempt (snapshot : list Endpoint) (w : W)
  : list Event * W :=
  match mm_clear_endpoints C w with
  | (Some e, w1) =>
      ([Ext ClearEndpoints (Some e);
        Log Error "Error resetting endpoints: {error}"], w1)
  | (None, w1) =>
      match mm_add_endpoints C snapshot w1 with
      | (Some e, w2) =>
          ([Ext ClearEndpoints None;
            Ext (AddEndpoints snapshot) (Some e);
            Log Error "Error resetting endpoints: {error}"], w2)
      | (None, w2) =>
          ([Ext ClearEndpoints None;
            Ext (AddEndpoints snapshot) None;
            Log Info "Resetting endpoints to previous state."], w2)
      end
  end.

(** Both calls of the reset from [w] return. *)
Definition reset_succeeds (snapshot : list Endpoint) (w : W) : Prop :=
  exists w1 w2,
    mm_clear_endpoints C w = (None, w1)
    /\ mm_add_endpoints C snapshot w1 = (None, w2).

(** What the registry relies on from the proxy for a reset: a successful
    clear leaves no endpoint, and a successful [add_endpoints] on a proxy
    without endpoints leaves the given set. *)
Definition proxy_reset_contract : Prop :=
  (forall w w', mm_clear_endpoints C w = (None, w') ->
                mm_endpoints C w' = [])
  /\ (forall l w w', mm_endpoints C w = [] ->
                     mm_add_endpoints C l w = (None, w') ->
                     same_set (mm_endpoints C w') l).

(** The condition of the auto-restart loop, in the words of the
    specification.  The processes are looked up after the tracked handle,
    when there is one, has been polled. *)
Definition after_poll (m : Manager W) : W :=
  match subprocess m with
  | Some h => snd (sp_poll C h (world m))
  | None => world m
  end.

Definition handle_exited (m : Manager W) : Prop :=
  exists h rc,
    subprocess m = Some h /\ fst (sp_poll C h (world m)) = Some rc.

Definition no_firmware_process (m : Manager W) : Prop :=
  forall p,
    In p (ps_process_iter C (after_poll m)) ->
    contains (fw_firmware_path C (_current_platform m))
             (String.concat " " (cmdline p)) = false.

Definition restart_due (m : Manager W) : Prop :=
  should_be_running m = true
  /\ (_current_platform m = SITL \/ _current_platform m = Navigator)
  /\ (no_firmware_process m \/ handle_exited m).

(** Persist and reload from the world [w] with the live set [live]: the
    events, and the world left. *)
Definition persist_attempt (w : W) : list Event * W :=
  let cfg := filter persistent (mm_endpoints C w) in
  match settings_save C cfg w with
  | (Some e, w1) =>
      ([Ext (SettingsSave cfg) (Some e);
        Log Error "Error updating endpoints: {error}"], w1)
  | (None, w1) =>
      match mm_restart C w1 with
      | (Some e, w2) =>
          ([Ext (SettingsSave cfg) None; Ext ProxyRestart (Some e);
            Log Error "Error updating endpoints: {error}"], w2)
      | (None, w2) =>
          ([Ext (SettingsSave cfg) None; Ext ProxyRestart None], w2)
      end
  end.
End Notions.

(* ================================================================== *)
(** * Concrete inputs *)

Definition telemetry : Endpoint :=
  mkEndpoint "Telemetry" "user" UDPClient "192.168.2.1" 14560 false true.

Definition camera : Endpoint :=
  mkEndpoint "Camera" "user" UDPClient "192.168.2.1" 14570 false false.

Definition unreachable : Endpoint :=
  mkEndpoint "Unreachable" "user" TCPClient "10.0.0.1" 5000 false true.

Definition gcs : Endpoint :=
  mkEndpoint "GCS" "app" UDPServer "0.0.0.0" 14550 true false.

(** A proxy that rejects the endpoint [unreachable]. *)
Definition rejects_unreachable : Double.Faults :=
  Double.mkFaults (Double.Endpoint_eqb unreachable)
                  false false false false false false false
                  false false false false.

(** A proxy that rejects [unreachable] and whose [clear_endpoints] raises. *)
Definition rejects_and_cannot_clear : Double.Faults :=
  Double.mkFaults (Double.Endpoint_eqb unreachable)
                  true false false false false false false
                  false false false false.


(** A manager whose proxy routes [telemetry] (and, below, [gcs]). *)
Definition routing_telemetry : Manager Double.World :=
  Double.fresh (Double.set_endpoints Double.idle [telemetry]).

Definition routing_gcs : Manager Double.World :=
  Double.fresh (Double.set_endpoints Double.idle [telemetry; gcs]).

(** What [k] polls that find the process alive leave in the trace: the
    poll, the debug record and the sleep of half a second, [k] times. *)
Definition waiting (h : Handle) (k : nat) : list Event :=
  concat (repeat [Ext (Poll h None) None;
                  Log Debug "Waiting for process to die...";
                  Ext (Sleep 500) None] k).

(** The fields of [self] are the same in both states. *)
Definition same_fields {W} (m m' : Manager W) : Prop :=
  _current_platform m' = _current_platform m
  /\ _current_sitl_frame m' = _current_sitl_frame m
  /\ subprocess m' = subprocess m
  /\ should_be_running m' = should_be_running m
  /\ configuration m' = configuration m.

(** A tracked subprocess that needs [g] sleeps to die once signalled. *)
Definition tracking (g : nat) : Manager Double.World :=
  with_subprocess
    (Double.fresh (Double.set_subprocess Double.idle false false g))
    (Some 1%nat).

(* ================================================================== *)
(** * Relating the state before and after a method *)

(** [x] takes every state to a state related to it by [R], whatever its
    outcome. *)
Definition preserves {W A} (R : Manager W -> Manager W -> Prop) (x : M A)
  : Prop :=
  forall m, R m (snd (x m)).

(** The trace grew by events that all satisfy [P]. *)
Definition only {W} (P : Event -> bool) (m m' : Manager W) : Prop :=
  exists evs, trace m' = (trace m ++ evs)%list /\ forallb P evs = true.

(** The events of the endpoint registry: its log records and its calls to
    the proxy and to the settings store. *)
Definition registry_event (e : Event) : bool :=
  match e with
  | Log _ _ => true
  | Ext (AddEndpoint _) _ | Ext (AddEndpoints _) _ | Ext ClearEndpoints _
  | Ext (RemoveEndpoint _) _ | Ext (SettingsSave _) _
  | Ext ProxyRestart _ => true
  | _ => false
  end.

(** The events of the body of a platform start procedure, after its entry:
    those of the registry, the firmware installation, the spawn, and the
    proxy's master endpoint and start. *)
Definition platform_event (e : Event) : bool :=
  registry_event e
  || match e with
     | Ext (SetMasterEndpoint _) _ | Ext ProxyStart _
     | Ext (InstallFirmware _ _) _ | Ext (Popen _) _ => true
     | _ => false
     end.

(** The events of the start phase. *)
Definition start_event (e : Event) : bool :=
  platform_event e
  || match e with
     | Ext (Sleep _) _ => true
     | Assign_should_be_running true => true
     | Invoke P_start_ardupilot | Invoke P_start_navigator
     | Invoke P_start_serial | Invoke P_run_with_sitl => true
     | _ => false
     end.

(** The events of the termination work of the kill phase. *)
Definition kill_work_event (e : Event) : bool :=
  match e with
  | Log _ _ | Scan _ => true
  | Ext Disarm _ | Ext (Terminate _) _ | Ext (Poll _ _) _ | Ext (Kill _) _
  | Ext (Sleep _) _ | Ext ProxyStop _ => true
  | _ => false
  end.

Definition any_event (e : Event) : bool := true.

(** The events a method added to the trace it started from. *)
Definition added {W} (m m' : Manager W) : list Event :=
  skipn (length (trace m)) (trace m').

(** The methods entered, in order, among some events. *)
Definition invocations (evs : list Event) : list Proc :=
  flat_map (fun e => match e with Invoke p => [p] | _ => [] end) evs.

(** [boards] by ascending value of the board type: every entry has a value
    at most that of every entry after it. *)
Definition ascending {T} (value : T -> Z) (boards : list (T * string))
  : Prop :=
  StronglySorted (fun b c => value (fst b) <= value (fst c)) boards.

(** What [start_board] logs before it dispatches. *)
Definition board_logs {T} (boards : list (T * string)) : list Event :=
  ((if (1 <? length boards)%nat
    then [Log Warning "More than a single board detected: {boards}"]
    else [])
   ++ [Log Info "Board in use: {flight_controller_type.name}."])%list.

(** The state on entry into the method [p]. *)
Definition entered {W} (p : Proc) (m : Manager W) : Manager W :=
  with_trace m (trace m ++ [Invoke p]).

(** The boards of the scenario of the specification, with the enumeration
    of typedefs.py and with the one of the test double. *)
Definition scenario_boards : list (FlightControllerType * string) :=
  [(NavigatorR3, "/dev/navigator"); (Serial, "/dev/ttyUSB0")].

Definition detected_boards : list (Double.Board * string) :=
  [(Double.BNavigator, "/dev/navigator"); (Double.BSerial, "/dev/ttyUSB0")].

(** What one turn of the auto-restart loop adds to the trace while it
    evaluates its condition. *)
Definition observation_event (e : Event) : bool :=
  match e with
  | Ext (Poll _ _) None | Scan _ => true
  | _ => false
  end.

(** The firmware of the platform is there, or its installation returns. *)
Definition firmware_ready {W T} (C : Collaborators W T) (p : Platform)
           (w : W) : Prop :=
  fw_is_firmware_installed C p w = true
  \/ fst (fw_install_firmware_from_params C Sub p w) = None.

(** The frame [run_with_sitl] works with. *)
Definition effective_frame (frame : SITLFrame) : SITLFrame :=
  match frame with UNDEFINED => VECTORED | f => f end.

(** The state keeps the SITL frame. *)
Definition keeps_frame {W} (m m' : Manager W) : Prop :=
  _current_sitl_frame m' = _current_sitl_frame m.

(** A firmware manager that cannot install. *)
Definition cannot_install : Double.Faults :=
  Double.mkFaults (fun _ => false)
                  false false false false false false false
                  true false false false.

(** A manager that is to keep a SITL autopilot running, none running and
    no firmware installed. *)
Definition sitl_down : Manager Double.World :=
  with_should_be_running (with_platform (Double.fresh Double.idle) SITL) true.




(** The state once [kill_ardupilot] has cleared [should_be_running]. *)
Definition flag_cleared {W} (m : Manager W) : Manager W :=
  with_trace (with_should_be_running m false)
             (trace m ++ [Invoke P_kill_ardupilot;
                          Assign_should_be_running false]).

(** The termination work adds its own events and leaves the fields of
    [self] alone. *)
Definition kill_step {W} (m m' : Manager W) : Prop :=
  only kill_work_event m m' /\ same_fields m m'.


(** A Navigator manager with a tracked subprocess that dies two sleeps
    after it is signalled, and two firmware processes in the system. *)
Definition navigator_running : Manager Double.World :=
  with_should_be_running
    (with_subprocess
       (with_platform
          (Double.fresh
             (Double.mkWorld [] None true [] [Navigator]
                [mkProcess 100 "sh"
                   ["sh"; "-c"; "/firmware/ardupilot_navigator -A udp:127.0.0.1:8852"];
                 mkProcess 101 "ardupilot_navigator"
                   ["/firmware/ardupilot_navigator"; "-A"; "udp:127.0.0.1:8852"];
                 mkProcess 7 "init" ["/sbin/init"]]
                0 [(Double.BNavigator, "/dev/navigator")] false false 2%nat))
          Navigator)
       (Some 1%nat))
    true.


(* ================================================================== *)
(** * Further notions *)

(** The endpoints the manager creates itself: the default auxiliary ones
    and the master endpoint of each platform. *)
Definition manager_endpoint {W T} (C : Collaborators W T) (e : Endpoint)
  : Prop :=
  e = gcs_link C \/ e = mavlink2rest C \/ e = navigator_master C
  \/ e = sitl_master C
  \/ exists device, e = protected_endpoint C "Master" SerialEndpoint device 115200.

(** The events of [start_mavlink_manager]: those of the registry and the
    two calls that set the master endpoint and start the proxy. *)
Definition mavlink_event (e : Event) : bool :=
  registry_event e
  || match e with
     | Ext (SetMasterEndpoint _) _ | Ext ProxyStart _ => true
     | _ => false
     end.

(** A manager whose proxy routes [telemetry] and [camera]. *)
Definition routing_camera : Manager Double.World :=
  Double.fresh (Double.set_endpoints Double.idle [telemetry; camera]).

(** [needle] occurs in [hay]: the words of Python's [in] on strings. *)
Definition substring_of (needle hay : string) : Prop :=
  exists before after, hay = before ++ needle ++ after.

(** A field of the manager is the same in both states. *)
Definition keeps {W A} (field : Manager W -> A) (m m' : Manager W) : Prop :=
  field m' = field m.

(** The command line [start_navigator] runs and the argument vector
    [run_with_sitl] runs for a frame, as the source composes them. *)
Definition navigator_command_line {W T} (C : Collaborators W T) : string :=
  fw_firmware_path C Navigator
  ++ " -A udp:127.0.0.1:8852"
  ++ " --log-directory " ++ firmware_folder C ++ "/logs/"
  ++ " --storage-directory " ++ firmware_folder C ++ "/storage/"
  ++ " -C /dev/ttyS0 -B /dev/ttyAMA1 -E /dev/ttyAMA2 -F /dev/ttyAMA3".

Definition sitl_arguments {W T} (C : Collaborators W T) (frame : SITLFrame)
  : list string :=
  [fw_firmware_path C SITL; "--model"; SITLFrame_value (effective_frame frame);
   "--base-port"; "5760"; "--home"; "-27.563,-48.459,0.0,270.0"].

(** A proxy that rejects the GCS link alone. *)
Definition rejects_gcs_link : Double.Faults :=
  Double.mkFaults (fun e => String.eqb (name e) "GCS Link")
                  false false false false false false false
                  false false false false.

(** What a platform start procedure does before it spawns the firmware:
    its entry, its log records and the installation of the firmware. *)
Definition prelaunch_event (e : Event) : bool :=
  match e with
  | Invoke _ | Log _ _ | Ext (InstallFirmware _ _) _ => true
  | _ => false
  end.

(** Anything but a spawn. *)
Definition not_popen (e : Event) : bool :=
  match e with
  | Ext (Popen _) _ => false
  | _ => true
  end.

(* ================================================================== *)
(** * Notions for the process supervisor *)

(** What the prune loop adds to the trace for a process whose kill
    returns. *)
Definition kill_records (p : Process) : list Event :=
  [Log Debug "Killing Ardupilot process {process.name()}::{process.pid}.";
   Ext (Kill p) None; Ext (Sleep 500) None].

(** The system once the processes of [l] were killed one after the other,
    with half a second of sleep after each; [None] when a kill raises. *)
Fixpoint killed_all {W T} (C : Collaborators W T) (l : list Process) (w : W)
  : option W :=
  match l with
  | [] => Some w
  | p :: rest =>
      match ps_kill C p w with
      | (None, w1) => killed_all C rest (time_sleep C 500 w1)
      | (Some _, _) => None
      end
  end.

(** What [kill_ardupilot] adds to the trace for a disarm that returns: on
    SITL it does not disarm. *)
Definition disarm_records (platform : Platform) : list Event :=
  if Platform_eqb platform SITL then []
  else [Log Info "Disarming vehicle."; Ext Disarm None;
        Log Info "Vehicle disarmed."].

(** The termination work of [kill_ardupilot] without the disarm. *)
Definition sitl_kill_event (e : Event) : bool :=
  match e with
  | Ext Disarm _ => false
  | _ => kill_work_event e
  end.

(** What [k] turns of the detection loop that find no board add to the
    trace. *)
Definition retries (k : nat) : list Event :=
  concat (repeat [Log Warning
                    "Flight controller board not detected, will try again.";
                  Ext (Sleep 2000) None] k).

(** The system after [k] sleeps of [ms] milliseconds. *)
Definition slept {W T} (C : Collaborators W T) (ms : Z) (k : nat) (w : W)
  : W :=
  Nat.iter k (time_sleep C ms) w.

(** What a turn of the auto-restart loop that has nothing to do adds to the
    trace: a poll of the handle and the sleep. *)
Definition idle_event (e : Event) : bool :=
  match e with
  | Ext (Poll _ _) None | Ext (Sleep 5000) None => true
  | _ => false
  end.

(** The loop of [auto_restart] has nothing to do in this state. *)
Definition at_rest {W} (m : Manager W) : Prop :=
  should_be_running m = false
  \/ _current_platform m = Pixhawk1 \/ _current_platform m = Undefined.

(** A system whose kill raises, and one whose disarm raises. *)
Definition cannot_kill : Double.Faults :=
  Double.mkFaults (fun _ => false)
                  false false false false false false false
                  false false true false.

Definition cannot_disarm : Double.Faults :=
  Double.mkFaults (fun _ => false)
                  false false false false false false false
                  false false false true.

(** A SITL manager whose tracked subprocess needs twenty sleeps to die. *)
Definition sitl_stuck : Manager Double.World :=
  with_platform (tracking 20) SITL.

(** A board manager that does not run as root. *)
Definition unprivileged : Manager Double.World :=
  with_platform
    (Double.fresh
       (Double.mkWorld [] None false [] [] [] 1000
          [(Double.BNavigator, "/dev/navigator")] false false 0%nat))
    Navigator.

(** The system once [n] polls in a row found the process alive, each
    followed by half a second of sleep; [None] when a poll finds it
    exited. *)
Fixpoint polled_alive {W T} (C : Collaborators W T) (h : Handle) (n : nat)
         (w : W) : option W :=
  match n with
  | O => Some w
  | S n' =>
      match sp_poll C h w with
      | (None, w1) => polled_alive C h n' (time_sleep C 500 w1)
      | (Some _, _) => None
      end
  end.

(** A call to the proxy or to the settings store. *)
Definition proxy_call (e : Event) : bool :=
  match e with
  | Ext (AddEndpoint _) _ | Ext (AddEndpoints _) _ | Ext ClearEndpoints _
  | Ext (RemoveEndpoint _) _ | Ext (SetMasterEndpoint _) _
  | Ext ProxyStart _ | Ext ProxyStop _ | Ext ProxyRestart _
  | Ext (SettingsSave _) _ => true
  | _ => false
  end.

(** A system that cannot spawn a process. *)
Definition cannot_spawn : Double.Faults :=
  Double.mkFaults (fun _ => false)
                  false false false false false false false
                  false true false false.

(** The board has the value [key]. *)
Definition valued {T} (value : T -> Z) (key : Z) (b : T * string) : bool :=
  value (fst b) =? key.

(* ================================================================== *)
(** * Properties *)

(** The members of [Platform] have distinct values on either architecture,
    so comparing platforms by value is comparing members. *)
Lemma Platform_value_injective (machine : string) (a b : Platform) :
  Platform_value machine a = Platform_value machine b -> a = b.
Proof.
  unfold Platform_value, get_sitl_platform_name.
  destruct (String.eqb machine "x86_64"), a, b;
    intros Heq; try reflexivity; discriminate Heq.
Qed.

Ltac run_step :=
  unfold logger, emit, modify, ext_total, ext, try_except, bind, ret, raise,
    diverge, gets in *; simpl in *.

Section EndpointRegistry.
Context {W T : Type} (C : Collaborators W T).

(** [_reset_endpoints] never raises: it does what [reset_attempt]
    describes and returns. *)
Lemma reset_endpoints_spec (snapshot : list Endpoint) (m : Manager W) :
  _reset_endpoints C snapshot m
  = (Return tt,
     with_trace (with_world m (snd (reset_attempt C snapshot (world m))))
                (trace m ++ fst (reset_attempt C snapshot (world m)))).
Proof.
  unfold _reset_endpoints, reset_attempt. run_step.
  destruct (mm_clear_endpoints C (world m)) as [[e|] w1]; simpl.
  - unfold with_trace, with_world; simpl. now rewrite <- ?app_assoc.
  - destruct (mm_add_endpoints C snapshot w1) as [[e|] w2]; simpl;
      unfold with_trace, with_world; simpl; now rewrite <- ?app_assoc.
Qed.

(** [reload_endpoints] never raises either. *)
Lemma reload_endpoints_spec (m : Manager W) :
  reload_endpoints C m
  = (Return tt,
     with_configuration
       (with_trace (with_world m (snd (persist_attempt C (world m))))
                   (trace m ++ fst (persist_attempt C (world m))))
       (filter persistent (mm_endpoints C (world m)))).
Proof.
  unfold reload_endpoints, persist_attempt, get_endpoints,
    _save_endpoints_to_configuration. run_step.
  destruct (settings_save C _ (world m)) as [[e|] w1]; simpl.
  - unfold with_trace, with_world, with_configuration; simpl.
    now rewrite <- ?app_assoc.
  - destruct (mm_restart C w1) as [[e|] w2]; simpl;
      unfold with_trace, with_world, with_configuration; simpl;
      now rewrite <- ?app_assoc.
Qed.
End EndpointRegistry.

Section EndpointMutation.
Context {W T : Type} (C : Collaborators W T).

Lemma add_each_registered (loaded l : list Endpoint) :
  forall (m : Manager W) (w1 : W),
    register_all C l (world m) = Some w1 ->
    add_each C loaded l m
    = (Return tt, with_trace (with_world m w1) (trace m ++ registered l)).
Proof.
  induction l as [|e l IH]; intros m w1 Hreg; simpl in *.
  - injection Hreg as <-. unfold ret, with_trace, with_world.
    rewrite app_nil_r. now destruct m.
  - destruct (mm_add_endpoint C e (world m)) as [[err|] w'] eqn:Hadd;
      [discriminate|].
    unfold bind at 1. unfold try_except, bind at 1, ext at 1.
    rewrite Hadd. simpl.
    rewrite (IH _ w1) by exact Hreg.
    unfold with_trace, with_world; simpl.
    now rewrite <- !app_assoc.
Qed.

Lemma add_each_first_failure (loaded pre : list Endpoint) :
  forall (m : Manager W) e post w1 err w2,
    register_all C pre (world m) = Some w1 ->
    mm_add_endpoint C e w1 = (Some err, w2) ->
    add_each C loaded (pre ++ e :: post) m
    = (Raised err,
       with_trace
         (with_world m (snd (reset_attempt C loaded w2)))
         (trace m ++ registered pre
            ++ [Ext (AddEndpoint e) (Some err);
                Log Error "Failed to add endpoint '{endpoint.name}': {error}"]
            ++ fst (reset_attempt C loaded w2))).
Proof.
  induction pre as [|p pre IH]; intros m e post w1 err w2 Hreg Hadd;
    simpl in *.
  - injection Hreg as <-.
    unfold bind at 1. unfold try_except, bind at 1, ext at 1.
    rewrite Hadd. simpl.
    unfold bind at 1. unfold logger, emit, modify. simpl.
    unfold bind at 1. rewrite reset_endpoints_spec. simpl.
    unfold raise, with_trace, with_world; simpl.
    now rewrite <- !app_assoc.
  - destruct (mm_add_endpoint C p (world m)) as [[err'|] w'] eqn:Hp;
      [discriminate|].
    unfold bind at 1. unfold try_except, bind at 1, ext at 1.
    rewrite Hp. simpl.
    rewrite (IH _ e post w1 err w2) by assumption.
    unfold with_trace, with_world; simpl.
    now rewrite <- !app_assoc.
Qed.


Lemma reset_restores_snapshot (snapshot : list Endpoint) (w : W) :
  proxy_reset_contract C ->
  reset_succeeds C snapshot w ->
  same_set (mm_endpoints C (snd (reset_attempt C snapshot w))) snapshot.
Proof.
  intros [Hclear Hadd] (w1 & w2 & H1 & H2).
  unfold reset_attempt. rewrite H1, H2. simpl.
  eapply Hadd; [|exact H2]. eapply Hclear; exact H1.
Qed.

Lemma add_new_endpoints_first_failure (m : Manager W) pre e post w1 err w2 :
  register_all C pre (world m) = Some w1 ->
  mm_add_endpoint C e w1 = (Some err, w2) ->
  add_new_endpoints C (pre ++ e :: post) m
  = (Raised err,
     with_trace
       (with_world m (snd (reset_attempt C (mm_endpoints C (world m)) w2)))
       (trace m ++ registered pre
          ++ [Ext (AddEndpoint e) (Some err);
              Log Error "Failed to add endpoint '{endpoint.name}': {error}"]
          ++ fst (reset_attempt C (mm_endpoints C (world m)) w2))).
Proof.
  intros Hreg Hadd. unfold add_new_endpoints, get_endpoints.
  unfold bind at 1, gets. unfold bind at 1.
  now rewrite (add_each_first_failure _ pre m e post w1 err w2 Hreg Hadd).
Qed.

Lemma add_new_endpoints_registered (m : Manager W) l w1 :
  register_all C l (world m) = Some w1 ->
  add_new_endpoints C l m
  = reload_endpoints C
      (with_trace (with_world m w1) (trace m ++ registered l)).
Proof.
  intros Hreg. unfold add_new_endpoints, get_endpoints.
  unfold bind at 1, gets. unfold bind at 1.
  now rewrite (add_each_registered _ l m w1 Hreg).
Qed.

(** C1 (as amended).  When registering an endpoint fails, [add_new_endpoints]
    stops at that first failure: the endpoints after it are not attempted
    and nothing is saved or reloaded.  It attempts a reset of the proxy
    (clear, then re-add the set read before the call) and re-raises the
    triggering error, whether or not the reset succeeded; an error of the
    reset itself is only logged.  When both calls of the reset return, on a
    proxy honouring its contract, the live set is the one read before the
    call.  When every registration succeeds, the persistent subset is put
    into the configuration and the persist-and-reload step runs. *)
Theorem add_new_endpoints_reset_on_failure (m : Manager W) :
  let snapshot := mm_endpoints C (world m) in
  (forall pre e post w1 err w2,
      register_all C pre (world m) = Some w1 ->
      mm_add_endpoint C e w1 = (Some err, w2) ->
      exists m',
        add_new_endpoints C (pre ++ e :: post) m = (Raised err, m')
        /\ trace m'
           = (trace m ++ registered pre
                ++ [Ext (AddEndpoint e) (Some err);
                    Log Error
                      "Failed to add endpoint '{endpoint.name}': {error}"]
                ++ fst (reset_attempt C snapshot w2))%list
        /\ world m' = snd (reset_attempt C snapshot w2)
        /\ configuration m' = configuration m
        /\ (proxy_reset_contract C ->
            reset_succeeds C snapshot w2 ->
            same_set (mm_endpoints C (world m')) snapshot))
  /\ (forall new_endpoints w1,
         register_all C new_endpoints (world m) = Some w1 ->
         exists m',
           add_new_endpoints C new_endpoints m = (Return tt, m')
           /\ trace m'
              = (trace m ++ registered new_endpoints
                   ++ fst (persist_attempt C w1))%list
           /\ world m' = snd (persist_attempt C w1)
           /\ configuration m' = filter persistent (mm_endpoints C w1)).
Proof.
  intros snapshot. split.
  - intros pre e post w1 err w2 Hreg Hadd.
    eexists. split; [|split; [|split; [|split]]].
    + apply (add_new_endpoints_first_failure m pre e post w1 err w2 Hreg Hadd).
    + reflexivity.
    + reflexivity.
    + reflexivity.
    + intros Hc Hs. simpl. now apply reset_restores_snapshot.
  - intros l w1 Hreg.
    eexists. split; [|split; [|split]].
    + rewrite (add_new_endpoints_registered m l w1 Hreg).
      rewrite reload_endpoints_spec. reflexivity.
    + simpl. now rewrite <- app_assoc.
    + reflexivity.
    + reflexivity.
Qed.
End EndpointMutation.

Section EndpointRemoval.
Context {W T : Type} (C : Collaborators W T).


Lemma filter_protected_nonempty (l : list Endpoint) :
  (exists e, In e l /\ protected e = true) ->
  exists p ps, filter protected l = p :: ps.
Proof.
  intros (e & Hin & Hp).
  assert (Hf : In e (filter protected l)) by (apply filter_In; auto).
  destruct (filter protected l) as [|p ps]; [contradiction|eauto].
Qed.

(** C2.  When the set to remove holds a protected endpoint,
    [remove_endpoints] raises an error carrying exactly the protected
    endpoints of that set, and the manager, the proxy and the trace are as
    they were before the call: no removal was attempted and
    [get_endpoints] returns what it returned before. *)
Theorem remove_endpoints_rejects_protected
        (m : Manager W) (endpoints_to_remove : list Endpoint) :
  (exists e, In e endpoints_to_remove /\ protected e = true) ->
  remove_endpoints C endpoints_to_remove m
  = (Raised (ValueError (filter protected endpoints_to_remove)), m)
  /\ (forall e, In e (filter protected endpoints_to_remove)
                <-> In e endpoints_to_remove /\ protected e = true)
  /\ fst (get_endpoints C (snd (remove_endpoints C endpoints_to_remove m)))
     = fst (get_endpoints C m).
Proof.
  intros Hex.
  destruct (filter_protected_nonempty _ Hex) as (p & ps & Hf).
  assert (Hrun : remove_endpoints C endpoints_to_remove m
                 = (Raised (ValueError (filter protected endpoints_to_remove)),
                    m)).
  { unfold remove_endpoints, get_endpoints, bind, gets.
    rewrite Hf. reflexivity. }
  split; [exact Hrun|split].
  - intros e. apply filter_In.
  - now rewrite Hrun.
Qed.


End EndpointRemoval.

(** C1, on the test double: with a proxy that rejects [unreachable], adding
    [camera] and [unreachable] to a manager routing [telemetry] raises and
    leaves the proxy routing [telemetry] alone. *)
Lemma add_new_endpoints_reset_on_failure_witness :
  fst (add_new_endpoints (Double.collaborators rejects_unreachable)
         [camera; unreachable] routing_telemetry)
  = Raised (External "add_endpoint")
  /\ same_set
       (mm_endpoints (Double.collaborators rejects_unreachable)
          (world (snd (add_new_endpoints
                         (Double.collaborators rejects_unreachable)
                         [camera; unreachable] routing_telemetry))))
       [telemetry].
Proof.
  destruct (add_new_endpoints_reset_on_failure
              (Double.collaborators rejects_unreachable) routing_telemetry)
    as [Hfail _].
  destruct (Hfail [camera] unreachable [] _ _ _ eq_refl eq_refl)
    as (m' & Hrun & _ & _ & _ & Hset).
  simpl app in Hrun. rewrite Hrun. simpl fst. simpl snd.
  split; [reflexivity|].
  apply Hset.
  - split.
    + intros w w' Hc. simpl in Hc. injection Hc as <-. reflexivity.
    + intros l w w' He Ha. simpl in He, Ha. injection Ha as <-. simpl.
      rewrite He. simpl. intros x. reflexivity.
  - eexists. eexists. split; reflexivity.
Defined.

(** C1 as stated does not hold: when the proxy's [clear_endpoints] raises
    during the reset, the failed call leaves [camera], one of the new
    endpoints, registered next to [telemetry]. *)
Lemma add_new_endpoints_partial_application_observable :
  fst (add_new_endpoints (Double.collaborators rejects_and_cannot_clear)
         [camera; unreachable] routing_telemetry)
  = Raised (External "add_endpoint")
  /\ mm_endpoints (Double.collaborators rejects_and_cannot_clear)
       (world routing_telemetry)
     = [telemetry]
  /\ mm_endpoints (Double.collaborators rejects_and_cannot_clear)
       (world (snd (add_new_endpoints
                      (Double.collaborators rejects_and_cannot_clear)
                      [camera; unreachable] routing_telemetry)))
     = [telemetry; camera].
Proof. vm_compute. repeat split. Qed.

(** C2, on the test double: removing [gcs], which is protected, together
    with [telemetry]. *)
Lemma remove_endpoints_rejects_protected_witness :
  remove_endpoints (Double.collaborators Double.no_faults)
    [telemetry; gcs] routing_gcs
  = (Raised (ValueError [gcs]), routing_gcs).
Proof.
  apply (remove_endpoints_rejects_protected
           (Double.collaborators Double.no_faults) routing_gcs
           [telemetry; gcs]).
  exists gcs. split; [simpl; auto|reflexivity].
Defined.


Section Termination.
Context {W T : Type} (C : Collaborators W T).

Lemma same_fields_refl (m : Manager W) : same_fields m m.
Proof. repeat split. Qed.

Lemma same_fields_trans (a b c : Manager W) :
  same_fields a b -> same_fields b c -> same_fields a c.
Proof.
  unfold same_fields. intros (?&?&?&?&?) (?&?&?&?&?).
  repeat split; congruence.
Qed.

Lemma wait_for_exit_spec (h : Handle) (attempts : nat) :
  forall m : Manager W,
  exists m' k,
    same_fields m m'
    /\ ((k < attempts)%nat
        /\ (exists rc,
               wait_for_exit C h attempts m = (Return tt, m')
               /\ trace m'
                  = (trace m ++ waiting h k
                       ++ [Ext (Poll h (Some rc)) None;
                           Log Info "Ardupilot subprocess terminated."])%list)
        \/ k = attempts
           /\ wait_for_exit C h attempts m
              = (Raised (ArdupilotProcessKillFail
                           "Could not terminate Ardupilot subprocess."), m')
           /\ trace m' = (trace m ++ waiting h attempts)%list).
Proof.
  induction attempts as [|n IH]; intros m.
  - exists m, 0%nat. split; [apply same_fields_refl|]. right.
    split; [reflexivity|]. simpl. unfold raise, waiting. simpl.
    now rewrite app_nil_r.
  - destruct (sp_poll C h (world m)) as [[rc|] w1] eqn:Hpoll.
    + exists (with_trace (with_world m w1)
                (trace m ++ [Ext (Poll h (Some rc)) None;
                             Log Info "Ardupilot subprocess terminated."])),
        0%nat.
      split; [repeat split|]. left. split; [lia|]. exists rc. split.
      * simpl. unfold bind, poll. rewrite Hpoll.
        unfold logger, emit, modify, with_trace, with_world. simpl.
        now rewrite <- app_assoc.
      * reflexivity.
    + pose (m1 := with_trace (with_world m (time_sleep C 500 w1))
                    (trace m ++ [Ext (Poll h None) None;
                                 Log Debug "Waiting for process to die...";
                                 Ext (Sleep 500) None])).
      assert (Heq : wait_for_exit C h (S n) m = wait_for_exit C h n m1).
      { simpl. unfold bind, poll. rewrite Hpoll.
        unfold sleep, logger, emit, modify, ext_total, ext, with_trace,
          with_world. simpl. subst m1. unfold with_trace, with_world. simpl.
        now rewrite <- !app_assoc. }
      destruct (IH m1) as (m' & k & Hsame & Hcases).
      exists m'. rewrite Heq.
      destruct Hcases as [(Hk & rc & Hrun & Htrace) | (Hk & Hrun & Htrace)].
      * exists (S k). split; [exact Hsame|]. left. split; [lia|].
        exists rc. split; [exact Hrun|].
        rewrite Htrace. subst m1. unfold waiting. simpl.
        now rewrite <- !app_assoc.
      * exists (S n). split; [exact Hsame|]. right. split; [reflexivity|].
        split; [exact Hrun|].
        rewrite Htrace. subst m1. unfold waiting. simpl.
        now rewrite <- !app_assoc.
Qed.

Lemma terminate_ardupilot_subprocess_held (m : Manager W) (h : Handle) :
  subprocess m = Some h ->
  exists m' k,
    same_fields m m'
    /\ ((k < 10)%nat
        /\ (exists rc,
               terminate_ardupilot_subprocess C m = (Return tt, m')
               /\ trace m'
                  = (trace m ++ [Ext (Terminate h) None]
                       ++ waiting h k
                       ++ [Ext (Poll h (Some rc)) None;
                           Log Info
                             "Ardupilot subprocess terminated."])%list)
        \/ k = 10%nat
           /\ terminate_ardupilot_subprocess C m
              = (Raised (ArdupilotProcessKillFail
                           "Could not terminate Ardupilot subprocess."),
                 m')
           /\ trace m'
              = (trace m ++ [Ext (Terminate h) None]
                   ++ waiting h 10)%list).
Proof.
  intros Hsome.
  pose (m1 := with_trace (with_world m (sp_terminate C h (world m)))
                (trace m ++ [Ext (Terminate h) None])).
  assert (Heq : terminate_ardupilot_subprocess C m
                = wait_for_exit C h 10 m1).
  { unfold terminate_ardupilot_subprocess.
    unfold bind at 1, gets. rewrite Hsome. reflexivity. }
  destruct (wait_for_exit_spec h 10 m1) as (m' & k & Hsame & Hcases).
  exists m', k. split; [exact Hsame|]. rewrite Heq.
  destruct Hcases as [(Hk & rc & Hrun & Htrace) | (Hk & Hrun & Htrace)].
  - left. split; [exact Hk|]. exists rc. split; [exact Hrun|].
    rewrite Htrace. subst m1. simpl. now rewrite <- !app_assoc.
  - right. split; [exact Hk|]. split; [exact Hrun|].
    rewrite Htrace. subst m1. simpl trace. now rewrite <- !app_assoc.
Qed.

(** C5.  Without a subprocess handle, [terminate_ardupilot_subprocess] logs
    a warning and returns, leaving the manager and the world as they were.
    With a handle [h] it signals the process, then polls: the call returns
    at the first poll that finds the process exited, after [k] polls that
    found it alive, each followed by a sleep of half a second, with [k] at
    most 9; when ten polls in a row find it alive the call raises
    [ArdupilotProcessKillFail]. *)
Theorem terminate_ardupilot_subprocess_bounded_wait (m : Manager W) :
  (subprocess m = None ->
   terminate_ardupilot_subprocess C m
   = (Return tt,
      with_trace m
        (trace m
           ++ [Log Warning "Ardupilot subprocess already not running."])))
  /\ (forall h,
         subprocess m = Some h ->
         exists m' k,
           same_fields m m'
           /\ ((k < 10)%nat
               /\ (exists rc,
                      terminate_ardupilot_subprocess C m = (Return tt, m')
                      /\ trace m'
                         = (trace m ++ [Ext (Terminate h) None]
                              ++ waiting h k
                              ++ [Ext (Poll h (Some rc)) None;
                                  Log Info
                                    "Ardupilot subprocess terminated."])%list)
               \/ k = 10%nat
                  /\ terminate_ardupilot_subprocess C m
                     = (Raised (ArdupilotProcessKillFail
                                  "Could not terminate Ardupilot subprocess."),
                        m')
                  /\ trace m'
                     = (trace m ++ [Ext (Terminate h) None]
                          ++ waiting h 10)%list)).
Proof.
  split.
  - intros Hnone. unfold terminate_ardupilot_subprocess.
    unfold bind at 1, gets. rewrite Hnone. reflexivity.
  - intros h. apply terminate_ardupilot_subprocess_held.
Qed.
End Termination.

(** C5, on the test double: a process that dies three sleeps after the
    signal is waited for and the call returns; one that needs twenty sleeps
    makes the call raise after ten polls. *)
Lemma terminate_ardupilot_subprocess_bounded_wait_witness :
  (exists m' k,
      (k < 10)%nat
      /\ terminate_ardupilot_subprocess
           (Double.collaborators Double.no_faults) (tracking 3)
         = (Return tt, m'))
  /\ fst (terminate_ardupilot_subprocess
            (Double.collaborators Double.no_faults) (tracking 20))
     = Raised (ArdupilotProcessKillFail
                 "Could not terminate Ardupilot subprocess.").
Proof.
  split.
  - destruct (terminate_ardupilot_subprocess_bounded_wait
                (Double.collaborators Double.no_faults) (tracking 3))
      as [_ Hheld].
    destruct (Hheld 1%nat eq_refl) as (m' & k & _ & Hcases).
    destruct Hcases as [(Hk & rc & Hrun & _) | (_ & Hrun & _)].
    + exists m', k. split; [exact Hk|exact Hrun].
    + vm_compute in Hrun. discriminate Hrun.
  - vm_compute. reflexivity.
Defined.

(* ================================================================== *)
(** * What a method may do to the state

    For a reflexive and transitive relation [R] on states that admits the
    steps a method takes, the method as a whole relates the state before to
    the state after. *)

Lemma with_world_same {W} (m : Manager W) : with_world m (world m) = m.
Proof. now destruct m. Qed.

(** Entering [kill_ardupilot] and clearing the flag, then [x]. *)
Lemma clear_flag_then {W A} (x : @M W A) (m : Manager W) :
  (emit (Invoke P_kill_ardupilot) ;; set_should_be_running false ;; x) m
  = x (flag_cleared m).
Proof.
  unfold set_should_be_running, bind, emit, modify, flag_cleared, with_trace,
    with_should_be_running. simpl. now rewrite <- app_assoc.
Qed.

Section Preservation.
Context {W T : Type} `{BoardEnum T} (C : Collaborators W T).
Variable R : Manager W -> Manager W -> Prop.
Variable allowed : Event -> bool.

Hypothesis R_refl : forall m, R m m.
Hypothesis R_trans : forall a b c, R a b -> R b c -> R a c.
Hypothesis R_ext :
  forall m w e, allowed e = true ->
                R m (with_trace (with_world m w) (trace m ++ [e])).
Hypothesis R_platform : forall m p, R m (with_platform m p).
Hypothesis R_subprocess : forall m h, R m (with_subprocess m h).
Hypothesis R_configuration : forall m c, R m (with_configuration m c).
Hypothesis R_sitl_frame : forall m f, R m (with_sitl_frame m f).
Hypothesis R_should_be_running :
  forall m b, R m (with_should_be_running m b).

Lemma preserves_ret {A} (a : A) : preserves R (ret a).
Proof. intros m. apply R_refl. Qed.

Lemma preserves_raise {A} (e : Exn) : preserves R (@raise W A e).
Proof. intros m. apply R_refl. Qed.

Lemma preserves_diverge {A} : preserves R (@diverge W A).
Proof. intros m. apply R_refl. Qed.

Lemma preserves_gets {A} (f : Manager W -> A) : preserves R (gets f).
Proof. intros m. apply R_refl. Qed.

Lemma preserves_bind {A B} (x : M A) (f : A -> M B) :
  preserves R x -> (forall a, preserves R (f a)) -> preserves R (bind x f).
Proof.
  intros Hx Hf m. unfold bind. specialize (Hx m).
  destruct (x m) as [[a|e|] m1]; simpl in *; auto.
  eapply R_trans; [exact Hx|apply Hf].
Qed.

Lemma preserves_try_except {A} (body : M A) (handler : Exn -> M A) :
  preserves R body -> (forall e, preserves R (handler e)) ->
  preserves R (try_except body handler).
Proof.
  intros Hb Hh m. unfold try_except. specialize (Hb m).
  destruct (body m) as [[a|e|] m1]; simpl in *; auto.
  eapply R_trans; [exact Hb|apply Hh].
Qed.

Lemma preserves_modify (f : Manager W -> Manager W) :
  (forall m, R m (f m)) -> preserves R (modify f).
Proof. intros Hf m. apply Hf. Qed.

Lemma preserves_emit (e : Event) :
  allowed e = true -> preserves R (emit e).
Proof.
  intros He m. unfold emit, modify. simpl.
  rewrite <- (with_world_same m) at 2. now apply R_ext.
Qed.

Lemma preserves_logger (lvl : Level) (msg : string) :
  allowed (Log lvl msg) = true -> preserves R (logger lvl msg).
Proof. apply preserves_emit. Qed.

Lemma preserves_ext (c : ExtCall) (op : W -> option Exn * W) :
  (forall r, allowed (Ext c r) = true) -> preserves R (ext c op).
Proof.
  intros Hc m. unfold ext.
  destruct (op (world m)) as [[e|] w]; simpl; now apply R_ext.
Qed.

Lemma preserves_sleep (ms : Z) :
  allowed (Ext (Sleep ms) None) = true -> preserves R (sleep C ms).
Proof. intros Hs m. unfold sleep, ext_total, ext. simpl. now apply R_ext. Qed.

Lemma preserves_poll (h : Handle) :
  (forall rc, allowed (Ext (Poll h rc) None) = true) ->
  preserves R (poll C h).
Proof.
  intros Hp m. unfold poll.
  destruct (sp_poll C h (world m)) as [rc w]. simpl. now apply R_ext.
Qed.

Lemma preserves_spawn (cmd : Command) :
  (forall r, allowed (Ext (Popen cmd) r) = true) ->
  preserves R (spawn C cmd).
Proof.
  intros Hp m. unfold spawn.
  destruct (sp_Popen C cmd (world m)) as [[e|h] w]; simpl.
  - now apply R_ext.
  - eapply R_trans; [apply R_ext, Hp|apply R_subprocess].
Qed.

Ltac preserve :=
  repeat match goal with
    | |- preserves _ (bind _ _) => apply preserves_bind; [|intros ?]
    | |- preserves _ (try_except _ _) =>
        apply preserves_try_except; [|intros ?]
    | |- preserves _ (ret _) => apply preserves_ret
    | |- preserves _ (raise _) => apply preserves_raise
    | |- preserves _ diverge => apply preserves_diverge
    | |- preserves _ (gets _) => apply preserves_gets
    | |- preserves _ (logger _ _) => apply preserves_logger
    | |- preserves _ (emit _) => apply preserves_emit
    | |- preserves _ (ext _ _) => apply preserves_ext
    | |- preserves _ (sleep _ _) => apply preserves_sleep
    | |- preserves _ (poll _ _) => apply preserves_poll
    | |- preserves _ (spawn _ _) => apply preserves_spawn
    | |- preserves _ (modify _) => apply preserves_modify
    | |- preserves _ (if ?b then _ else _) => destruct b
    | |- preserves _ (match ?x with _ => _ end) => destruct x
    end.

Ltac allowed_by H := intros; apply H; reflexivity.

Section Registry.
Hypothesis registry_allowed :
  forall e, registry_event e = true -> allowed e = true.

Lemma preserves_reset_endpoints (l : list Endpoint) :
  preserves R (_reset_endpoints C l).
Proof. unfold _reset_endpoints. preserve; allowed_by registry_allowed. Qed.

Lemma preserves_reload_endpoints : preserves R (reload_endpoints C).
Proof.
  unfold reload_endpoints, get_endpoints, _save_endpoints_to_configuration.
  preserve; try allowed_by registry_allowed. intros m. apply R_configuration.
Qed.

Lemma preserves_add_each (loaded l : list Endpoint) :
  preserves R (add_each C loaded l).
Proof.
  induction l as [|e l IH]; simpl.
  - apply preserves_ret.
  - preserve; try allowed_by registry_allowed.
    + apply preserves_reset_endpoints.
    + exact IH.
Qed.

Lemma preserves_add_new_endpoints (l : list Endpoint) :
  preserves R (add_new_endpoints C l).
Proof.
  unfold add_new_endpoints, get_endpoints. preserve.
  - apply preserves_add_each.
  - apply preserves_reload_endpoints.
Qed.
End Registry.

Section PlatformStart.
Hypothesis platform_allowed :
  forall e, platform_event e = true -> allowed e = true.

Lemma registry_allowed_of_platform :
  forall e, registry_event e = true -> allowed e = true.
Proof.
  intros e He. apply platform_allowed. unfold platform_event.
  now rewrite He.
Qed.

Lemma preserves_start_mavlink_manager (device : Endpoint) :
  preserves R (start_mavlink_manager C device).
Proof.
  unfold start_mavlink_manager.
  preserve; try allowed_by platform_allowed;
    apply preserves_add_new_endpoints, registry_allowed_of_platform.
Qed.

Lemma preserves_set_current_platform (p : Platform) :
  preserves R (@set_current_platform W p).
Proof.
  unfold set_current_platform. preserve; try allowed_by platform_allowed.
  intros m. apply R_platform.
Qed.

Lemma preserves_ensure_firmware : preserves R (ensure_firmware C).
Proof.
  unfold ensure_firmware, current_platform.
  preserve; allowed_by platform_allowed.
Qed.
Lemma preserves_after_entry {A} (p : Proc) (body : M A) :
  preserves R body ->
  forall m, R (entered p m) (snd ((emit (Invoke p) ;; body) m)).
Proof. intros Hb m. unfold bind, emit, modify. simpl. apply Hb. Qed.

Lemma start_navigator_after_entry (m : Manager W) :
  R (entered P_start_navigator m) (snd (start_navigator C m)).
Proof.
  unfold start_navigator. apply preserves_after_entry.
  unfold current_platform. preserve; try allowed_by platform_allowed.
  - apply preserves_set_current_platform.
  - apply preserves_ensure_firmware.
  - apply preserves_start_mavlink_manager.
Qed.

Lemma start_serial_after_entry (device : string) (m : Manager W) :
  R (entered P_start_serial m) (snd (start_serial C device m)).
Proof.
  unfold start_serial. apply preserves_after_entry.
  preserve.
  - apply preserves_set_current_platform.
  - apply preserves_start_mavlink_manager.
Qed.

Lemma run_with_sitl_after_entry (frame : SITLFrame) (m : Manager W) :
  R (entered P_run_with_sitl m) (snd (run_with_sitl C frame m)).
Proof.
  unfold run_with_sitl. apply preserves_after_entry.
  unfold current_platform, current_sitl_frame, set_current_sitl_frame.
  preserve; try allowed_by platform_allowed.
  - apply preserves_set_current_platform.
  - apply preserves_ensure_firmware.
  - intros m'. apply R_sitl_frame.
  - apply preserves_start_mavlink_manager.
Qed.
End PlatformStart.

Section StartPhase.
Hypothesis start_allowed :
  forall e, start_event e = true -> allowed e = true.

Lemma platform_allowed_of_start :
  forall e, platform_event e = true -> allowed e = true.
Proof.
  intros e He. apply start_allowed. unfold start_event. now rewrite He.
Qed.

Lemma entry_allowed (p : Proc) (m : Manager W) :
  allowed (Invoke p) = true -> R m (entered p m).
Proof.
  intros Hp. unfold entered. rewrite <- (with_world_same m) at 2.
  now apply R_ext.
Qed.

Lemma preserves_start_navigator : preserves R (start_navigator C).
Proof.
  intros m. eapply R_trans;
    [|apply start_navigator_after_entry, platform_allowed_of_start].
  apply entry_allowed. now apply start_allowed.
Qed.

Lemma preserves_start_serial (device : string) :
  preserves R (start_serial C device).
Proof.
  intros m. eapply R_trans;
    [|apply start_serial_after_entry, platform_allowed_of_start].
  apply entry_allowed. now apply start_allowed.
Qed.

Lemma preserves_run_with_sitl (frame : SITLFrame) :
  preserves R (run_with_sitl C frame).
Proof.
  intros m. eapply R_trans;
    [|apply run_with_sitl_after_entry, platform_allowed_of_start].
  apply entry_allowed. now apply start_allowed.
Qed.

Lemma preserves_start_board (boards : list (T * string)) :
  preserves R (start_board C boards).
Proof.
  unfold start_board.
  preserve; try allowed_by start_allowed.
  - apply preserves_start_navigator.
  - apply preserves_start_serial.
Qed.

Lemma preserves_detect_loop (fuel : nat) : preserves R (detect_loop C fuel).
Proof.
  induction fuel as [|fuel IH]; simpl.
  - apply preserves_diverge.
  - preserve; try allowed_by start_allowed.
    + apply preserves_start_board.
    + exact IH.
Qed.

Lemma preserves_run_with_board (fuel : nat) :
  preserves R (run_with_board C fuel).
Proof.
  unfold run_with_board, check_running_as_root. preserve.
  apply preserves_detect_loop.
Qed.

Lemma preserves_set_should_be_running_true :
  preserves R (@set_should_be_running W true).
Proof.
  unfold set_should_be_running. preserve; try allowed_by start_allowed.
  intros m. apply R_should_be_running.
Qed.

Lemma preserves_start_ardupilot (fuel : nat) :
  preserves R (start_ardupilot C fuel).
Proof.
  unfold start_ardupilot, current_platform, current_sitl_frame.
  preserve; try allowed_by start_allowed.
  - apply preserves_run_with_sitl.
  - apply preserves_set_should_be_running_true.
  - apply preserves_run_with_board.
  - apply preserves_set_should_be_running_true.
Qed.
Lemma start_ardupilot_after_entry (fuel : nat) (m : Manager W) :
  R (entered P_start_ardupilot m) (snd (start_ardupilot C fuel m)).
Proof.
  unfold start_ardupilot. apply preserves_after_entry.
  unfold current_platform, current_sitl_frame.
  preserve.
  - apply preserves_run_with_sitl.
  - apply preserves_set_should_be_running_true.
  - apply preserves_run_with_board.
  - apply preserves_set_should_be_running_true.
Qed.
End StartPhase.
Section KillPhase.
Hypothesis kill_allowed :
  forall e, kill_work_event e = true -> allowed e = true.

Lemma preserves_wait_for_exit (h : Handle) (attempts : nat) :
  preserves R (wait_for_exit C h attempts).
Proof.
  induction attempts as [|n IH]; simpl.
  - apply preserves_raise.
  - preserve; try allowed_by kill_allowed. exact IH.
Qed.

Lemma preserves_terminate_ardupilot_subprocess :
  preserves R (terminate_ardupilot_subprocess C).
Proof.
  unfold terminate_ardupilot_subprocess, ext_total.
  preserve; try allowed_by kill_allowed.
  apply preserves_wait_for_exit.
Qed.

Lemma preserves_running_ardupilot_processes :
  preserves R (running_ardupilot_processes C).
Proof.
  unfold running_ardupilot_processes, current_platform.
  preserve; allowed_by kill_allowed.
Qed.

Lemma preserves_prune_each (processes : list Process) :
  preserves R (prune_each C processes).
Proof.
  induction processes as [|p l IH]; simpl.
  - apply preserves_ret.
  - preserve; try allowed_by kill_allowed. exact IH.
Qed.

Lemma preserves_prune_ardupilot_processes :
  preserves R (prune_ardupilot_processes C).
Proof.
  unfold prune_ardupilot_processes. preserve.
  - apply preserves_running_ardupilot_processes.
  - apply preserves_prune_each.
Qed.

Lemma kill_ardupilot_after_flag (m : Manager W) :
  R (flag_cleared m) (snd (kill_ardupilot C m)).
Proof.
  unfold kill_ardupilot. rewrite clear_flag_then.
  match goal with
  | |- R _ (snd (?x _)) => assert (Hp : preserves R x); [|apply Hp]
  end.
  unfold current_platform.
  preserve; try allowed_by kill_allowed.
  - apply preserves_terminate_ardupilot_subprocess.
  - apply preserves_prune_ardupilot_processes.
Qed.
End KillPhase.
End Preservation.

(* ================================================================== *)
(** * Instances of the relation *)

Section Only.
Context {W : Type} (P : Event -> bool).

Lemma only_refl (m : Manager W) : only P m m.
Proof. exists []. now rewrite app_nil_r. Qed.

Lemma only_trans (a b c : Manager W) : only P a b -> only P b c -> only P a c.
Proof.
  intros (e1 & H1 & F1) (e2 & H2 & F2). exists (e1 ++ e2)%list.
  rewrite H2, H1, app_assoc, forallb_app, F1, F2. auto.
Qed.

Lemma only_ext (m : Manager W) (w : W) (e : Event) :
  P e = true -> only P m (with_trace (with_world m w) (trace m ++ [e])).
Proof. intros He. exists [e]. simpl. now rewrite He. Qed.

Lemma only_same_trace (m m' : Manager W) : trace m' = trace m -> only P m m'.
Proof. intros Ht. exists []. now rewrite app_nil_r. Qed.

Lemma only_added (m m' : Manager W) :
  only P m m' ->
  trace m' = (trace m ++ added m m')%list
  /\ forallb P (added m m') = true.
Proof.
  intros (evs & Ht & Hf). unfold added. rewrite Ht.
  rewrite skipn_app, skipn_all, Nat.sub_diag. simpl. auto.
Qed.

End Only.

Lemma added_app {W} (m m' : Manager W) (evs : list Event) :
  trace m' = (trace m ++ evs)%list -> added m m' = evs.
Proof.
  intros Ht. unfold added. rewrite Ht.
  now rewrite skipn_app, skipn_all, Nat.sub_diag.
Qed.

Lemma invocations_app (a b : list Event) :
  invocations (a ++ b) = (invocations a ++ invocations b)%list.
Proof. unfold invocations. now rewrite flat_map_app. Qed.

Lemma invocations_platform (evs : list Event) :
  forallb platform_event evs = true -> invocations evs = [].
Proof.
  induction evs as [|e evs IH]; simpl; [reflexivity|].
  intros Hf. apply andb_prop in Hf as [He Hf].
  rewrite (IH Hf). destruct e; try reflexivity. discriminate He.
Qed.

Ltac only_steps :=
  try solve
      [ intros; apply only_refl
      | intros a b c; apply only_trans
      | intros; apply only_ext; assumption
      | intros; apply only_same_trace; reflexivity
      | auto ].

(* ================================================================== *)
(** * Board selection *)

Section Sorting.
Context {T : Type} (value : T -> Z).

Lemma insert_board_perm (b : T * string) (l : list (T * string)) :
  Permutation (insert_board value b l) (b :: l).
Proof.
  induction l as [|c l IH]; simpl; [reflexivity|].
  destruct (value (fst b) <=? value (fst c)); [reflexivity|].
  rewrite IH. apply perm_swap.
Qed.

Lemma sort_boards_perm (l : list (T * string)) :
  Permutation (sort_boards value l) l.
Proof.
  induction l as [|b l IH]; simpl; [reflexivity|].
  rewrite insert_board_perm. now rewrite IH.
Qed.

Lemma insert_board_ascending (b : T * string) (l : list (T * string)) :
  ascending value l -> ascending value (insert_board value b l).
Proof.
  unfold ascending. induction l as [|c l IH]; intros Hs; simpl.
  - repeat constructor.
  - destruct (value (fst b) <=? value (fst c)) eqn:Hle.
    + apply Z.leb_le in Hle. constructor; [exact Hs|].
      constructor; [exact Hle|].
      apply StronglySorted_inv in Hs as [_ Hall].
      eapply Forall_impl; [|exact Hall]. simpl. intros. lia.
    + apply Z.leb_gt in Hle.
      apply StronglySorted_inv in Hs as [Hs Hall].
      constructor; [now apply IH|].
      rewrite insert_board_perm. constructor; [lia|exact Hall].
Qed.

Lemma sort_boards_ascending (l : list (T * string)) :
  ascending value (sort_boards value l).
Proof.
  induction l as [|b l IH]; simpl.
  - constructor.
  - now apply insert_board_ascending.
Qed.

(** The head of the sorted list is one of the boards, and no board has a
    lower value. *)
Lemma sort_boards_head (l : list (T * string)) :
  l <> [] ->
  exists winner where_ rest,
    sort_boards value l = (winner, where_) :: rest
    /\ In (winner, where_) l
    /\ (forall b, In b l -> value winner <= value (fst b)).
Proof.
  intros Hne.
  pose proof (sort_boards_perm l) as Hperm.
  pose proof (sort_boards_ascending l) as Hasc.
  destruct (sort_boards value l) as [|[winner where_] rest].
  - apply Permutation_nil in Hperm. contradiction.
  - exists winner, where_, rest. split; [reflexivity|split].
    + eapply Permutation_in; [exact Hperm|now left].
    + intros b Hb. apply Permutation_sym in Hperm.
      apply (Permutation_in _ Hperm) in Hb.
      apply StronglySorted_inv in Hasc as [_ Hall].
      destruct Hb as [<-|Hb]; [simpl; lia|].
      rewrite Forall_forall in Hall. now apply (Hall b).
Qed.
End Sorting.

(** With the values of typedefs.py the serial board comes before a
    Navigator board. *)
Lemma typedefs_priority_order :
  sort_boards FlightControllerType_value scenario_boards
  = [(Serial, "/dev/ttyUSB0"); (NavigatorR3, "/dev/navigator")].
Proof. reflexivity. Qed.

Section BoardSelection.
Context {W T : Type} `{BoardEnum T} (C : Collaborators W T).

Lemma start_navigator_trace (m : Manager W) :
  only platform_event (entered P_start_navigator m)
       (snd (start_navigator C m)).
Proof.
  apply (start_navigator_after_entry C (only platform_event) platform_event);
    only_steps.
Qed.

Lemma start_serial_trace (device : string) (m : Manager W) :
  only platform_event (entered P_start_serial m)
       (snd (start_serial C device m)).
Proof.
  apply (start_serial_after_entry C (only platform_event) platform_event);
    only_steps.
Qed.

Lemma run_with_sitl_trace (frame : SITLFrame) (m : Manager W) :
  only platform_event (entered P_run_with_sitl m)
       (snd (run_with_sitl C frame m)).
Proof.
  apply (run_with_sitl_after_entry C (only platform_event) platform_event);
    only_steps.
Qed.

Lemma invocations_board_logs (boards : list (T * string)) :
  invocations (board_logs boards) = [].
Proof. unfold board_logs. now destruct (1 <? length boards)%nat. Qed.

(** A method that enters [p] and then adds platform events only, run
    after the logs of [start_board]: [p] is the one method entered. *)
Lemma invocations_after_logs (p : Proc) (boards : list (T * string))
      (m m' : Manager W) :
  only platform_event
       (entered p (with_trace m (trace m ++ board_logs boards))) m' ->
  invocations (added m m') = [p].
Proof.
  intros (evs & Ht & Hf). simpl in Ht.
  rewrite (added_app m m' (board_logs boards ++ [Invoke p] ++ evs)).
  - rewrite !invocations_app, invocations_board_logs.
    now rewrite (invocations_platform evs Hf).
  - rewrite Ht. now rewrite <- !app_assoc.
Qed.

Lemma snd_then_ret {A B} (x : M A) (b : B) (m : Manager W) :
  snd ((x ;; ret b) m) = snd (x m).
Proof. unfold bind, ret. now destruct (x m) as [[a|e|] m1]. Qed.

(** C4.  [start_board] returns [False] on an empty list and does nothing
    else.  Otherwise the boards are sorted by ascending value of the board
    type and the first of the sorted list wins: it is one of the boards
    and none has a lower value.  A warning is logged when there are several
    boards, and no error comes of it.  When the winner is the Navigator
    board type [start_navigator] runs and [start_serial] does not; when it
    is the serial type [start_serial] runs, on the winner's place, and
    [start_navigator] does not; for any other type neither runs and a
    [RuntimeError] is raised. *)
Theorem start_board_dispatch (boards : list (T * string)) (m : Manager W) :
  (boards = [] -> start_board C boards m = (Return false, m))
  /\ (boards <> [] ->
      Permutation (sort_boards board_value boards) boards
      /\ ascending board_value (sort_boards board_value boards)
      /\ exists winner where_ rest,
          sort_boards board_value boards = (winner, where_) :: rest
          /\ In (winner, where_) boards
          /\ (forall b, In b boards ->
                        board_value winner <= board_value (fst b))
          /\ ((1 < length boards)%nat ->
              In (Log Warning "More than a single board detected: {boards}")
                 (board_logs boards))
          /\ let m1 := with_trace m (trace m ++ board_logs boards) in
             let r := start_board C boards m in
             if board_eqb board_Navigator winner then
               r = (start_navigator C ;; ret true) m1
               /\ invocations (added m (snd r)) = [P_start_navigator]
             else if board_eqb board_Serial winner then
               r = (start_serial C where_ ;; ret true) m1
               /\ invocations (added m (snd r)) = [P_start_serial]
             else
               r = (Raised (RuntimeError "Invalid board type: {boards}"), m1)
               /\ invocations (added m (snd r)) = []).
Proof.
  split; [intros ->; reflexivity|].
  intros Hne.
  split; [apply sort_boards_perm|].
  split; [apply sort_boards_ascending|].
  destruct (sort_boards_head board_value boards Hne)
    as (winner & where_ & rest & Hsort & Hin & Hmin).
  exists winner, where_, rest.
  split; [exact Hsort|]. split; [exact Hin|]. split; [exact Hmin|].
  split.
  { intros Hlen. unfold board_logs.
    apply Nat.ltb_lt in Hlen. rewrite Hlen. now left. }
  assert (Hrun :
    start_board C boards m
    = (if board_eqb board_Navigator winner
       then start_navigator C ;; ret true
       else if board_eqb board_Serial winner
            then start_serial C where_ ;; ret true
            else raise (RuntimeError "Invalid board type: {boards}"))
        (with_trace m (trace m ++ board_logs boards))).
  { unfold start_board. destruct boards as [|b boards]; [contradiction|].
    rewrite Hsort. unfold board_logs.
    destruct (1 <? length (b :: boards))%nat;
      destruct (board_eqb board_Navigator winner);
      try destruct (board_eqb board_Serial winner);
      unfold bind, logger, emit, modify, ret, raise; cbv beta iota;
      unfold with_trace; cbn [trace app]; rewrite <- ?app_assoc;
      reflexivity. }
  cbv zeta. rewrite Hrun.
  destruct (board_eqb board_Navigator winner);
    [|destruct (board_eqb board_Serial winner)].
  - split; [reflexivity|]. rewrite snd_then_ret.
    apply (invocations_after_logs P_start_navigator boards).
    apply start_navigator_trace.
  - split; [reflexivity|]. rewrite snd_then_ret.
    apply (invocations_after_logs P_start_serial boards).
    apply start_serial_trace.
  - split; [reflexivity|]. unfold raise. simpl.
    rewrite (added_app m _ (board_logs boards)) by reflexivity.
    apply invocations_board_logs.
Qed.
End BoardSelection.

(** C4, on the test double: a Navigator board and a serial board are
    detected; the serial board has the lower value, and [start_serial] is
    the one start procedure that runs. *)
Lemma start_board_dispatch_witness :
  sort_boards board_value detected_boards
  = [(Double.BSerial, "/dev/ttyUSB0"); (Double.BNavigator, "/dev/navigator")]
  /\ fst (start_board (Double.collaborators Double.no_faults) detected_boards
            (Double.fresh Double.idle))
     = Return true
  /\ invocations
       (added (Double.fresh Double.idle)
              (snd (start_board (Double.collaborators Double.no_faults)
                      detected_boards (Double.fresh Double.idle))))
     = [P_start_serial].
Proof.
  destruct (start_board_dispatch (Double.collaborators Double.no_faults)
              detected_boards (Double.fresh Double.idle)) as [_ Hsome].
  destruct Hsome as (_ & _ & winner & where_ & rest & Hsort & _ & _ & _ & Hrun);
    [discriminate|].
  vm_compute in Hsort. injection Hsort as <- <- <-.
  cbv zeta in Hrun.
  change (board_eqb board_Navigator Double.BSerial) with false in Hrun.
  change (board_eqb board_Serial Double.BSerial) with true in Hrun.
  cbv iota in Hrun. destruct Hrun as [Hrun Hinv].
  split; [reflexivity|]. split; [|exact Hinv].
  rewrite Hrun. vm_compute. reflexivity.
Defined.

(* ================================================================== *)
(** * The auto-restart loop *)

Section AutoRestart.
Context {W T : Type} `{BoardEnum T} (C : Collaborators W T).

Lemma start_ardupilot_trace (fuel : nat) (m : Manager W) :
  only any_event (entered P_start_ardupilot m)
       (snd (start_ardupilot C fuel m)).
Proof.
  apply (start_ardupilot_after_entry C (only any_event) any_event);
    only_steps.
Qed.

Lemma filter_nil_iff {A} (f : A -> bool) (l : list A) :
  (length (filter f l) =? 0)%nat = true
  <-> (forall x, In x l -> f x = false).
Proof.
  induction l as [|a l IH]; simpl.
  - split; [intros _ x []|reflexivity].
  - destruct (f a) eqn:Hfa; simpl.
    + split; [discriminate|]. intros Hall.
      rewrite (Hall a) in Hfa by now left. discriminate.
    + rewrite IH. split.
      * intros Hall x [<-|Hx]; auto.
      * intros Hall x Hx. apply Hall. now right.
Qed.

(** The condition as the loop evaluates it: the value it finds, the
    state it leaves, and the events it adds. *)
Lemma needs_restart_spec (m : Manager W) :
  exists b m1 evs,
    (stopped <- subprocess_stopped C ;; needs_restart C stopped) m
    = (Return b, m1)
    /\ trace m1 = (trace m ++ evs)%list
    /\ forallb observation_event evs = true
    /\ (b = true <-> restart_due C m).
Proof.
  unfold subprocess_stopped, needs_restart, running_ardupilot_processes,
    current_platform, poll, restart_due, no_firmware_process, handle_exited,
    after_poll.
  destruct m as [pf fr sub run cfg w tr]. simpl.
  destruct sub as [h|]; run_step.
  - destruct (sp_poll C h w) as [rc w1] eqn:Hpoll. simpl.
    destruct run; simpl.
    2: { do 3 eexists. split; [reflexivity|]. split; [reflexivity|].
         split; [reflexivity|]. split; [discriminate|].
         intros (Hr & _). discriminate. }
    destruct pf; simpl;
      try (do 3 eexists; split; [reflexivity|]; split; [reflexivity|];
           split; [reflexivity|]; split; [discriminate|];
           intros (_ & [Hp|Hp] & _); discriminate).
    all: do 3 eexists; (split; [reflexivity|]);
      (split; [simpl; rewrite <- app_assoc; reflexivity|]);
      (split; [reflexivity|]).
    all: rewrite orb_true_iff, filter_nil_iff; unfold is_ardupilot_process.
    all: split;
      [ intros [Hnone|Hstop];
        [ split; [reflexivity|]; split; [auto|]; left; exact Hnone
        | split; [reflexivity|]; split; [auto|]; right;
          destruct rc as [rc|]; [|discriminate];
          exists h, rc; rewrite Hpoll; auto ]
      | intros (_ & _ & [Hnone|(h' & rc' & Hh & Hrc)]);
        [ left; exact Hnone
        | right; injection Hh as <-; rewrite Hpoll in Hrc; simpl in Hrc;
          now rewrite Hrc ] ].
  - destruct run; simpl.
    2: { do 3 eexists. split; [reflexivity|]. split; [symmetry; apply app_nil_r|].
         split; [reflexivity|]. split; [discriminate|].
         intros (Hr & _). discriminate. }
    destruct pf; simpl;
      try (do 3 eexists; split; [reflexivity|];
           split; [symmetry; apply app_nil_r|];
           split; [reflexivity|]; split; [discriminate|];
           intros (_ & [Hp|Hp] & _); discriminate).
    all: do 3 eexists; (split; [reflexivity|]);
      (split; [reflexivity|]); (split; [reflexivity|]).
    all: rewrite orb_false_r, filter_nil_iff; unfold is_ardupilot_process.
    all: split;
      [ intros Hnone; split; [reflexivity|]; split; [auto|]; left;
        exact Hnone
      | intros (_ & _ & [Hnone|(h' & rc' & Hh & _)]);
        [ exact Hnone | discriminate ] ].
Qed.

Lemma bind_continues {A B} (R : Manager W -> Manager W -> Prop)
      (x : M A) (f : A -> M B) (m : Manager W) :
  (forall s, R s s) -> (forall a, preserves R (f a)) ->
  R (snd (x m)) (snd (bind x f m)).
Proof.
  intros Hrefl Hf. unfold bind.
  destruct (x m) as [[a|e|] m1]; simpl; auto. apply Hf.
Qed.

Lemma invocations_observation (evs : list Event) :
  forallb observation_event evs = true -> invocations evs = [].
Proof.
  induction evs as [|e evs IH]; simpl; [reflexivity|].
  intros Hf. apply andb_prop in Hf as [He Hf].
  rewrite (IH Hf). destruct e; try reflexivity. discriminate He.
Qed.

Lemma invocations_nil_not_in (evs : list Event) (p : Proc) :
  invocations evs = [] -> ~ In (Invoke p) evs.
Proof.
  induction evs as [|e evs IH]; simpl; [tauto|].
  intros Hi [->|Hin].
  - discriminate Hi.
  - apply app_eq_nil in Hi as [_ Hi]. now apply IH.
Qed.

Lemma sleep_only_any (ms : Z) : preserves (only any_event) (sleep C ms).
Proof.
  intros m. unfold sleep, ext_total, ext. simpl. now apply only_ext.
Qed.

(** C3.  One turn of the auto-restart loop enters [start_ardupilot]
    exactly when [should_be_running] is set, the current platform is SITL
    or Navigator, and either no system process has the firmware path in
    its command line or the tracked subprocess has exited.  Otherwise the
    turn enters no method at all and returns after its sleep: so it is for
    the platforms Pixhawk1 and Undefined, and whenever
    [should_be_running] is false, whatever the processes do. *)
Theorem auto_restart_starts_exactly_when_due
        (fuel : nat) (m : Manager W) :
  (restart_due C m
   <-> In (Invoke P_start_ardupilot)
          (added m (snd (auto_restart_iteration C fuel m))))
  /\ (~ restart_due C m ->
      fst (auto_restart_iteration C fuel m) = Return tt
      /\ invocations (added m (snd (auto_restart_iteration C fuel m))) = [])
  /\ (_current_platform m = Pixhawk1 \/ _current_platform m = Undefined
      \/ should_be_running m = false ->
      ~ restart_due C m).
Proof.
  destruct (needs_restart_spec m) as (b & m1 & evs & Hobs & Ht1 & Hevs & Hb).
  assert (Hrun :
    auto_restart_iteration C fuel m
    = ((if b then logger Debug "Restarting ardupilot..." ;;
                  start_ardupilot C fuel
        else ret tt) ;; sleep C 5000) m1).
  { unfold auto_restart_iteration. unfold bind at 1.
    unfold bind at 1 in Hobs.
    destruct (subprocess_stopped C m) as [[stopped|e|] m0];
      try discriminate Hobs.
    unfold bind at 1. now rewrite Hobs. }
  assert (Hquiet :
    b = false ->
    fst (auto_restart_iteration C fuel m) = Return tt
    /\ invocations (added m (snd (auto_restart_iteration C fuel m))) = []).
  { intros ->. rewrite Hrun. unfold bind, ret, sleep, ext_total, ext. simpl.
    split; [reflexivity|].
    rewrite (added_app m _ (evs ++ [Ext (Sleep 5000) None])).
    - rewrite invocations_app, (invocations_observation evs Hevs).
      reflexivity.
    - simpl. rewrite Ht1. now rewrite <- app_assoc. }
  split; [|split].
  - destruct b.
    + split; [intros _|intros _; now apply Hb].
      rewrite Hrun.
      pose (m2 := with_trace m1 (trace m1 ++ [Log Debug "Restarting ardupilot..."])).
      assert (Hstart :
        only any_event (entered P_start_ardupilot m2)
             (snd (((logger Debug "Restarting ardupilot..." ;;
                     start_ardupilot C fuel) ;; sleep C 5000) m1))).
      { eapply only_trans;
          [|apply (bind_continues (only any_event));
            [apply only_refl|intros; apply sleep_only_any]].
        unfold bind at 1, logger, emit, modify. simpl.
        apply start_ardupilot_trace. }
      destruct Hstart as (evs2 & Ht2 & _).
      rewrite (added_app m _
                 (evs ++ [Log Debug "Restarting ardupilot..."]
                      ++ [Invoke P_start_ardupilot] ++ evs2)).
      * rewrite !in_app_iff. right. right. left. now left.
      * rewrite Ht2. simpl. rewrite Ht1. now rewrite <- !app_assoc.
    + split.
      * intros Hdue. apply Hb in Hdue. discriminate.
      * intros Hin. exfalso.
        destruct (Hquiet eq_refl) as [_ Hinv].
        exact (invocations_nil_not_in _ _ Hinv Hin).
  - intros Hnot. apply Hquiet.
    destruct b; [|reflexivity]. exfalso. apply Hnot. now apply Hb.
  - intros Hcase (Hrun' & Hplat & _).
    destruct Hcase as [Hp|[Hp|Hf]].
    + destruct Hplat as [Hq|Hq]; rewrite Hp in Hq; discriminate.
    + destruct Hplat as [Hq|Hq]; rewrite Hp in Hq; discriminate.
    + rewrite Hf in Hrun'. discriminate.
Qed.
End AutoRestart.

(* ================================================================== *)
(** * The SITL frame *)

Lemma is_undefined_frame_spec (frame : SITLFrame) :
  is_undefined_frame frame = true <-> frame = UNDEFINED.
Proof. destruct frame; vm_compute; split; congruence. Qed.

Lemma effective_frame_defined (frame : SITLFrame) :
  effective_frame frame <> UNDEFINED.
Proof. destruct frame; discriminate. Qed.

Lemma effective_frame_value : SITLFrame_value (effective_frame UNDEFINED) = "vectored".
Proof. reflexivity. Qed.

Section SitlFrame.
Context {W T : Type} (C : Collaborators W T).

Lemma launch_keeps_frame (cmd : Command) (device : Endpoint) :
  preserves keeps_frame (spawn C cmd ;; start_mavlink_manager C device).
Proof.
  apply preserves_bind; try (intros; reflexivity).
  - intros a b c Hab Hbc. unfold keeps_frame in *. congruence.
  - apply (preserves_spawn C keeps_frame any_event);
      try (intros; reflexivity).
    intros a b c Hab Hbc. unfold keeps_frame in *. congruence.
  - intros _.
    apply (preserves_start_mavlink_manager C keeps_frame any_event);
      try (intros; reflexivity).
    intros a b c Hab Hbc. unfold keeps_frame in *. congruence.
Qed.

Lemma launch_extends_trace (cmd : Command) (device : Endpoint) :
  preserves (only any_event)
            (spawn C cmd ;; start_mavlink_manager C device).
Proof.
  apply preserves_bind; only_steps.
  - apply (preserves_spawn C (only any_event) any_event); only_steps.
  - intros _.
    apply (preserves_start_mavlink_manager C (only any_event) any_event);
      only_steps.
Qed.

(** The state in which [run_with_sitl] launches the simulator, when the
    firmware is ready: the platform and the effective frame are recorded,
    and the warning is in the trace when the frame was undefined. *)
Lemma run_with_sitl_reaches_launch (frame : SITLFrame) (m : Manager W) :
  firmware_ready C SITL (world m) ->
  exists m3 cmd,
    run_with_sitl C frame m
    = (spawn C cmd ;; start_mavlink_manager C (sitl_master C)) m3
    /\ _current_sitl_frame m3 = effective_frame frame
    /\ _current_platform m3 = SITL
    /\ only any_event m m3
    /\ (frame = UNDEFINED ->
        In (Log Warning
              "SITL frame is undefined. Setting {frame} as current frame.")
           (added m m3)).
Proof.
  intros Hready. unfold firmware_ready in Hready.
  unfold run_with_sitl, set_current_platform,
    set_current_sitl_frame, ensure_firmware, current_platform,
    current_sitl_frame.
  remember (spawn C) as launch eqn:Hl.
  remember (start_mavlink_manager C (sitl_master C)) as tail eqn:Htl.
  run_step.
  destruct (fw_is_firmware_installed C SITL (world m)) eqn:Hinst; simpl.
  - destruct frame; simpl;
      (eexists; eexists; split; [reflexivity|]; simpl;
       split; [reflexivity|]; split; [reflexivity|]; split;
       [eexists; simpl; split;
        [rewrite <- ?app_assoc; reflexivity|reflexivity]
       |try discriminate]).
    intros _. unfold added. simpl. rewrite <- !app_assoc.
    rewrite skipn_app, skipn_all, Nat.sub_diag. simpl. auto.
  - destruct Hready as [Hready|Hready]; [discriminate|].
    destruct (fw_install_firmware_from_params C Sub SITL (world m))
      as [[e|] w1]; [discriminate|]. simpl.
    destruct frame; simpl;
      (eexists; eexists; split; [reflexivity|]; simpl;
       split; [reflexivity|]; split; [reflexivity|]; split;
       [eexists; simpl; split;
        [rewrite <- ?app_assoc; reflexivity|reflexivity]
       |try discriminate]).
    intros _. unfold added. simpl. rewrite <- !app_assoc.
    rewrite skipn_app, skipn_all, Nat.sub_diag. simpl. auto.
Qed.

(** C8 (as amended).  In every call of [run_with_sitl] that gets past the
    firmware check and installation, the frame recorded is the default
    frame [VECTORED], whose value is "vectored", when the frame given is
    undefined, with a warning logged, and the frame given otherwise; the
    frame recorded is never the undefined one, also when the launch that
    follows raises.  A call whose firmware installation raises records
    no frame. *)
Theorem run_with_sitl_records_effective_frame
        (frame : SITLFrame) (m : Manager W) :
  (firmware_ready C SITL (world m) ->
   _current_sitl_frame (snd (run_with_sitl C frame m))
   = effective_frame frame
   /\ _current_sitl_frame (snd (run_with_sitl C frame m)) <> UNDEFINED
   /\ (frame = UNDEFINED ->
       SITLFrame_value (_current_sitl_frame (snd (run_with_sitl C frame m)))
       = "vectored"
       /\ In (Log Warning
                "SITL frame is undefined. Setting {frame} as current frame.")
             (added m (snd (run_with_sitl C frame m))))
   /\ (frame <> UNDEFINED ->
       _current_sitl_frame (snd (run_with_sitl C frame m)) = frame))
  /\ (~ firmware_ready C SITL (world m) ->
      (exists e, fst (run_with_sitl C frame m) = Raised e)
      /\ _current_sitl_frame (snd (run_with_sitl C frame m))
         = _current_sitl_frame m).
Proof.
  split.
  - intros Hready.
    destruct (run_with_sitl_reaches_launch frame m Hready)
      as (m3 & cmd & Hrun & Hframe & _ & Hext & Hwarn).
    pose proof (launch_keeps_frame cmd (sitl_master C) m3) as Hkeep.
    pose proof (launch_extends_trace cmd (sitl_master C) m3) as Hgrow.
    rewrite <- Hrun in Hkeep, Hgrow. unfold keeps_frame in Hkeep.
    assert (Heff : _current_sitl_frame (snd (run_with_sitl C frame m))
                   = effective_frame frame) by congruence.
    split; [exact Heff|]. split; [|split].
    + rewrite Heff. apply effective_frame_defined.
    + intros ->. split; [now rewrite Heff|].
      destruct (only_added _ _ _ Hext) as [Ht3 _].
      destruct Hgrow as (evs & Ht & _).
      rewrite (added_app m _ (added m m3 ++ evs)).
      * apply in_or_app. left. now apply Hwarn.
      * rewrite Ht, Ht3. now rewrite <- app_assoc.
    + intros Hdef. rewrite Heff. destruct frame; try reflexivity.
      now contradiction Hdef.
  - intros Hnot. unfold firmware_ready in Hnot.
    unfold run_with_sitl, set_current_platform, ensure_firmware,
      current_platform.
    run_step.
    destruct (fw_is_firmware_installed C SITL (world m)) eqn:Hinst;
      [exfalso; apply Hnot; now left|]. simpl.
    destruct (fw_install_firmware_from_params C Sub SITL (world m))
      as [[e|] w1] eqn:Hins; [|exfalso; apply Hnot; right; reflexivity].
    simpl. split; [now exists e|reflexivity].
Qed.
End SitlFrame.

(** C8 as stated does not hold: the firmware of the simulator is missing and
    its installation raises; [run_with_sitl(UNDEFINED)] on a manager fresh
    from [__init__] raises, the frame recorded stays undefined and no
    warning is logged. *)
Lemma run_with_sitl_may_record_no_frame :
  fst (run_with_sitl (Double.collaborators cannot_install) UNDEFINED
         (Double.fresh Double.idle))
  = Raised (External "install_firmware")
  /\ _current_sitl_frame
       (snd (run_with_sitl (Double.collaborators cannot_install) UNDEFINED
               (Double.fresh Double.idle)))
     = UNDEFINED
  /\ trace (snd (run_with_sitl (Double.collaborators cannot_install) UNDEFINED
                   (Double.fresh Double.idle)))
     = [Invoke P_run_with_sitl;
        Log Info "Setting {platform} as current platform.";
        Ext (InstallFirmware Sub SITL) (Some (External "install_firmware"))].
Proof. vm_compute. repeat split. Qed.

(** C8, on the test double: the firmware gets installed, and
    [run_with_sitl(UNDEFINED)] records [VECTORED]. *)
Lemma run_with_sitl_records_effective_frame_witness :
  _current_sitl_frame
    (snd (run_with_sitl (Double.collaborators Double.no_faults) UNDEFINED
            (Double.fresh Double.idle)))
  = VECTORED.
Proof.
  destruct (run_with_sitl_records_effective_frame
              (Double.collaborators Double.no_faults) UNDEFINED
              (Double.fresh Double.idle)) as [Hok _].
  destruct Hok as (Heff & _).
  - right. reflexivity.
  - exact Heff.
Defined.

(* ================================================================== *)
(** * Failures inside the auto-restart loop *)

Section AutoRestartFailure.
Context {W T : Type} `{BoardEnum T} (C : Collaborators W T).

End AutoRestartFailure.



(* ================================================================== *)
(** * The default auxiliary endpoints *)

Section AuxiliaryEndpoints.
Context {W T : Type} (C : Collaborators W T).




End AuxiliaryEndpoints.

(* ================================================================== *)
(** * Kill, then start *)

Section KillStep.
Context {W : Type}.

Lemma kill_step_refl (m : Manager W) : kill_step m m.
Proof. split; [apply only_refl|repeat split]. Qed.

Lemma kill_step_trans (a b c : Manager W) :
  kill_step a b -> kill_step b c -> kill_step a c.
Proof.
  intros [Ho1 Hs1] [Ho2 Hs2]. split.
  - eapply only_trans; eassumption.
  - unfold same_fields in *. intuition congruence.
Qed.

Lemma kill_step_ext (m : Manager W) (w : W) (e : Event) :
  kill_work_event e = true ->
  kill_step m (with_trace (with_world m w) (trace m ++ [e])).
Proof. intros He. split; [now apply only_ext|repeat split]. Qed.


Lemma bind_logger {A} (lvl : Level) (msg : string) (x : @M W A)
      (m : Manager W) :
  (logger lvl msg ;; x) m = x (with_trace m (trace m ++ [Log lvl msg])).
Proof. reflexivity. Qed.




End KillStep.


Section Prune.
Context {W T : Type} (C : Collaborators W T).

End Prune.

Section KillThenStart.
Context {W T : Type} `{BoardEnum T} (C : Collaborators W T).

Lemma kill_ardupilot_steps (m : Manager W) :
  kill_step (flag_cleared m) (snd (kill_ardupilot C m)).
Proof.
  apply (kill_ardupilot_after_flag C kill_step kill_work_event);
    auto using kill_step_refl, kill_step_ext.
  intros a b c. apply kill_step_trans.
Qed.






End KillThenStart.



(** C3, on the test double: a SITL manager that should be running, with no
    firmware process in the system, starts the autopilot; the same manager
    on the Pixhawk1 platform does not. *)
Lemma auto_restart_starts_exactly_when_due_witness :
  In (Invoke P_start_ardupilot)
     (added sitl_down
        (snd (auto_restart_iteration (Double.collaborators Double.no_faults)
                1 sitl_down)))
  /\ invocations
       (added (with_platform sitl_down Pixhawk1)
          (snd (auto_restart_iteration
                  (Double.collaborators Double.no_faults) 1
                  (with_platform sitl_down Pixhawk1))))
     = [].
Proof.
  split.
  - apply (auto_restart_starts_exactly_when_due
             (Double.collaborators Double.no_faults) 1 sitl_down).
    split; [reflexivity|]. split; [now left|]. left. intros p [].
  - destruct (auto_restart_starts_exactly_when_due
                (Double.collaborators Double.no_faults) 1
                (with_platform sitl_down Pixhawk1)) as (_ & Hquiet & Hnever).
    apply Hquiet, Hnever. now left.
Defined.

(* ================================================================== *)
(** * More on the endpoint registry *)

Section RegistryMore.
Context {W T : Type} (C : Collaborators W T).

Lemma remove_each_first_failure (loaded pre : list Endpoint) :
  forall (m : Manager W) e post w1 err w2,
    unregister_all C pre (world m) = Some w1 ->
    mm_remove_endpoint C e w1 = (Some err, w2) ->
    remove_each C loaded (pre ++ e :: post) m
    = (Raised err,
       with_trace
         (with_world m (snd (reset_attempt C loaded w2)))
         (trace m ++ unregistered pre
            ++ [Ext (RemoveEndpoint e) (Some err);
                Log Error "Failed to remove endpoint '{endpoint.name}': {error}"]
            ++ fst (reset_attempt C loaded w2))).
Proof.
  induction pre as [|p pre IH]; intros m e post w1 err w2 Hreg Hrm;
    simpl in *.
  - injection Hreg as <-.
    unfold bind at 1. unfold try_except, bind at 1, ext at 1.
    rewrite Hrm. simpl.
    unfold bind at 1. unfold logger, emit, modify. simpl.
    unfold bind at 1. rewrite reset_endpoints_spec. simpl.
    unfold raise, with_trace, with_world; simpl.
    now rewrite <- !app_assoc.
  - destruct (mm_remove_endpoint C p (world m)) as [[err'|] w'] eqn:Hp;
      [discriminate|].
    unfold bind at 1. unfold try_except, bind at 1, ext at 1.
    rewrite Hp. simpl.
    rewrite (IH _ e post w1 err w2) by assumption.
    unfold with_trace, with_world; simpl.
    now rewrite <- !app_assoc.
Qed.

(** X1.  When none of the endpoints to remove is protected and the proxy
    refuses to remove one of them, [remove_endpoints] stops there: the
    endpoints after it are not attempted and nothing is saved or reloaded.
    It attempts the reset of the proxy to the set read before the call and
    re-raises the error of the removal; when the reset went through, on a
    proxy honouring its contract, the live set is the one read before the
    call. *)
Theorem remove_endpoints_reset_on_failure
        (m : Manager W) (pre : list Endpoint) (e : Endpoint)
        (post : list Endpoint) (w1 : W) (err : Exn) (w2 : W) :
  filter protected (pre ++ e :: post) = [] ->
  unregister_all C pre (world m) = Some w1 ->
  mm_remove_endpoint C e w1 = (Some err, w2) ->
  exists m',
    remove_endpoints C (pre ++ e :: post) m = (Raised err, m')
    /\ trace m'
       = (trace m ++ unregistered pre
            ++ [Ext (RemoveEndpoint e) (Some err);
                Log Error
                  "Failed to remove endpoint '{endpoint.name}': {error}"]
            ++ fst (reset_attempt C (mm_endpoints C (world m)) w2))%list
    /\ world m' = snd (reset_attempt C (mm_endpoints C (world m)) w2)
    /\ configuration m' = configuration m
    /\ (proxy_reset_contract C ->
        reset_succeeds C (mm_endpoints C (world m)) w2 ->
        same_set (mm_endpoints C (world m')) (mm_endpoints C (world m))).
Proof.
  intros Hnone Hreg Hrm. eexists. split; [|split; [|split; [|split]]].
  - unfold remove_endpoints, get_endpoints. unfold bind at 1, gets.
    rewrite Hnone. unfold bind at 1.
    rewrite (remove_each_first_failure _ pre m e post w1 err w2 Hreg Hrm).
    reflexivity.
  - reflexivity.
  - reflexivity.
  - reflexivity.
  - intros Hc Hs. simpl. now apply reset_restores_snapshot.
Qed.

(** X2.  With an empty set, [add_new_endpoints] and [remove_endpoints] do
    the same thing: they ask the proxy to add or remove nothing, and still
    run the persist-and-reload step, so the settings are saved and, when
    that went through, the proxy is restarted. *)
Theorem empty_mutation_still_reloads (m : Manager W) :
  add_new_endpoints C [] m = remove_endpoints C [] m
  /\ fst (add_new_endpoints C [] m) = Return tt
  /\ (exists r,
         In (Ext (SettingsSave (filter persistent (mm_endpoints C (world m))))
                 r)
            (added m (snd (add_new_endpoints C [] m))))
  /\ (forall w1,
         settings_save C (filter persistent (mm_endpoints C (world m)))
                       (world m) = (None, w1) ->
         exists r,
           In (Ext ProxyRestart r) (added m (snd (add_new_endpoints C [] m))))
  /\ (forall e r,
         ~ In (Ext (AddEndpoint e) r) (added m (snd (add_new_endpoints C [] m)))
         /\ ~ In (Ext (RemoveEndpoint e) r)
                 (added m (snd (add_new_endpoints C [] m)))).
Proof.
  assert (Hadd : add_new_endpoints C [] m = reload_endpoints C m).
  { rewrite (add_new_endpoints_registered C m [] (world m) eq_refl).
    simpl. rewrite app_nil_r. now destruct m. }
  assert (Hev : added m (snd (add_new_endpoints C [] m))
                = fst (persist_attempt C (world m))).
  { rewrite Hadd, reload_endpoints_spec. simpl. now apply added_app. }
  rewrite Hev. split; [|split; [|split; [|split]]].
  - rewrite Hadd. reflexivity.
  - rewrite Hadd, reload_endpoints_spec. reflexivity.
  - unfold persist_attempt.
    destruct (settings_save C _ (world m)) as [[e|] w1];
      [eexists; now left|].
    destruct (mm_restart C w1) as [[e|] w2]; eexists; now left.
  - intros w1 Hsave. unfold persist_attempt. rewrite Hsave.
    destruct (mm_restart C w1) as [[e|] w2]; eexists; right; now left.
  - intros e r. unfold persist_attempt.
    destruct (settings_save C _ (world m)) as [[e1|] w1];
      [|destruct (mm_restart C w1) as [[e2|] w2]]; simpl;
      split; intros Hin;
      repeat (destruct Hin as [Hin|Hin]; [discriminate Hin|]);
      exact Hin.
Qed.

(** X3.  After [reload_endpoints] the configuration in memory holds exactly
    the persistent endpoints of the live set, also when saving it raised;
    in that case the error is logged, the proxy is not restarted, and the
    call returns. *)
Theorem reload_endpoints_updates_configuration (m : Manager W) :
  fst (reload_endpoints C m) = Return tt
  /\ (forall e,
         In e (configuration (snd (reload_endpoints C m)))
         <-> In e (mm_endpoints C (world m)) /\ persistent e = true)
  /\ (forall err w1,
         settings_save C (filter persistent (mm_endpoints C (world m)))
                       (world m) = (Some err, w1) ->
         added m (snd (reload_endpoints C m))
         = [Ext (SettingsSave (filter persistent (mm_endpoints C (world m))))
                (Some err);
            Log Error "Error updating endpoints: {error}"]
         /\ world (snd (reload_endpoints C m)) = w1).
Proof.
  rewrite reload_endpoints_spec. simpl. split; [reflexivity|]. split.
  - intros e. apply filter_In.
  - intros err w1 Hsave. unfold persist_attempt. rewrite Hsave. simpl.
    split; [|reflexivity]. now apply added_app.
Qed.

(** X4.  The endpoints the manager creates itself are protected:
    [remove_endpoints] on any set that holds one of them raises the error
    naming it and leaves the manager and the proxy as they were. *)
Theorem manager_endpoints_cannot_be_removed
        (m : Manager W) (endpoints_to_remove : list Endpoint) (e : Endpoint) :
  In e endpoints_to_remove ->
  manager_endpoint C e ->
  remove_endpoints C endpoints_to_remove m
  = (Raised (ValueError (filter protected endpoints_to_remove)), m)
  /\ In e (filter protected endpoints_to_remove).
Proof.
  intros Hin Hmine.
  assert (Hprot : protected e = true).
  { destruct Hmine as [->|[->|[->|[->|[device ->]]]]]; reflexivity. }
  assert (Hf : In e (filter protected endpoints_to_remove))
    by (apply filter_In; auto).
  split; [|exact Hf].
  unfold remove_endpoints, get_endpoints, bind, gets.
  destruct (filter protected endpoints_to_remove); [contradiction|].
  reflexivity.
Qed.


End RegistryMore.

(** X1, on the test double: the proxy routes [telemetry] and [camera] and
    refuses to remove [unreachable]; removing [camera] and [unreachable]
    raises and the proxy routes both again. *)
Lemma remove_endpoints_reset_on_failure_witness :
  fst (remove_endpoints (Double.collaborators rejects_unreachable)
         [camera; unreachable] routing_camera)
  = Raised (External "remove_endpoint")
  /\ same_set
       (mm_endpoints (Double.collaborators rejects_unreachable)
          (world (snd (remove_endpoints
                         (Double.collaborators rejects_unreachable)
                         [camera; unreachable] routing_camera))))
       [telemetry; camera].
Proof.
  destruct (remove_endpoints_reset_on_failure
              (Double.collaborators rejects_unreachable) routing_camera
              [camera] unreachable [] _ _ _ eq_refl eq_refl eq_refl)
    as (m' & Hrun & _ & _ & _ & Hset).
  simpl app in Hrun. rewrite Hrun. simpl fst. simpl snd.
  split; [reflexivity|].
  apply Hset.
  - split.
    + intros w w' Hc. simpl in Hc. injection Hc as <-. reflexivity.
    + intros l w w' He Ha. simpl in He, Ha. injection Ha as <-. simpl.
      rewrite He. simpl. intros x. reflexivity.
  - eexists. eexists. split; reflexivity.
Defined.

(** X4, on the test double: the GCS link cannot be removed. *)
Lemma manager_endpoints_cannot_be_removed_witness :
  remove_endpoints (Double.collaborators Double.no_faults)
    [camera; gcs_link (Double.collaborators Double.no_faults)] routing_camera
  = (Raised (ValueError [gcs_link (Double.collaborators Double.no_faults)]),
     routing_camera).
Proof.
  apply (manager_endpoints_cannot_be_removed
           (Double.collaborators Double.no_faults) routing_camera
           [camera; gcs_link (Double.collaborators Double.no_faults)]
           (gcs_link (Double.collaborators Double.no_faults))).
  - right. now left.
  - now left.
Defined.

(* ================================================================== *)
(** * Matching processes by the firmware path *)

Lemma string_app_assoc (a b c : string) : (a ++ b) ++ c = a ++ b ++ c.
Proof. induction a as [|x a IH]; simpl; [reflexivity|now rewrite IH]. Qed.

Lemma string_app_nil_r (a : string) : a ++ "" = a.
Proof. induction a as [|x a IH]; simpl; [reflexivity|now rewrite IH]. Qed.

Lemma prefix_spec (needle hay : string) :
  String.prefix needle hay = true <-> exists rest, hay = needle ++ rest.
Proof.
  revert needle. induction hay as [|b hay IH]; intros [|a needle]; simpl.
  - split; [exists ""; reflexivity|reflexivity].
  - split; [discriminate|intros [rest Hr]; discriminate Hr].
  - split; [intros _; eexists; reflexivity|reflexivity].
  - destruct (Ascii.ascii_dec a b) as [->|Hne].
    + rewrite IH. split; intros [rest Hr]; exists rest.
      * now rewrite Hr.
      * now injection Hr.
    + split; [discriminate|]. intros [rest Hr]. injection Hr as Hab _.
      now elim Hne.
Qed.

Lemma contains_eq (needle hay : string) :
  contains needle hay
  = String.prefix needle hay
    || match hay with
       | EmptyString => false
       | String _ rest => contains needle rest
       end.
Proof. now destruct hay. Qed.

Lemma contains_spec (needle hay : string) :
  contains needle hay = true <-> substring_of needle hay.
Proof.
  unfold substring_of. induction hay as [|b hay IH]; rewrite contains_eq.
  - rewrite orb_false_r, prefix_spec. split.
    + intros [rest Hr]. exists "", rest. exact Hr.
    + intros ([|x before] & after & Hr); [now exists after|discriminate Hr].
  - rewrite orb_true_iff, prefix_spec, IH. split.
    + intros [[rest Hr]|(before & after & Hr)].
      * exists "", rest. exact Hr.
      * exists (String b before), after. simpl. now rewrite Hr.
    + intros ([|x before] & after & Hr).
      * left. now exists after.
      * right. injection Hr as _ Hr. now exists before, after.
Qed.

Lemma concat_holds_each (sep x : string) (l : list string) :
  In x l -> substring_of x (String.concat sep l).
Proof.
  unfold substring_of. induction l as [|y l IH]; [intros []|].
  intros [->|Hin].
  - destruct l as [|z l]; simpl.
    + exists "", "". simpl. now rewrite string_app_nil_r.
    + exists "", (sep ++ String.concat sep (z :: l)). reflexivity.
  - destruct (IH Hin) as (before & after & Hr).
    destruct l as [|z l]; [contradiction|].
    exists (y ++ sep ++ before), after.
    change (String.concat sep (y :: z :: l))
      with (y ++ sep ++ String.concat sep (z :: l)).
    rewrite Hr. now rewrite !string_app_assoc.
Qed.

Section Matching.
Context {W T : Type} (C : Collaborators W T).

(** X6.  A process is taken for an ArduPilot process exactly when the
    firmware path of the platform occurs in its command line, the arguments
    joined by single spaces; so every process that has the path as one of
    its arguments is one, and with a firmware path that is the empty string
    every process is. *)
Theorem is_ardupilot_process_substring
        (platform : Platform) (process : Process) :
  (is_ardupilot_process C platform process = true
   <-> substring_of (fw_firmware_path C platform)
                    (String.concat " " (cmdline process)))
  /\ (In (fw_firmware_path C platform) (cmdline process) ->
      is_ardupilot_process C platform process = true)
  /\ (fw_firmware_path C platform = "" ->
      is_ardupilot_process C platform process = true).
Proof.
  unfold is_ardupilot_process. split; [apply contains_spec|]. split.
  - intros Hin. apply contains_spec. now apply concat_holds_each.
  - intros ->. apply contains_spec.
    exists "", (String.concat " " (cmdline process)). reflexivity.
Qed.

End Matching.

(* ================================================================== *)
(** * More on the platform start procedures *)

Ltac step_with Hrefl Htrans Hext :=
  repeat match goal with
    | |- preserves _ (bind _ _) =>
        apply (preserves_bind _ Htrans); [|intros ?]
    | |- preserves _ (try_except _ _) =>
        apply (preserves_try_except _ Htrans); [|intros ?]
    | |- preserves _ (ret _) => apply (preserves_ret _ Hrefl)
    | |- preserves _ (raise _) => apply (preserves_raise _ Hrefl)
    | |- preserves _ diverge => apply (preserves_diverge _ Hrefl)
    | |- preserves _ (gets _) => apply (preserves_gets _ Hrefl)
    | |- preserves _ (logger _ _) =>
        apply (preserves_logger _ _ Hext); reflexivity
    | |- preserves _ (emit _) =>
        apply (preserves_emit _ _ Hext); reflexivity
    | |- preserves _ (ext _ _) =>
        apply (preserves_ext _ _ Hext); intros; reflexivity
    | |- preserves _ (sleep _ _) =>
        apply (preserves_sleep _ _ _ Hext); reflexivity
    | |- preserves _ (poll _ _) =>
        apply (preserves_poll _ _ _ Hext); intros; reflexivity
    | |- preserves _ (if ?b then _ else _) => destruct b
    | |- preserves _ (match ?x with _ => _ end) => destruct x
    end.

Section Keeps.
Context {W A : Type} (field : Manager W -> A).
Hypothesis field_of_self :
  forall m w t, field (with_trace (with_world m w) t) = field m.

Lemma keeps_refl (m : Manager W) : keeps field m m.
Proof. reflexivity. Qed.

Lemma keeps_trans (a b c : Manager W) :
  keeps field a b -> keeps field b c -> keeps field a c.
Proof. unfold keeps. congruence. Qed.

Lemma keeps_ext (m : Manager W) (w : W) (e : Event) :
  any_event e = true ->
  keeps field m (with_trace (with_world m w) (trace m ++ [e])).
Proof. intros _. apply field_of_self. Qed.
End Keeps.

Section PlatformMore.
Context {W T : Type} (C : Collaborators W T).

Lemma registry_in_mavlink (e : Event) :
  registry_event e = true -> mavlink_event e = true.
Proof. intros He. unfold mavlink_event. now rewrite He. Qed.

Lemma start_mavlink_manager_mavlink_events (device : Endpoint) :
  preserves (only mavlink_event) (start_mavlink_manager C device).
Proof.
  unfold start_mavlink_manager.
  step_with (@only_refl W mavlink_event) (@only_trans W mavlink_event)
            (@only_ext W mavlink_event).
  all: apply (preserves_add_new_endpoints C (only mavlink_event) mavlink_event);
    only_steps;
    first [apply registry_in_mavlink | intros ? ? ?; apply only_trans].
Qed.

(** Entering a platform start procedure and setting the platform, then
    [x]. *)
Lemma enter_platform_then {A} (q : Proc) (p : Platform) (x : @M W A)
      (m : Manager W) :
  (emit (Invoke q) ;; set_current_platform p ;; x) m
  = x (with_trace (with_platform m p)
         (trace m ++ [Invoke q;
                      Log Info "Setting {platform} as current platform."])).
Proof.
  unfold set_current_platform, bind, emit, logger, modify, with_trace,
    with_platform. simpl. now rewrite <- app_assoc.
Qed.

Lemma start_mavlink_manager_keeps {A} (field : Manager W -> A)
      (device : Endpoint) :
  (forall m w t, field (with_trace (with_world m w) t) = field m) ->
  (forall m c, field (with_configuration m c) = field m) ->
  preserves (keeps field) (start_mavlink_manager C device).
Proof.
  intros Hself Hcfg.
  apply (preserves_start_mavlink_manager C (keeps field) any_event);
    auto using keeps_refl, keeps_ext.
  intros a b c. apply keeps_trans.
Qed.

Lemma ensure_firmware_keeps {A} (field : Manager W -> A) :
  (forall m w t, field (with_trace (with_world m w) t) = field m) ->
  preserves (keeps field) (ensure_firmware C).
Proof.
  intros Hself.
  apply (preserves_ensure_firmware C (keeps field) any_event);
    auto using keeps_refl, keeps_ext.
  intros a b c. apply keeps_trans.
Qed.

Lemma spawn_keeps {A} (field : Manager W -> A) (cmd : Command) :
  (forall m w t, field (with_trace (with_world m w) t) = field m) ->
  (forall m h, field (with_subprocess m h) = field m) ->
  preserves (keeps field) (spawn C cmd).
Proof.
  intros Hself Hsub.
  apply (preserves_spawn C (keeps field) any_event);
    auto using keeps_ext.
  intros a b c. apply keeps_trans.
Qed.

(** X8.  Each platform start procedure records its platform before
    anything that can fail, and nothing after changes it: whatever the
    outcome of [start_navigator], [start_serial] or [run_with_sitl], the
    current platform afterwards is Navigator, Pixhawk1 or SITL. *)
Theorem platform_recorded_whatever_the_outcome (m : Manager W) :
  _current_platform (snd (start_navigator C m)) = Navigator
  /\ (forall device,
         _current_platform (snd (start_serial C device m)) = Pixhawk1)
  /\ (forall frame,
         _current_platform (snd (run_with_sitl C frame m)) = SITL).
Proof.
  assert (Hself : forall (s : Manager W) w t,
             _current_platform (with_trace (with_world s w) t)
             = _current_platform s) by reflexivity.
  split; [|split].
  - unfold start_navigator. rewrite enter_platform_then.
    match goal with
    | |- _current_platform (snd (?x ?s)) = _ =>
        assert (Hp : preserves (keeps _current_platform) x);
        [|exact (Hp s)]
    end.
    unfold current_platform.
    step_with (@keeps_refl W _ (@_current_platform W))
              (@keeps_trans W _ (@_current_platform W))
              (@keeps_ext W _ (@_current_platform W) Hself).
    + now apply ensure_firmware_keeps.
    + now apply spawn_keeps.
    + now apply start_mavlink_manager_keeps.
  - intros device. unfold start_serial. rewrite enter_platform_then.
    match goal with
    | |- _current_platform (snd (?x ?s)) = _ =>
        assert (Hp : preserves (keeps _current_platform) x);
        [|exact (Hp s)]
    end.
    now apply start_mavlink_manager_keeps.
  - intros frame. unfold run_with_sitl. rewrite enter_platform_then.
    match goal with
    | |- _current_platform (snd (?x ?s)) = _ =>
        assert (Hp : preserves (keeps _current_platform) x);
        [|exact (Hp s)]
    end.
    unfold current_platform, current_sitl_frame, set_current_sitl_frame.
    step_with (@keeps_refl W _ (@_current_platform W))
              (@keeps_trans W _ (@_current_platform W))
              (@keeps_ext W _ (@_current_platform W) Hself).
    + now apply ensure_firmware_keeps.
    + apply preserves_modify. reflexivity.
    + now apply spawn_keeps.
    + now apply start_mavlink_manager_keeps.
Qed.

(** X9.  [start_serial] spawns no process and installs no firmware: after
    its entry it adds events of the registry and of the proxy only, and it
    leaves the tracked subprocess handle, the SITL frame and
    [should_be_running] as they were. *)
Theorem start_serial_spawns_nothing (device : string) (m : Manager W) :
  (exists evs,
      added m (snd (start_serial C device m))
      = Invoke P_start_serial :: evs
      /\ forallb mavlink_event evs = true)
  /\ subprocess (snd (start_serial C device m)) = subprocess m
  /\ _current_sitl_frame (snd (start_serial C device m))
     = _current_sitl_frame m
  /\ should_be_running (snd (start_serial C device m)) = should_be_running m.
Proof.
  unfold start_serial. rewrite enter_platform_then.
  match goal with
  | |- context [snd (start_mavlink_manager C ?d ?s)] =>
      set (dev := d); set (s1 := s)
  end.
  split; [|split; [|split]].
  - destruct (start_mavlink_manager_mavlink_events dev s1) as (evs & Ht & Hf).
    exists (Log Info "Setting {platform} as current platform." :: evs).
    split; [|simpl; exact Hf].
    apply added_app. rewrite Ht. subst s1. simpl.
    now rewrite <- app_assoc.
  - exact (start_mavlink_manager_keeps (@subprocess W) dev
             (fun _ _ _ => eq_refl) (fun _ _ => eq_refl) s1).
  - exact (start_mavlink_manager_keeps (@_current_sitl_frame W) dev
             (fun _ _ _ => eq_refl) (fun _ _ => eq_refl) s1).
  - exact (start_mavlink_manager_keeps (@should_be_running W) dev
             (fun _ _ _ => eq_refl) (fun _ _ => eq_refl) s1).
Qed.
End PlatformMore.

Section DefaultEndpoints.
Context {W T : Type} (C : Collaborators W T).

(** X10.  The two default auxiliary endpoints are registered in one [try]
    block: when the proxy refuses the GCS link, the registration of
    MAVLink2Rest is not attempted at all.  The proxy is reset, the failure
    is logged twice, and the master endpoint is set and the proxy started
    from there. *)
Theorem gcs_link_failure_skips_mavlink2rest
        (device : Endpoint) (m : Manager W) (err : Exn) (w1 : W) :
  mm_add_endpoint C (gcs_link C) (world m) = (Some err, w1) ->
  exists m1,
    start_mavlink_manager C device m
    = (ext (SetMasterEndpoint device) (mm_set_master_endpoint C device) ;;
       ext ProxyStart (mm_start C)) m1
    /\ added m m1
       = ([Ext (AddEndpoint (gcs_link C)) (Some err);
           Log Error "Failed to add endpoint '{endpoint.name}': {error}"]
            ++ fst (reset_attempt C (mm_endpoints C (world m)) w1)
            ++ [Log Error "Could not create default GCS endpoint: {error}"])%list
    /\ world m1 = snd (reset_attempt C (mm_endpoints C (world m)) w1)
    /\ (forall r, ~ In (Ext (AddEndpoint (mavlink2rest C)) r) (added m m1)).
Proof.
  intros Hfail.
  pose proof (add_new_endpoints_first_failure C m [] (gcs_link C) []
                (world m) err w1 eq_refl Hfail) as Hraise.
  simpl app in Hraise.
  eexists. split; [|split; [|split]].
  - unfold start_mavlink_manager. unfold bind at 1, try_except.
    unfold bind at 1. rewrite Hraise. reflexivity.
  - apply added_app. simpl. now rewrite <- !app_assoc.
  - reflexivity.
  - intros r Hin.
    match type of Hin with
    | In _ (added m ?s) =>
        rewrite (added_app m s
                   ([Ext (AddEndpoint (gcs_link C)) (Some err);
                     Log Error
                       "Failed to add endpoint '{endpoint.name}': {error}"]
                      ++ fst (reset_attempt C (mm_endpoints C (world m)) w1)
                      ++ [Log Error
                            "Could not create default GCS endpoint: {error}"]))
          in Hin
    end.
    2: { simpl. now rewrite <- !app_assoc. }
    unfold reset_attempt in Hin.
    destruct (mm_clear_endpoints C w1) as [[e1|] w2];
      [|destruct (mm_add_endpoints C (mm_endpoints C (world m)) w2)
          as [[e2|] w3]];
      simpl in Hin;
      repeat (destruct Hin as [Hin|Hin];
              [try discriminate Hin;
               unfold gcs_link, mavlink2rest, protected_endpoint in Hin;
               discriminate Hin|]);
      exact Hin.
Qed.

(** X11.  When the Navigator firmware is missing and its installation
    raises, [start_navigator] raises that error: the platform is recorded,
    nothing is spawned, the subprocess handle stays as it was and the proxy
    is not touched. *)
Theorem start_navigator_without_firmware
        (m : Manager W) (err : Exn) (w1 : W) :
  fw_is_firmware_installed C Navigator (world m) = false ->
  fw_install_firmware_from_params C Sub Navigator (world m) = (Some err, w1) ->
  start_navigator C m
  = (Raised err,
     with_trace (with_world (with_platform m Navigator) w1)
       (trace m ++ [Invoke P_start_navigator;
                    Log Info "Setting {platform} as current platform.";
                    Ext (InstallFirmware Sub Navigator) (Some err)])).
Proof.
  intros Hmissing Hinstall.
  unfold start_navigator. rewrite enter_platform_then.
  unfold ensure_firmware, current_platform.
  unfold bind at 1. unfold bind at 1, gets. simpl.
  unfold bind at 1, gets. simpl. rewrite Hmissing. simpl.
  unfold ext. simpl. rewrite Hinstall.
  unfold with_trace, with_world, with_platform. simpl.
  now rewrite <- app_assoc.
Qed.
End DefaultEndpoints.

(** X10, on the test double: the proxy rejects the GCS link; MAVLink2Rest
    is not offered to it. *)
Lemma gcs_link_failure_skips_mavlink2rest_witness :
  exists m1,
    start_mavlink_manager (Double.collaborators rejects_gcs_link)
      (sitl_master (Double.collaborators rejects_gcs_link))
      (Double.fresh Double.idle)
    = (ext (SetMasterEndpoint
              (sitl_master (Double.collaborators rejects_gcs_link)))
           (mm_set_master_endpoint (Double.collaborators rejects_gcs_link)
              (sitl_master (Double.collaborators rejects_gcs_link))) ;;
       ext ProxyStart (mm_start (Double.collaborators rejects_gcs_link))) m1
    /\ forall r,
        ~ In (Ext (AddEndpoint
                     (mavlink2rest (Double.collaborators rejects_gcs_link))) r)
             (added (Double.fresh Double.idle) m1).
Proof.
  destruct (gcs_link_failure_skips_mavlink2rest
              (Double.collaborators rejects_gcs_link)
              (sitl_master (Double.collaborators rejects_gcs_link))
              (Double.fresh Double.idle) _ _ eq_refl)
    as (m1 & Hrun & _ & _ & Hnot).
  exists m1. split; [exact Hrun|exact Hnot].
Defined.

(** X11, on the test double: no firmware and no way to install it. *)
Lemma start_navigator_without_firmware_witness :
  fst (start_navigator (Double.collaborators cannot_install)
         (Double.fresh Double.idle))
  = Raised (External "install_firmware")
  /\ subprocess (snd (start_navigator (Double.collaborators cannot_install)
                        (Double.fresh Double.idle)))
     = None.
Proof.
  rewrite (start_navigator_without_firmware
             (Double.collaborators cannot_install) (Double.fresh Double.idle)
             _ _ eq_refl eq_refl).
  split; reflexivity.
Defined.

Section Launch.
Context {W T : Type} (C : Collaborators W T).

Lemma launch_events (cmd : Command) (device : Endpoint) (m : Manager W) :
  exists r evs,
    added m (snd ((spawn C cmd ;; start_mavlink_manager C device) m))
    = Ext (Popen cmd) r :: evs
    /\ forallb mavlink_event evs = true.
Proof.
  unfold bind, spawn.
  destruct (sp_Popen C cmd (world m)) as [[e|h] w1].
  - exists (Some e), []. split; [|reflexivity]. now apply added_app.
  - match goal with
    | |- context [start_mavlink_manager C device ?s] =>
        destruct (start_mavlink_manager_mavlink_events C device s)
          as (evs & Ht & Hf)
    end.
    exists None, evs. split; [|exact Hf].
    apply added_app. rewrite Ht. simpl. now rewrite <- app_assoc.
Qed.

Lemma mavlink_not_popen (evs : list Event) :
  forallb mavlink_event evs = true -> forallb not_popen evs = true.
Proof.
  rewrite !forallb_forall. intros Hall e He. specialize (Hall e He).
  destruct e as [| [] | | |]; try reflexivity; discriminate Hall.
Qed.

Lemma prelaunch_not_popen (evs : list Event) :
  forallb prelaunch_event evs = true -> forallb not_popen evs = true.
Proof.
  rewrite !forallb_forall. intros Hall e He. specialize (Hall e He).
  destruct e as [| [] | | |]; try reflexivity; discriminate Hall.
Qed.

(** A method that reaches its launch having spawned nothing spawns the
    command of the launch and no other. *)
Lemma one_command (cmd : Command) (device : Endpoint) (m m3 : Manager W)
      (pre : list Event) :
  trace m3 = (trace m ++ pre)%list ->
  forallb not_popen pre = true ->
  let m' := snd ((spawn C cmd ;; start_mavlink_manager C device) m3) in
  (exists r, In (Ext (Popen cmd) r) (added m m'))
  /\ (forall c r, In (Ext (Popen c) r) (added m m') -> c = cmd).
Proof.
  intros Ht Hpre m'.
  destruct (launch_events cmd device m3) as (r & evs & Hadd & Hevs).
  fold m' in Hadd.
  assert (Hall : added m m' = (pre ++ Ext (Popen cmd) r :: evs)%list).
  { assert (Hgrow : trace m' = (trace m3 ++ Ext (Popen cmd) r :: evs)%list).
    { assert (Honly : only any_event m3 m').
      { subst m'.
        apply (preserves_bind (only any_event) (@only_trans W any_event)).
        - apply (preserves_spawn C (only any_event) any_event); only_steps.
        - intros _.
          apply (preserves_start_mavlink_manager C (only any_event) any_event);
            only_steps. }
      destruct (only_added _ _ _ Honly) as [Ht' _]. now rewrite Ht', Hadd. }
    apply added_app. rewrite Hgrow, Ht. now rewrite <- app_assoc. }
  rewrite Hall. split.
  - exists r. apply in_or_app. right. now left.
  - intros c r' Hin. apply in_app_or in Hin as [Hin|[Hin|Hin]].
    + rewrite forallb_forall in Hpre. specialize (Hpre _ Hin).
      discriminate Hpre.
    + now injection Hin as <- _.
    + apply mavlink_not_popen in Hevs. rewrite forallb_forall in Hevs.
      specialize (Hevs _ Hin). discriminate Hevs.
Qed.

Lemma run_with_sitl_launch (frame : SITLFrame) (m : Manager W) :
  firmware_ready C SITL (world m) ->
  exists m3 pre,
    run_with_sitl C frame m
    = (spawn C (Argv (sitl_arguments C frame)) ;;
       start_mavlink_manager C (sitl_master C)) m3
    /\ trace m3 = (trace m ++ pre)%list
    /\ forallb prelaunch_event pre = true
    /\ subprocess m3 = subprocess m.
Proof.
  intros Hready. unfold firmware_ready in Hready.
  unfold run_with_sitl, set_current_platform,
    set_current_sitl_frame, ensure_firmware, current_platform,
    current_sitl_frame.
  remember (spawn C) as launch eqn:Hl.
  remember (start_mavlink_manager C (sitl_master C)) as tail eqn:Htl.
  run_step.
  destruct (fw_is_firmware_installed C SITL (world m)) eqn:Hinst; simpl.
  - destruct frame; simpl;
      (eexists; eexists; split; [reflexivity|]; simpl;
       split; [rewrite <- ?app_assoc; reflexivity|split; reflexivity]).
  - destruct Hready as [Hready|Hready]; [discriminate|].
    destruct (fw_install_firmware_from_params C Sub SITL (world m))
      as [[e|] w1]; [discriminate|]. simpl.
    destruct frame; simpl;
      (eexists; eexists; split; [reflexivity|]; simpl;
       split; [rewrite <- ?app_assoc; reflexivity|split; reflexivity]).
Qed.

Lemma start_navigator_launch (m : Manager W) :
  firmware_ready C Navigator (world m) ->
  exists m3 pre,
    start_navigator C m
    = (spawn C (Shell (navigator_command_line C)) ;;
       start_mavlink_manager C (navigator_master C)) m3
    /\ trace m3 = (trace m ++ pre)%list
    /\ forallb prelaunch_event pre = true
    /\ subprocess m3 = subprocess m.
Proof.
  intros Hready. unfold firmware_ready in Hready.
  unfold start_navigator. rewrite enter_platform_then.
  unfold ensure_firmware, current_platform.
  remember (spawn C) as launch eqn:Hl.
  remember (start_mavlink_manager C (navigator_master C)) as tail eqn:Htl.
  run_step.
  destruct (fw_is_firmware_installed C Navigator (world m)) eqn:Hinst; simpl.
  - eexists; eexists; split; [reflexivity|]. simpl.
    split; [reflexivity|split; reflexivity].
  - destruct Hready as [Hready|Hready]; [discriminate|].
    destruct (fw_install_firmware_from_params C Sub Navigator (world m))
      as [[e|] w1]; [discriminate|]. simpl.
    eexists; eexists; split; [reflexivity|]. simpl.
    split; [rewrite <- ?app_assoc; reflexivity|split; reflexivity].
Qed.

(** X12.  When the firmware is there or gets installed, [run_with_sitl]
    spawns one command and no other: the firmware path of the SITL
    platform, then [--model] with the value of the frame in effect, which
    is never the value of the undefined frame, then [--base-port 5760] and
    the home position.  A process with these arguments is one that
    [running_ardupilot_processes] finds on the SITL platform. *)
Theorem run_with_sitl_command (frame : SITLFrame) (m : Manager W) :
  firmware_ready C SITL (world m) ->
  (exists r,
      In (Ext (Popen (Argv (sitl_arguments C frame))) r)
         (added m (snd (run_with_sitl C frame m))))
  /\ (forall c r,
         In (Ext (Popen c) r) (added m (snd (run_with_sitl C frame m))) ->
         c = Argv (sitl_arguments C frame))
  /\ nth_error (sitl_arguments C frame) 2
     = Some (SITLFrame_value (effective_frame frame))
  /\ SITLFrame_value (effective_frame frame) <> SITLFrame_value UNDEFINED
  /\ (forall pid name,
         is_ardupilot_process C SITL
           (mkProcess pid name (sitl_arguments C frame)) = true).
Proof.
  intros Hready.
  destruct (run_with_sitl_launch frame m Hready)
    as (m3 & pre & Hrun & Ht & Hpre & _).
  rewrite Hrun.
  destruct (one_command (Argv (sitl_arguments C frame)) (sitl_master C)
              m m3 pre Ht (prelaunch_not_popen pre Hpre)) as [Hone Honly].
  split; [exact Hone|]. split; [exact Honly|].
  split; [reflexivity|]. split.
  - destruct frame; discriminate.
  - intros pid name. unfold is_ardupilot_process. apply contains_spec.
    apply concat_holds_each. simpl. now left.
Qed.

(** X13.  When the firmware is there or gets installed, [start_navigator]
    spawns one shell command and no other: the firmware path of the
    Navigator platform followed by the master link on UDP port 8852, the log
    and storage directories under the firmware folder, and the four serial
    ports.  The firmware path occurs in it, so a process whose command line
    holds this command is one that [running_ardupilot_processes] finds on
    the Navigator platform. *)
Theorem start_navigator_command (m : Manager W) :
  firmware_ready C Navigator (world m) ->
  (exists r,
      In (Ext (Popen (Shell (navigator_command_line C))) r)
         (added m (snd (start_navigator C m))))
  /\ (forall c r,
         In (Ext (Popen c) r) (added m (snd (start_navigator C m))) ->
         c = Shell (navigator_command_line C))
  /\ (forall pid name before after,
         In (navigator_command_line C) (before ++ navigator_command_line C
                                               :: after)%list ->
         is_ardupilot_process C Navigator
           (mkProcess pid name
              (before ++ navigator_command_line C :: after)%list) = true).
Proof.
  intros Hready.
  destruct (start_navigator_launch m Hready)
    as (m3 & pre & Hrun & Ht & Hpre & _).
  rewrite Hrun.
  destruct (one_command (Shell (navigator_command_line C))
              (navigator_master C) m m3 pre Ht (prelaunch_not_popen pre Hpre))
    as [Hone Honly].
  split; [exact Hone|]. split; [exact Honly|].
  intros pid name before after Hin.
  unfold is_ardupilot_process. apply contains_spec. simpl cmdline.
  destruct (concat_holds_each " " _ _ Hin) as (b & a & Hc).
  rewrite Hc. unfold navigator_command_line.
  exists b. eexists. rewrite !string_app_assoc. reflexivity.
Qed.
End Launch.

(** X12, on the test double. *)
Lemma run_with_sitl_command_witness :
  exists r,
    In (Ext (Popen (Argv ["/firmware/ardupilot_SITL_x86_64_linux_gnu";
                          "--model"; "vectored"; "--base-port"; "5760";
                          "--home"; "-27.563,-48.459,0.0,270.0"])) r)
       (added (Double.fresh Double.idle)
          (snd (run_with_sitl (Double.collaborators Double.no_faults)
                  UNDEFINED (Double.fresh Double.idle)))).
Proof.
  apply (run_with_sitl_command (Double.collaborators Double.no_faults)
           UNDEFINED (Double.fresh Double.idle)).
  right. reflexivity.
Defined.

(** X13, on the test double. *)
Lemma start_navigator_command_witness :
  exists r,
    In (Ext (Popen
               (Shell
                  "/firmware/ardupilot_navigator -A udp:127.0.0.1:8852 --log-directory /firmware/logs/ --storage-directory /firmware/storage/ -C /dev/ttyS0 -B /dev/ttyAMA1 -E /dev/ttyAMA2 -F /dev/ttyAMA3"))
            r)
       (added (Double.fresh Double.idle)
          (snd (start_navigator (Double.collaborators Double.no_faults)
                  (Double.fresh Double.idle)))).
Proof.
  apply (start_navigator_command (Double.collaborators Double.no_faults)
           (Double.fresh Double.idle)).
  right. reflexivity.
Defined.

(* ================================================================== *)
(** * More on the process supervisor *)

Section Supervisor.
Context {W T : Type} (C : Collaborators W T).

Lemma prune_each_all (found : list Process) :
  forall (m : Manager W) (w' : W),
    killed_all C found (world m) = Some w' ->
    prune_each C found m
    = (Return tt,
       with_trace (with_world m w')
                  (trace m ++ flat_map kill_records found)).
Proof.
  induction found as [|p found IH]; intros m w' Hall; simpl in Hall.
  - injection Hall as <-. simpl. unfold ret.
    rewrite app_nil_r. now destruct m.
  - destruct (ps_kill C p (world m)) as [[e|] w1] eqn:Hk; [discriminate|].
    simpl prune_each. unfold bind at 1, try_except. rewrite bind_logger.
    unfold bind at 1, ext at 1. simpl. rewrite Hk.
    unfold sleep, ext_total, ext. simpl.
    rewrite (IH _ w') by exact Hall. simpl.
    unfold with_trace, with_world. simpl. now rewrite <- !app_assoc.
Qed.

Lemma prune_each_first_failure (pre : list Process) :
  forall (p : Process) (post : list Process) (m : Manager W) (w1 w2 : W)
         (err : Exn),
    killed_all C pre (world m) = Some w1 ->
    ps_kill C p w1 = (Some err, w2) ->
    prune_each C (pre ++ p :: post) m
    = (Raised (ArdupilotProcessKillFail
                 "Could not kill {process.name()}::{process.pid}."),
       with_trace (with_world m w2)
         (trace m ++ flat_map kill_records pre
            ++ [Log Debug
                  "Killing Ardupilot process {process.name()}::{process.pid}.";
                Ext (Kill p) (Some err)])).
Proof.
  induction pre as [|q pre IH]; intros p post m w1 w2 err Hall Hk;
    simpl in Hall.
  - injection Hall as <-. simpl prune_each. unfold bind at 1, try_except.
    rewrite bind_logger. unfold bind at 1, ext at 1. simpl. rewrite Hk.
    simpl. unfold raise.
    unfold with_trace, with_world. simpl. now rewrite <- !app_assoc.
  - destruct (ps_kill C q (world m)) as [[e|] w0] eqn:Hq; [discriminate|].
    simpl app. simpl prune_each. unfold bind at 1, try_except.
    rewrite bind_logger. unfold bind at 1, ext at 1. simpl. rewrite Hq.
    unfold sleep, ext_total, ext. simpl.
    rewrite (IH p post _ w1 w2 err) by assumption. simpl.
    unfold with_trace, with_world. simpl. now rewrite <- !app_assoc.
Qed.

(** X14.  When every kill returns, [prune_ardupilot_processes] returns
    having killed each process that holds the firmware path of the current
    platform, once and in the order of the system's process list, with a
    debug record before and half a second of sleep after each kill; it does
    nothing else, and no field of the manager changes. *)
Theorem prune_kills_every_match (m : Manager W) (w' : W) :
  killed_all C
    (filter (is_ardupilot_process C (_current_platform m))
            (ps_process_iter C (world m)))
    (world m) = Some w' ->
  prune_ardupilot_processes C m
  = (Return tt,
     with_trace (with_world m w')
       (trace m
          ++ Scan (filter (is_ardupilot_process C (_current_platform m))
                          (ps_process_iter C (world m)))
          :: flat_map kill_records
               (filter (is_ardupilot_process C (_current_platform m))
                       (ps_process_iter C (world m))))).
Proof.
  intros Hall.
  unfold prune_ardupilot_processes, running_ardupilot_processes,
    current_platform.
  run_step.
  rewrite (prune_each_all _ _ w') by exact Hall.
  simpl. unfold with_trace, with_world. simpl. now rewrite <- !app_assoc.
Qed.

(** X15.  [prune_ardupilot_processes] stops at the first kill that raises:
    the processes found before it have been killed, the ones after it are
    not attempted, and what is raised is [ArdupilotProcessKillFail] with the
    message of the prune, not the error of the kill. *)
Theorem prune_stops_at_first_failed_kill
        (m : Manager W) (pre : list Process) (p : Process)
        (post : list Process) (w1 w2 : W) (err : Exn) :
  filter (is_ardupilot_process C (_current_platform m))
         (ps_process_iter C (world m)) = (pre ++ p :: post)%list ->
  killed_all C pre (world m) = Some w1 ->
  ps_kill C p w1 = (Some err, w2) ->
  prune_ardupilot_processes C m
  = (Raised (ArdupilotProcessKillFail
               "Could not kill {process.name()}::{process.pid}."),
     with_trace (with_world m w2)
       (trace m
          ++ Scan (pre ++ p :: post)
          :: flat_map kill_records pre
          ++ [Log Debug
                "Killing Ardupilot process {process.name()}::{process.pid}.";
              Ext (Kill p) (Some err)])).
Proof.
  intros Hfound Hall Hk.
  unfold prune_ardupilot_processes, running_ardupilot_processes,
    current_platform.
  run_step. rewrite Hfound.
  rewrite (prune_each_first_failure pre p post _ w1 w2 err) by assumption.
  simpl. unfold with_trace, with_world. simpl. now rewrite <- !app_assoc.
Qed.
End Supervisor.

(** X14, on the test double: the two firmware processes of a Navigator
    system are killed, the third process is left alone. *)
Lemma prune_kills_every_match_witness :
  exists m',
    prune_ardupilot_processes (Double.collaborators Double.no_faults)
      navigator_running = (Return tt, m')
    /\ Double.processes (world m') = [mkProcess 7 "init" ["/sbin/init"]].
Proof.
  eexists. split.
  - apply (prune_kills_every_match (Double.collaborators Double.no_faults)
             navigator_running).
    vm_compute. reflexivity.
  - reflexivity.
Defined.

(** X15, on the test double: the kill raises, and the prune raises its own
    error at the first process. *)
Lemma prune_stops_at_first_failed_kill_witness :
  fst (prune_ardupilot_processes (Double.collaborators cannot_kill)
         navigator_running)
  = Raised (ArdupilotProcessKillFail
              "Could not kill {process.name()}::{process.pid}.").
Proof.
  rewrite (prune_stops_at_first_failed_kill
             (Double.collaborators cannot_kill) navigator_running []
             (mkProcess 100 "sh"
                ["sh"; "-c";
                 "/firmware/ardupilot_navigator -A udp:127.0.0.1:8852"])
             [mkProcess 101 "ardupilot_navigator"
                ["/firmware/ardupilot_navigator"; "-A";
                 "udp:127.0.0.1:8852"]]
             (world navigator_running) (world navigator_running)
             (External "kill")).
  - reflexivity.
  - vm_compute. reflexivity.
  - reflexivity.
  - reflexivity.
Defined.

(* ================================================================== *)
(** * Kill that does not get through *)

Section KillMore.
Context {W T : Type} (C : Collaborators W T).

Lemma bind_gets {A B} (f : Manager W -> A) (k : A -> M B) (m : Manager W) :
  (x <- gets f ;; k x) m = k (f m) m.
Proof. reflexivity. Qed.

Lemma bind_raises {A B} (x : @M W A) (f : A -> M B) (m m' : Manager W)
      (e : Exn) :
  x m = (Raised e, m') -> bind x f m = (Raised e, m').
Proof. intros Hx. unfold bind. now rewrite Hx. Qed.

Lemma bind_returned {A B} (x : @M W A) (f : A -> M B) (m m' : Manager W)
      (a : A) :
  x m = (Return a, m') -> bind x f m = f a m'.
Proof. intros Hx. unfold bind. now rewrite Hx. Qed.

Lemma wait_for_exit_alive (h : Handle) (n : nat) :
  forall (m : Manager W) (w' : W),
    polled_alive C h n (world m) = Some w' ->
    wait_for_exit C h n m
    = (Raised (ArdupilotProcessKillFail
                 "Could not terminate Ardupilot subprocess."),
       with_trace (with_world m w') (trace m ++ waiting h n)).
Proof.
  induction n as [|n IH]; intros m w' Halive; simpl in Halive.
  - injection Halive as <-. simpl. unfold raise, waiting. simpl.
    rewrite app_nil_r. now destruct m.
  - destruct (sp_poll C h (world m)) as [[rc|] w1] eqn:Hpoll; [discriminate|].
    simpl wait_for_exit. unfold bind at 1, poll. rewrite Hpoll.
    rewrite bind_logger. unfold bind at 1, sleep, ext_total, ext. simpl.
    rewrite (IH _ w') by exact Halive. simpl.
    unfold waiting, with_trace, with_world. simpl.
    now rewrite <- !app_assoc.
Qed.

Lemma terminate_alive (m : Manager W) (h : Handle) (w' : W) :
  subprocess m = Some h ->
  polled_alive C h 10 (sp_terminate C h (world m)) = Some w' ->
  terminate_ardupilot_subprocess C m
  = (Raised (ArdupilotProcessKillFail
               "Could not terminate Ardupilot subprocess."),
     with_trace (with_world m w')
       (trace m ++ Ext (Terminate h) None :: waiting h 10)).
Proof.
  intros Hsub Halive. unfold terminate_ardupilot_subprocess.
  rewrite bind_gets, Hsub.
  unfold bind at 1, ext_total, ext.
  cbv beta iota zeta delta [fst snd].
  rewrite (wait_for_exit_alive h 10 _ w') by exact Halive.
  unfold with_trace, with_world. cbn [trace world _current_platform
    _current_sitl_frame subprocess should_be_running configuration].
  now rewrite <- !app_assoc.
Qed.

Lemma disarm_returns (s : Manager W) (w_d : W) :
  vm_disarm_vehicle C (world s) = (None, w_d) ->
  (logger Info "Disarming vehicle." ;;
   ext Disarm (vm_disarm_vehicle C) ;;
   logger Info "Vehicle disarmed.") s
  = (Return tt,
     with_trace (with_world s w_d)
       (trace s ++ [Log Info "Disarming vehicle."; Ext Disarm None;
                    Log Info "Vehicle disarmed."])).
Proof.
  intros Hd. unfold bind, logger, emit, modify, ext. simpl. rewrite Hd.
  simpl. unfold with_trace, with_world. simpl. now rewrite <- !app_assoc.
Qed.

(** X16.  On a platform other than SITL, a disarm that raises ends
    [kill_ardupilot] at once, with the error of the disarm: the flag
    [should_be_running] has been cleared already and stays cleared, but the
    subprocess is not signalled, no process is looked for or killed, and the
    proxy is not stopped. *)
Theorem kill_ardupilot_failed_disarm
        (m : Manager W) (err : Exn) (w1 : W) :
  _current_platform m <> SITL ->
  vm_disarm_vehicle C (world m) = (Some err, w1) ->
  kill_ardupilot C m
  = (Raised err,
     with_trace (with_world (with_should_be_running m false) w1)
       (trace m ++ [Invoke P_kill_ardupilot; Assign_should_be_running false;
                    Log Info "Disarming vehicle."; Ext Disarm (Some err)])).
Proof.
  intros Hpf Hd. unfold kill_ardupilot. rewrite clear_flag_then.
  unfold current_platform. rewrite bind_gets.
  assert (Hne : negb (Platform_eqb (_current_platform (flag_cleared m)) SITL)
                = true).
  { simpl. destruct (_current_platform m); try reflexivity.
    now contradiction Hpf. }
  rewrite Hne.
  apply bind_raises. rewrite bind_logger.
  unfold bind, ext. simpl. rewrite Hd. simpl.
  unfold with_trace, with_world. simpl. now rewrite <- !app_assoc.
Qed.

(** X17.  When the tracked subprocess is still alive at each of the ten
    polls, [kill_ardupilot] raises [ArdupilotProcessKillFail] and goes no
    further: after the disarm (none on SITL), the signal and the ten polls
    it looks for no process, kills none and does not stop the proxy.  The
    flag [should_be_running] is cleared and the handle is still held. *)
Theorem kill_ardupilot_stuck_subprocess
        (m : Manager W) (h : Handle) (w_d w' : W) :
  subprocess m = Some h ->
  (_current_platform m = SITL /\ w_d = world m
   \/ _current_platform m <> SITL
      /\ vm_disarm_vehicle C (world m) = (None, w_d)) ->
  polled_alive C h 10 (sp_terminate C h w_d) = Some w' ->
  kill_ardupilot C m
  = (Raised (ArdupilotProcessKillFail
               "Could not terminate Ardupilot subprocess."),
     with_trace (with_world (with_should_be_running m false) w')
       (trace m
          ++ [Invoke P_kill_ardupilot; Assign_should_be_running false]
          ++ disarm_records (_current_platform m)
          ++ [Log Info "Terminating Ardupilot subprocess.";
              Ext (Terminate h) None]
          ++ waiting h 10)).
Proof.
  intros Hsub Hd Halive. unfold kill_ardupilot. rewrite clear_flag_then.
  unfold current_platform. rewrite bind_gets.
  destruct Hd as [[Hpf ->]|[Hpf Hd]].
  - replace (_current_platform (flag_cleared m)) with SITL
      by (symmetry; exact Hpf).
    simpl negb. cbv iota. rewrite (bind_returned _ _ _ _ tt eq_refl).
    rewrite bind_logger. apply bind_raises.
    rewrite (terminate_alive _ h w') by assumption.
    unfold disarm_records. rewrite Hpf. simpl.
    unfold with_trace, with_world. simpl. now rewrite <- !app_assoc.
  - assert (Hne : negb (Platform_eqb (_current_platform (flag_cleared m))
                          SITL) = true).
    { simpl. destruct (_current_platform m); try reflexivity.
      now contradiction Hpf. }
    rewrite Hne.
    rewrite (bind_returned _ _ _ _ tt (disarm_returns (flag_cleared m) w_d Hd)).
    rewrite bind_logger. apply bind_raises.
    rewrite (terminate_alive _ h w') by assumption.
    unfold disarm_records.
    replace (Platform_eqb (_current_platform m) SITL) with false
      by (symmetry; apply negb_true_iff; exact Hne).
    unfold with_trace, with_world. simpl. now rewrite <- !app_assoc.
Qed.
End KillMore.

(** X16, on the test double: a Navigator whose disarm raises. *)
Lemma kill_ardupilot_failed_disarm_witness :
  fst (kill_ardupilot (Double.collaborators cannot_disarm) navigator_running)
  = Raised (External "disarm_vehicle")
  /\ Double.signalled
       (world (snd (kill_ardupilot (Double.collaborators cannot_disarm)
                      navigator_running)))
     = false.
Proof.
  rewrite (kill_ardupilot_failed_disarm
             (Double.collaborators cannot_disarm) navigator_running
             (External "disarm_vehicle") (world navigator_running)).
  - split; reflexivity.
  - discriminate.
  - reflexivity.
Defined.

(** X17, on the test double: a SITL subprocess that needs twenty sleeps to
    die. *)
Lemma kill_ardupilot_stuck_subprocess_witness :
  fst (kill_ardupilot (Double.collaborators Double.no_faults) sitl_stuck)
  = Raised (ArdupilotProcessKillFail
              "Could not terminate Ardupilot subprocess.")
  /\ Double.proxy_running
       (world (snd (kill_ardupilot (Double.collaborators Double.no_faults)
                      (with_world sitl_stuck
                         (Double.set_proxy_running (world sitl_stuck) true)))))
     = true.
Proof.
  split.
  - rewrite (kill_ardupilot_stuck_subprocess
               (Double.collaborators Double.no_faults) sitl_stuck 1%nat
               (world sitl_stuck)
               (Double.set_subprocess (world sitl_stuck) true false 10)).
    + reflexivity.
    + reflexivity.
    + left. split; reflexivity.
    + vm_compute. reflexivity.
  - vm_compute. reflexivity.
Defined.

(* ================================================================== *)
(** * What kill and start leave alone *)

Section KillSpares.
Context {W T : Type} (C : Collaborators W T).

Lemma wait_for_exit_spares (h : Handle) (n : nat) :
  preserves (only sitl_kill_event) (wait_for_exit C h n).
Proof.
  induction n as [|n IH]; simpl.
  - apply preserves_raise, only_refl.
  - step_with (@only_refl W sitl_kill_event) (@only_trans W sitl_kill_event)
              (@only_ext W sitl_kill_event).
    exact IH.
Qed.

Lemma prune_each_spares (processes : list Process) :
  preserves (only sitl_kill_event) (prune_each C processes).
Proof.
  induction processes as [|p l IH]; simpl.
  - apply preserves_ret, only_refl.
  - step_with (@only_refl W sitl_kill_event) (@only_trans W sitl_kill_event)
              (@only_ext W sitl_kill_event).
    exact IH.
Qed.

(** X18.  [kill_ardupilot] does not disarm on SITL: there, whatever its
    outcome, no call to the vehicle manager is among what it does.  And on
    every platform it writes no field but [should_be_running]: the handle of
    the subprocess is still held after the kill, and the platform, the SITL
    frame and the configuration are as before. *)
Theorem kill_ardupilot_spares_sitl (m : Manager W) :
  (_current_platform m = SITL ->
   forall r, ~ In (Ext Disarm r) (added m (snd (kill_ardupilot C m))))
  /\ subprocess (snd (kill_ardupilot C m)) = subprocess m
  /\ _current_platform (snd (kill_ardupilot C m)) = _current_platform m
  /\ _current_sitl_frame (snd (kill_ardupilot C m)) = _current_sitl_frame m
  /\ configuration (snd (kill_ardupilot C m)) = configuration m.
Proof.
  split.
  - intros Hpf r Hin.
    assert (Hwork : only sitl_kill_event (flag_cleared m)
                         (snd (kill_ardupilot C m))).
    { unfold kill_ardupilot. rewrite clear_flag_then.
      unfold current_platform. rewrite bind_gets.
      replace (_current_platform (flag_cleared m)) with SITL
        by (symmetry; exact Hpf).
      simpl negb. cbv iota.
      match goal with
      | |- only _ _ (snd (?x _)) =>
          assert (Hp : preserves (only sitl_kill_event) x); [|apply Hp]
      end.
      unfold terminate_ardupilot_subprocess, prune_ardupilot_processes,
        running_ardupilot_processes, current_platform, ext_total.
      step_with (@only_refl W sitl_kill_event)
                (@only_trans W sitl_kill_event)
                (@only_ext W sitl_kill_event).
      - apply wait_for_exit_spares.
      - apply prune_each_spares. }
    destruct Hwork as (evs & Ht & Hf).
    rewrite (added_app m _ ([Invoke P_kill_ardupilot;
                             Assign_should_be_running false] ++ evs)) in Hin.
    + destruct Hin as [Hin|[Hin|Hin]]; try discriminate Hin.
      rewrite forallb_forall in Hf. specialize (Hf _ Hin). discriminate Hf.
    + rewrite Ht. simpl. now rewrite <- app_assoc.
  - destruct (kill_ardupilot_steps C m) as [_ (Hp & Hf & Hs & _ & Hc)].
    simpl in Hp, Hf, Hs, Hc. auto.
Qed.
End KillSpares.

Section StartMore.
Context {W T : Type} `{BoardEnum T} (C : Collaborators W T).

Lemma run_with_sitl_keeps_flag (frame : SITLFrame) :
  preserves (keeps should_be_running) (run_with_sitl C frame).
Proof.
  apply (preserves_run_with_sitl C (keeps should_be_running) any_event);
    try reflexivity.
  intros a b c. apply keeps_trans.
Qed.

Lemma run_with_board_keeps_flag (fuel : nat) :
  preserves (keeps should_be_running) (run_with_board C fuel).
Proof.
  apply (preserves_run_with_board C (keeps should_be_running) any_event);
    try reflexivity.
  intros a b c. apply keeps_trans.
Qed.

Lemma then_set_flag (x : @M W unit) (s m : Manager W) :
  preserves (keeps should_be_running) x ->
  should_be_running s = should_be_running m ->
  (fst ((x ;; set_should_be_running true) s) = Return tt ->
   should_be_running (snd ((x ;; set_should_be_running true) s)) = true)
  /\ (fst ((x ;; set_should_be_running true) s) <> Return tt ->
      should_be_running (snd ((x ;; set_should_be_running true) s))
      = should_be_running m).
Proof.
  intros Hkeep Hs. specialize (Hkeep s). unfold bind.
  destruct (x s) as [[[]|e|] m1]; simpl in *.
  - split; [reflexivity|]. intros Hne. now contradiction Hne.
  - split; [discriminate|]. intros _. unfold keeps in Hkeep. congruence.
  - split; [discriminate|]. intros _. unfold keeps in Hkeep. congruence.
Qed.

Lemma start_ardupilot_then_flag (fuel : nat) (m : Manager W) :
  exists x : @M W unit,
    preserves (keeps should_be_running) x
    /\ start_ardupilot C fuel m
       = (x ;; set_should_be_running true) (entered P_start_ardupilot m).
Proof.
  unfold start_ardupilot, current_platform, current_sitl_frame.
  destruct (Platform_eqb (_current_platform m) SITL) eqn:Hp.
  - exists (run_with_sitl C (_current_sitl_frame m)).
    split; [apply run_with_sitl_keeps_flag|].
    unfold bind at 1, emit, modify. cbv beta iota.
    fold (entered P_start_ardupilot m). rewrite bind_gets.
    change (_current_platform (entered P_start_ardupilot m))
      with (_current_platform m).
    rewrite Hp. rewrite bind_gets. reflexivity.
  - exists (run_with_board C fuel).
    split; [apply run_with_board_keeps_flag|].
    unfold bind at 1, emit, modify. cbv beta iota.
    fold (entered P_start_ardupilot m). rewrite bind_gets.
    change (_current_platform (entered P_start_ardupilot m))
      with (_current_platform m).
    rewrite Hp. reflexivity.
Qed.

(** X19.  [start_ardupilot] sets [should_be_running] only once the start
    procedure of the platform has returned: when the call returns the flag
    is set, and when it does not (the start raised, or the detection of a
    board is still going on) the flag is what it was before the call. *)
Theorem start_ardupilot_sets_flag_on_return (fuel : nat) (m : Manager W) :
  (fst (start_ardupilot C fuel m) = Return tt ->
   should_be_running (snd (start_ardupilot C fuel m)) = true)
  /\ (fst (start_ardupilot C fuel m) <> Return tt ->
      should_be_running (snd (start_ardupilot C fuel m))
      = should_be_running m).
Proof.
  destruct (start_ardupilot_then_flag fuel m) as (x & Hkeep & ->).
  now apply then_set_flag.
Qed.

(** X20.  On a platform other than SITL, [start_ardupilot] without root
    privilege raises [RuntimeError] before it looks for a board: nothing is
    detected, started or written, whatever the number of turns the detection
    would have been given. *)
Theorem start_ardupilot_without_root (fuel : nat) (m : Manager W) :
  _current_platform m <> SITL ->
  os_geteuid C (world m) <> 0 ->
  start_ardupilot C fuel m
  = (Raised (RuntimeError
               "ArduPilot manager needs to run with root privilege."),
     entered P_start_ardupilot m).
Proof.
  intros Hpf Heuid. unfold start_ardupilot.
  unfold bind at 1, emit, modify. cbv beta iota.
  fold (entered P_start_ardupilot m).
  unfold current_platform. rewrite bind_gets.
  replace (Platform_eqb (_current_platform (entered P_start_ardupilot m))
                        SITL) with false.
  2: { simpl. destruct (_current_platform m); try reflexivity.
       now contradiction Hpf. }
  apply bind_raises. unfold run_with_board. apply bind_raises.
  unfold check_running_as_root. rewrite bind_gets.
  replace (os_geteuid C (world (entered P_start_ardupilot m)) =? 0)
    with false; [reflexivity|].
  symmetry. apply Z.eqb_neq. exact Heuid.
Qed.

Lemma slept_next (ms : Z) (k : nat) (w : W) :
  slept C ms (S k) w = slept C ms k (time_sleep C ms w).
Proof. unfold slept. apply Nat.iter_succ_r. Qed.

Lemma detect_loop_waits (fuel : nat) :
  forall m : Manager W,
    (forall k, (k < fuel)%nat -> detect C (slept C 2000 k (world m)) = []) ->
    detect_loop C fuel m
    = (Diverged,
       with_trace (with_world m (slept C 2000 fuel (world m)))
                  (trace m ++ retries fuel)).
Proof.
  induction fuel as [|fuel IH]; intros m Hnone.
  - simpl. unfold diverge, retries. simpl. rewrite app_nil_r.
    now destruct m.
  - rewrite slept_next. simpl detect_loop. rewrite bind_gets.
    assert (Hfirst : detect C (world m) = []).
    { apply (Hnone 0%nat). lia. }
    rewrite Hfirst. simpl start_board.
    unfold bind at 1, ret. cbv beta iota.
    rewrite bind_logger. unfold bind at 1, sleep, ext_total, ext.
    cbv beta iota zeta delta [fst snd].
    rewrite IH.
    + unfold retries, with_trace, with_world. simpl.
      now rewrite <- !app_assoc.
    + intros k Hk.
      change (detect C (slept C 2000 k (time_sleep C 2000 (world m))) = []).
      rewrite <- slept_next. apply Hnone. lia.
Qed.

(** X21.  As root, and for as long as no board is detected,
    [run_with_board] neither returns nor raises: each turn of its loop logs
    a warning and sleeps two seconds, no platform is entered, and after any
    number of turns the loop is still running. *)
Theorem run_with_board_waits_for_a_board (fuel : nat) (m : Manager W) :
  os_geteuid C (world m) = 0 ->
  (forall k, (k < fuel)%nat -> detect C (slept C 2000 k (world m)) = []) ->
  run_with_board C fuel m
  = (Diverged,
     with_trace (with_world m (slept C 2000 fuel (world m)))
                (trace m ++ retries fuel)).
Proof.
  intros Heuid Hnone. unfold run_with_board, check_running_as_root.
  unfold bind at 1. rewrite bind_gets, Heuid. simpl.
  unfold ret. now apply detect_loop_waits.
Qed.

Lemma idle_turn (fuel : nat) (m : Manager W) :
  at_rest m ->
  exists m1,
    auto_restart_iteration C fuel m = (Return tt, m1)
    /\ same_fields m m1
    /\ only idle_event m m1.
Proof.
  unfold at_rest, auto_restart_iteration, subprocess_stopped, needs_restart,
    running_ardupilot_processes, current_platform, poll, sleep.
  destruct m as [pf fr sub run cfg w tr]. simpl. intros Hrest.
  destruct sub as [h|]; run_step.
  - destruct (sp_poll C h w) as [rc w1]. simpl.
    destruct run; simpl;
      [destruct pf; simpl;
       try (destruct Hrest as [Hr|[Hr|Hr]]; discriminate Hr)|];
      (eexists; split; [reflexivity|]; split; [repeat split|];
       eexists; split; [simpl; rewrite <- ?app_assoc; reflexivity|];
       reflexivity).
  - destruct run; simpl;
      [destruct pf; simpl;
       try (destruct Hrest as [Hr|[Hr|Hr]]; discriminate Hr)|];
      (eexists; split; [reflexivity|]; split; [repeat split|];
       eexists; split; [simpl; rewrite <- ?app_assoc; reflexivity|];
       reflexivity).
Qed.

Lemma idle_invocations (evs : list Event) :
  forallb idle_event evs = true -> invocations evs = [].
Proof.
  induction evs as [|e evs IH]; simpl; [reflexivity|].
  intros Hf. apply andb_prop in Hf as [He Hf].
  rewrite (IH Hf). destruct e; try reflexivity. discriminate He.
Qed.

Lemma auto_restart_at_rest (ticks fuel : nat) :
  forall m : Manager W,
    at_rest m ->
    exists m',
      auto_restart C ticks fuel m = (Diverged, m')
      /\ same_fields m m'
      /\ only idle_event m m'
      /\ at_rest m'.
Proof.
  induction ticks as [|ticks IH]; intros m Hrest.
  - exists m. split; [reflexivity|]. split; [apply same_fields_refl|].
    split; [apply only_refl|exact Hrest].
  - destruct (idle_turn fuel m Hrest) as (m1 & Hturn & Hsame & Honly).
    assert (Hrest1 : at_rest m1).
    { destruct Hsame as (Hp & _ & _ & Hr & _). unfold at_rest.
      rewrite Hp, Hr. exact Hrest. }
    destruct (IH m1 Hrest1) as (m' & Hrun & Hsame' & Honly' & Hrest').
    exists m'. split; [|split; [|split]].
    + simpl. unfold bind at 1. now rewrite Hturn.
    + eapply same_fields_trans; eassumption.
    + eapply only_trans; eassumption.
    + exact Hrest'.
Qed.

(** X22.  While [should_be_running] is false, or the platform is Pixhawk1
    or Undefined, the loop of [auto_restart] never starts anything, however
    many turns it takes: each turn polls the handle if there is one and
    sleeps five seconds, the process table is not looked at, no method is
    entered, no field of the manager changes, and the loop goes on. *)
Theorem auto_restart_stays_at_rest (ticks fuel : nat) (m : Manager W) :
  at_rest m ->
  exists m',
    auto_restart C ticks fuel m = (Diverged, m')
    /\ same_fields m m'
    /\ only idle_event m m'
    /\ invocations (added m m') = []
    /\ at_rest m'.
Proof.
  intros Hrest.
  destruct (auto_restart_at_rest ticks fuel m Hrest)
    as (m' & Hrun & Hsame & Honly & Hrest').
  exists m'. repeat (split; [assumption|]). split; [|exact Hrest'].
  destruct (only_added _ _ _ Honly) as [_ Hidle].
  apply idle_invocations. exact Hidle.
Qed.

(** X23.  A killed autopilot is not started again by the loop: from the
    state [kill_ardupilot] leaves, whatever its outcome, the loop of
    [auto_restart] enters no method for any number of turns, and
    [should_be_running] stays false until [start_ardupilot] is called. *)
Theorem killed_is_not_restarted (ticks fuel : nat) (m : Manager W) :
  exists m',
    auto_restart C ticks fuel (snd (kill_ardupilot C m)) = (Diverged, m')
    /\ invocations (added (snd (kill_ardupilot C m)) m') = []
    /\ should_be_running m' = false
    /\ subprocess m' = subprocess m.
Proof.
  destruct (kill_ardupilot_steps C m) as [_ (_ & _ & Hsub & Hflag & _)].
  simpl in Hsub, Hflag.
  destruct (auto_restart_at_rest ticks fuel (snd (kill_ardupilot C m)))
    as (m' & Hrun & Hsame & Honly & _).
  { left. exact Hflag. }
  exists m'. split; [exact Hrun|].
  destruct (only_added _ _ _ Honly) as [_ Hidle].
  destruct Hsame as (_ & _ & Hs & Hr & _).
  split; [apply idle_invocations, Hidle|]. split; congruence.
Qed.
End StartMore.

(** X20, on the test double: a Navigator manager run by user 1000. *)
Lemma start_ardupilot_without_root_witness :
  fst (start_ardupilot (Double.collaborators Double.no_faults) 5
         unprivileged)
  = Raised (RuntimeError
              "ArduPilot manager needs to run with root privilege.").
Proof.
  rewrite (start_ardupilot_without_root
             (Double.collaborators Double.no_faults) 5 unprivileged).
  - reflexivity.
  - discriminate.
  - discriminate.
Defined.

(** X21, on the test double: no board for three turns. *)
Lemma run_with_board_waits_for_a_board_witness :
  fst (run_with_board (Double.collaborators Double.no_faults) 3
         (Double.fresh Double.idle))
  = Diverged
  /\ added (Double.fresh Double.idle)
       (snd (run_with_board (Double.collaborators Double.no_faults) 3
               (Double.fresh Double.idle)))
     = retries 3.
Proof.
  rewrite (run_with_board_waits_for_a_board
             (Double.collaborators Double.no_faults) 3
             (Double.fresh Double.idle)).
  - split; reflexivity.
  - reflexivity.
  - intros k Hk.
    destruct k as [|[|[|k]]]; [reflexivity|reflexivity|reflexivity|lia].
Defined.

(** X22, on the test double: a fresh manager, four turns. *)
Lemma auto_restart_stays_at_rest_witness :
  exists m',
    auto_restart (Double.collaborators Double.no_faults) 4 1
      (Double.fresh Double.idle) = (Diverged, m')
    /\ only idle_event (Double.fresh Double.idle) m'.
Proof.
  destruct (auto_restart_stays_at_rest
              (Double.collaborators Double.no_faults) 4 1
              (Double.fresh Double.idle)) as (m' & Hrun & _ & Honly & _ & _).
  - left. reflexivity.
  - exists m'. split; [exact Hrun|exact Honly].
Defined.

(* ================================================================== *)
(** * The enumerations *)

(** X24.  In each enumeration of typedefs.py that the manager uses by
    value, distinct members have distinct values, so that no member is an
    alias of another and comparing values is comparing members: the frames
    of SITL, the platforms on either architecture, the flight controller
    types and the endpoint types. *)
Theorem enumeration_values_distinct :
  (forall a b, SITLFrame_value a = SITLFrame_value b -> a = b)
  /\ (forall machine a b,
         Platform_value machine a = Platform_value machine b -> a = b)
  /\ (forall a b,
         FlightControllerType_value a = FlightControllerType_value b ->
         a = b)
  /\ (forall a b, EndpointType_value a = EndpointType_value b -> a = b).
Proof.
  split; [|split; [|split]].
  - intros a b Heq.
    destruct a; destruct b; try reflexivity; discriminate Heq.
  - apply Platform_value_injective.
  - intros a b Heq.
    destruct a; destruct b; try reflexivity; discriminate Heq.
  - intros a b Heq.
    destruct a; destruct b; try reflexivity; discriminate Heq.
Qed.

(* ================================================================== *)
(** * A spawn that fails *)

Section FailedSpawn.
Context {W T : Type} (C : Collaborators W T).

Lemma launch_outcome (cmd : Command) (device : Endpoint) (m : Manager W) :
  (exists err w1,
      (spawn C cmd ;; start_mavlink_manager C device) m
      = (Raised err,
         with_trace (with_world m w1)
                    (trace m ++ [Ext (Popen cmd) (Some err)])))
  \/ (exists evs,
         added m (snd ((spawn C cmd ;; start_mavlink_manager C device) m))
         = Ext (Popen cmd) None :: evs
         /\ forallb mavlink_event evs = true).
Proof.
  unfold bind, spawn.
  destruct (sp_Popen C cmd (world m)) as [[e|h] w1].
  - left. exists e, w1. reflexivity.
  - right.
    match goal with
    | |- context [start_mavlink_manager C device ?s] =>
        destruct (start_mavlink_manager_mavlink_events C device s)
          as (evs & Ht & Hf)
    end.
    exists evs. split; [|exact Hf].
    apply added_app. rewrite Ht. simpl. now rewrite <- app_assoc.
Qed.

Lemma prelaunch_no_proxy_call (evs : list Event) :
  forallb prelaunch_event evs = true ->
  forallb (fun e => negb (proxy_call e)) evs = true.
Proof.
  rewrite !forallb_forall. intros Hall e He. specialize (Hall e He).
  destruct e as [| [] | | |]; try reflexivity; discriminate Hall.
Qed.

Lemma failed_launch (cmd : Command) (device : Endpoint) (m m3 : Manager W)
      (pre : list Event) :
  trace m3 = (trace m ++ pre)%list ->
  forallb prelaunch_event pre = true ->
  subprocess m3 = subprocess m ->
  forall c err,
    In (Ext (Popen c) (Some err))
       (added m (snd ((spawn C cmd ;; start_mavlink_manager C device) m3))) ->
    fst ((spawn C cmd ;; start_mavlink_manager C device) m3) = Raised err
    /\ subprocess (snd ((spawn C cmd ;; start_mavlink_manager C device) m3))
       = subprocess m
    /\ forallb (fun e => negb (proxy_call e))
         (added m (snd ((spawn C cmd ;; start_mavlink_manager C device) m3)))
       = true.
Proof.
  intros Ht Hpre Hsub c err Hin.
  assert (Hnot : forall c' r, ~ In (Ext (Popen c') r) pre).
  { intros c' r Hp. apply prelaunch_not_popen in Hpre.
    rewrite forallb_forall in Hpre. specialize (Hpre _ Hp).
    discriminate Hpre. }
  destruct (launch_outcome cmd device m3)
    as [(err0 & w1 & Hrun)|(evs & Hadd & Hevs)].
  - rewrite Hrun in *. simpl fst. simpl snd in *.
    rewrite (added_app m _ (pre ++ [Ext (Popen cmd) (Some err0)])) in *
      by (simpl; rewrite Ht; now rewrite <- app_assoc).
    apply in_app_or in Hin as [Hin|[Hin|[]]]; [now apply Hnot in Hin|].
    injection Hin as _ ->.
    split; [reflexivity|]. split; [exact Hsub|].
    rewrite forallb_app, (prelaunch_no_proxy_call pre Hpre). reflexivity.
  - exfalso.
    pose proof (launch_extends_trace C cmd device m3) as Hgrow.
    destruct (only_added _ _ _ Hgrow) as [Ht' _].
    rewrite Hadd in Ht'.
    rewrite (added_app m _ (pre ++ Ext (Popen cmd) None :: evs)) in Hin
      by (rewrite Ht', Ht; now rewrite <- app_assoc).
    apply in_app_or in Hin as [Hin|[Hin|Hin]].
    + now apply Hnot in Hin.
    + discriminate Hin.
    + apply mavlink_not_popen in Hevs. rewrite forallb_forall in Hevs.
      specialize (Hevs _ Hin). discriminate Hevs.
Qed.

(** X25.  [start_navigator] and [run_with_sitl] turn to the proxy only
    once the firmware process has been spawned.  When the spawn raises, the
    procedure raises the same error, the handle of the subprocess is the one
    held before, and no call to the proxy or to the settings store has been
    made: no endpoint is added, the master endpoint is not set and the proxy
    is not started. *)
Theorem failed_spawn_leaves_proxy_alone (m : Manager W) :
  (firmware_ready C Navigator (world m) ->
   forall c err,
     In (Ext (Popen c) (Some err)) (added m (snd (start_navigator C m))) ->
     fst (start_navigator C m) = Raised err
     /\ subprocess (snd (start_navigator C m)) = subprocess m
     /\ forallb (fun e => negb (proxy_call e))
                (added m (snd (start_navigator C m))) = true)
  /\ (forall frame,
         firmware_ready C SITL (world m) ->
         forall c err,
           In (Ext (Popen c) (Some err))
              (added m (snd (run_with_sitl C frame m))) ->
           fst (run_with_sitl C frame m) = Raised err
           /\ subprocess (snd (run_with_sitl C frame m)) = subprocess m
           /\ forallb (fun e => negb (proxy_call e))
                      (added m (snd (run_with_sitl C frame m))) = true).
Proof.
  split.
  - intros Hready.
    destruct (start_navigator_launch C m Hready)
      as (m3 & pre & Hrun & Ht & Hpre & Hsub).
    rewrite Hrun. now apply (failed_launch _ _ m m3 pre).
  - intros frame Hready.
    destruct (run_with_sitl_launch C frame m Hready)
      as (m3 & pre & Hrun & Ht & Hpre & Hsub).
    rewrite Hrun. now apply (failed_launch _ _ m m3 pre).
Qed.
End FailedSpawn.

(** X25, on the test double: the system cannot spawn. *)
Lemma failed_spawn_leaves_proxy_alone_witness :
  fst (run_with_sitl (Double.collaborators cannot_spawn) QUAD
         (Double.fresh Double.idle))
  = Raised (External "Popen")
  /\ Double.proxy_running
       (world (snd (run_with_sitl (Double.collaborators cannot_spawn) QUAD
                      (Double.fresh Double.idle))))
     = false.
Proof.
  destruct (failed_spawn_leaves_proxy_alone
              (Double.collaborators cannot_spawn) (Double.fresh Double.idle))
    as [_ Hsitl].
  destruct (Hsitl QUAD (or_intror eq_refl)
              (Argv (sitl_arguments (Double.collaborators cannot_spawn) QUAD))
              (External "Popen")) as (Hraised & _ & _).
  - vm_compute. do 4 right. left. reflexivity.
  - split; [exact Hraised|reflexivity].
Defined.

(* ================================================================== *)
(** * Boards of the same type *)

Section Stable.
Context {T : Type} (value : T -> Z).

Lemma insert_board_stable (key : Z) (b : T * string)
      (l : list (T * string)) :
  filter (valued value key) (insert_board value b l)
  = filter (valued value key) (b :: l).
Proof.
  induction l as [|c l IH]; [reflexivity|].
  simpl insert_board.
  destruct (value (fst b) <=? value (fst c)) eqn:Hle; [reflexivity|].
  apply Z.leb_gt in Hle.
  change (filter (valued value key) (c :: insert_board value b l))
    with (if valued value key c
          then c :: filter (valued value key) (insert_board value b l)
          else filter (valued value key) (insert_board value b l)).
  rewrite IH. simpl. unfold valued.
  destruct (value (fst c) =? key) eqn:Hc;
    destruct (value (fst b) =? key) eqn:Hb; try reflexivity.
  apply Z.eqb_eq in Hc, Hb. lia.
Qed.

(** X26.  The sort of [start_board] is stable: boards of the same type
    keep the order in which they were detected.  So the board in use is the
    first detected among the boards of the least value. *)
Theorem sort_boards_stable (l : list (T * string)) :
  (forall key,
      filter (valued value key) (sort_boards value l)
      = filter (valued value key) l)
  /\ (forall winner where_ rest,
         sort_boards value l = (winner, where_) :: rest ->
         hd_error (filter (valued value (value winner)) l)
         = Some (winner, where_)).
Proof.
  assert (Hstable : forall key,
             filter (valued value key) (sort_boards value l)
             = filter (valued value key) l).
  { intros key. induction l as [|b l IH]; [reflexivity|].
    simpl sort_boards. rewrite insert_board_stable. simpl.
    now rewrite IH. }
  split; [exact Hstable|].
  intros winner where_ rest Hsort.
  rewrite <- Hstable, Hsort. simpl. unfold valued at 1. simpl.
  now rewrite Z.eqb_refl.
Qed.
End Stable.
